(** * Standardization and station-merge pipeline of medical_lock_hospitals

    A shallow embedding of the Python scripts that clean the SQLite archive
    [medical_lock_hospitals.db]:

    - [archive/python_tools/standardize_data.py]  (module [Archive]),
    - [analyze_hospital_ops.py]                   (module [Analyze]),
    - [python_tools/update_standardizations.py]   (module [Update]).

    Python strings are modelled as [string]; the case mappings, the
    whitespace class and [str.title] are CPython's on the ASCII range, so
    the statements whose truth depends on them carry the hypothesis
    [Py.isascii].  SQLite tables are lists of rows in scan order; what a
    statement does to them, its [rowcount] and its constraint failures are
    written out in module [Sql]. *)

From Stdlib Require Import String Ascii List Bool Arith ZArith QArith Lia.
Import ListNotations.

Open Scope string_scope.
Open Scope bool_scope.

(** ** Python values, exceptions and the string methods the scripts call *)

Module Py.

(** What a cell read from SQLite, or a pandas object cell, can hold here. *)
Inductive value : Type :=
| VNone
| VStr (s : string)
| VInt (z : Z).

Inductive exn : Type :=
| AttributeError
| TypeError
| ValueError
| IntegrityError
| IndexError
| OperationalError
| OSError.

(** A computation either raises ([inl]) or returns ([inr]). *)
Definition result (A : Type) : Type := (exn + A)%type.

Definition ret {A} (a : A) : result A := inr a.
Definition raise {A} (e : exn) : result A := inl e.
Definition bind {A B} (m : result A) (k : A -> result B) : result B :=
  match m with
  | inl e => inl e
  | inr a => k a
  end.

Definition code (c : ascii) : nat := nat_of_ascii c.

Definition between (lo hi n : nat) : bool := (lo <=? n)%nat && (n <=? hi)%nat.

(** [str.isspace] on one ASCII character: TAB..CR, FS..US and the space. *)
Definition isspace (c : ascii) : bool :=
  between 9 13 (code c) || between 28 32 (code c).

Definition isupper (c : ascii) : bool := between 65 90 (code c).
Definition islower (c : ascii) : bool := between 97 122 (code c).
Definition is_cased (c : ascii) : bool := isupper c || islower c.

Definition lower_char (c : ascii) : ascii :=
  if isupper c then ascii_of_nat (code c + 32) else c.

Definition upper_char (c : ascii) : ascii :=
  if islower c then ascii_of_nat (code c - 32) else c.

Definition isascii_char (c : ascii) : bool := (code c <? 128)%nat.

(** [str.isascii] *)
Fixpoint isascii (s : string) : bool :=
  match s with
  | EmptyString => true
  | String c s' => isascii_char c && isascii s'
  end.

(** [str.lower] *)
Fixpoint lower (s : string) : string :=
  match s with
  | EmptyString => EmptyString
  | String c s' => String (lower_char c) (lower s')
  end.

(** [str.title]: a cased character is upper-cased when the previous
    character is not cased and lower-cased when it is. *)
Fixpoint title_from (previous_is_cased : bool) (s : string) : string :=
  match s with
  | EmptyString => EmptyString
  | String c s' =>
      String (if previous_is_cased then lower_char c else upper_char c)
             (title_from (is_cased c) s')
  end.

Definition title (s : string) : string := title_from false s.

Fixpoint lstrip (s : string) : string :=
  match s with
  | EmptyString => EmptyString
  | String c s' => if isspace c then lstrip s' else s
  end.

Fixpoint rstrip (s : string) : string :=
  match s with
  | EmptyString => EmptyString
  | String c s' =>
      match rstrip s' with
      | EmptyString => if isspace c then EmptyString else String c EmptyString
      | String _ _ as r => String c r
      end
  end.

(** [str.strip] with no argument *)
Definition strip (s : string) : string := rstrip (lstrip s).

(** [sub in s] *)
Fixpoint contains (sub s : string) : bool :=
  prefix sub s ||
  match s with
  | EmptyString => false
  | String _ s' => contains sub s'
  end.

Definition push_word (w : string) (ws : list string) : list string :=
  match w with
  | EmptyString => ws
  | String _ _ => w :: ws
  end.

(** The word under construction and the words after it. *)
Fixpoint split_from (s : string) : string * list string :=
  match s with
  | EmptyString => (EmptyString, [])
  | String c s' =>
      let (w, ws) := split_from s' in
      if isspace c then (EmptyString, push_word w ws) else (String c w, ws)
  end.

(** [str.split] with no argument: the maximal runs of non-whitespace. *)
Definition split (s : string) : list string :=
  let (w, ws) := split_from s in push_word w ws.

(** [sep.join(words)] *)
Definition join (sep : string) (words : list string) : string :=
  String.concat sep words.

(** Truth value of an object, as [not value] tests it. *)
Definition truthy (v : value) : bool :=
  match v with
  | VNone => false
  | VStr EmptyString => false
  | VStr (String _ _) => true
  | VInt z => negb (z =? 0)%Z
  end.

(** [pd.isna] on a scalar cell: only the missing value is NA. *)
Definition isna (v : value) : bool :=
  match v with
  | VNone => true
  | _ => false
  end.

(** Receiver of a [str] method: any other object has no such attribute. *)
Definition as_str (v : value) : result string :=
  match v with
  | VStr s => ret s
  | _ => raise AttributeError
  end.

End Py.

Import Py.

Declare Scope py_scope.
Notation "x <- m ;; k" := (bind m (fun x => k))
  (at level 61, m at next level, right associativity) : py_scope.
Notation "' p <- m ;; k" := (bind m (fun x => match x with p => k end))
  (at level 61, p pattern, m at next level, right associativity) : py_scope.
Open Scope py_scope.

(** ** The database file and the backup directory *)

Module Fs.

Inductive event : Type :=
| Makedirs
| Copy2 (dst : string)
| Connect
| DropTable
| Commit.

(** [db_file] is the content of the database file when it exists,
    [backup_dir] the files of the backup directory when it exists,
    [writable] whether the backup location accepts writes, and [journal]
    the operations performed on the files, oldest first. *)
Record filesystem (D : Type) : Type := {
  db_file : option D;
  backup_dir : option (list (string * D));
  writable : bool;
  journal : list event
}.

Arguments db_file {D} _.
Arguments backup_dir {D} _.
Arguments writable {D} _.
Arguments journal {D} _.

Section Operations.
Context {D : Type}.

Definition log (e : event) (fs : filesystem D) : filesystem D :=
  {| db_file := db_file fs;
     backup_dir := backup_dir fs;
     writable := writable fs;
     journal := journal fs ++ [e] |}.

(** [os.makedirs(path, exist_ok=True)] *)
Definition makedirs (fs : filesystem D) : result (filesystem D) :=
  match backup_dir fs with
  | Some _ => ret fs
  | None =>
      if writable fs then
        ret (log Makedirs
               {| db_file := db_file fs;
                  backup_dir := Some [];
                  writable := writable fs;
                  journal := journal fs |})
      else raise OSError
  end.

(** [shutil.copy2(DB_PATH, dst)]: raises when the source file is missing
    or the destination cannot be written. *)
Definition copy2 (dst : string) (fs : filesystem D) : result (filesystem D) :=
  match db_file fs, backup_dir fs with
  | Some content, Some files =>
      if writable fs then
        ret (log (Copy2 dst)
               {| db_file := db_file fs;
                  backup_dir :=
                    Some ((dst, content)
                            :: filter (fun f => negb (fst f =? dst)) files);
                  writable := writable fs;
                  journal := journal fs |})
      else raise OSError
  | _, _ => raise OSError
  end.

(** [conn.commit()]: the content of the connection replaces the file's. *)
Definition commit (content : D) (fs : filesystem D) : filesystem D :=
  log Commit
    {| db_file := Some content;
       backup_dir := backup_dir fs;
       writable := writable fs;
       journal := journal fs |}.

(** The backup file found at [path], if any. *)
Definition backup_at (path : string) (fs : filesystem D) : option D :=
  match backup_dir fs with
  | Some files =>
      match filter (fun f => fst f =? path) files with
      | (_, content) :: _ => Some content
      | [] => None
      end
  | None => None
  end.

End Operations.

(** The state a run leaves behind and the exception that ended it. *)
Record outcome (D : Type) : Type := {
  files : filesystem D;
  raised : option exn
}.

Arguments files {D} _.
Arguments raised {D} _.

End Fs.

(** ** archive/python_tools/standardize_data.py *)

Module Archive.

Definition standardize_class (value : value) : result Py.value :=
  if negb (truthy value) then ret VNone else
  s <- as_str value ;;
  let value := strip (lower s) in
  if contains "first" value || contains "1st" value then
    ret (VStr "First Class")
  else if contains "second" value || contains "2nd" value then
    ret (VStr "Second Class")
  else if contains "third" value || contains "3rd" value then
    ret (VStr "Third Class")
  else if contains "military" value then
    ret (VStr "Military")
  else if contains "civil" value then
    ret (VStr "Civil")
  else ret (VStr (title value)).

Definition standardize_act (value : value) : result Py.value :=
  if negb (truthy value) then ret VNone else
  s <- as_str value ;;
  let value := strip (lower s) in
  if contains "xiv" value && contains "1868" value then
    ret (VStr "Act XIV of 1868")
  else if contains "xxii" value && contains "1864" value then
    ret (VStr "Act XXII of 1864")
  else if contains "iii" value && contains "1880" value then
    ret (VStr "Act III of 1880")
  else if contains "xii" value && contains "1864" value then
    ret (VStr "Act XII of 1864")
  else if contains "voluntary" value then
    ret (VStr "Voluntary System")
  else ret (VStr (title value)).

Definition standardize_country (value : value) : result Py.value :=
  if negb (truthy value) then ret VNone else
  s <- as_str value ;;
  let value := strip (lower s) in
  if contains "british india" value then
    ret (VStr "British India")
  else if contains "burma" value then
    ret (VStr "British Burma")
  else ret (VStr (title value)).

Definition standardize_region (value : value) : result Py.value :=
  if negb (truthy value) then ret VNone else
  s <- as_str value ;;
  let value := strip (lower s) in
  if contains "madras" value then
    ret (VStr "Madras Presidency")
  else if contains "burma" value then
    ret (VStr "Burma")
  else if contains "punjab" value then
    ret (VStr "Punjab")
  else if contains "central provinces" value then
    ret (VStr "Central Provinces")
  else if contains "north-western provinces" value || contains "oudh" value then
    ret (VStr "North-Western Provinces & Oudh")
  else ret (VStr (title value)).

(** [hospital_operations] as [SELECT *] and [PRAGMA table_info] show it:
    the column names in declaration order and every row's cells in that
    order. *)
Record table : Type := {
  column_names : list string;
  rows : list (list value)
}.

(** The database as far as the script uses it: [hospital_operations], when
    the table exists. *)
Record database : Type := {
  hospital_operations : option table
}.

(** [list.index] *)
Fixpoint index (x : string) (l : list string) : result nat :=
  match l with
  | [] => raise ValueError
  | y :: l' => if y =? x then ret 0%nat else i <- index x l' ;; ret (S i)
  end.

(** [row[i]] *)
Definition getitem (row : list value) (i : nat) : result value :=
  match nth_error row i with
  | Some v => ret v
  | None => raise IndexError
  end.

(** [row[i] = v] *)
Fixpoint setitem (row : list value) (i : nat) (v : value)
  : result (list value) :=
  match row, i with
  | [], _ => raise IndexError
  | _ :: row', O => ret (v :: row')
  | x :: row', S i' => row'' <- setitem row' i' v ;; ret (x :: row'')
  end.

(** A list comprehension whose element expression may raise. *)
Fixpoint comprehension {A B : Type} (f : A -> result B) (l : list A)
  : result (list B) :=
  match l with
  | [] => ret []
  | x :: l' => y <- f x ;; ys <- comprehension f l' ;; ret (y :: ys)
  end.

Definition kept_columns : list string :=
  ["hid"; "doc_id"; "source_name"; "source_type"; "year"; "region";
   "station"; "country"; "act"; "class"].

Definition value_eqb (a b : value) : bool :=
  match a, b with
  | VNone, VNone => true
  | VStr s, VStr t => s =? t
  | VInt x, VInt y => (x =? y)%Z
  | _, _ => false
  end.

(** [INSERT INTO hospital_operations (...) VALUES (...)]: [hid] is the
    primary key, so a second row with the same non-NULL [hid] fails. *)
Definition insert (new_row : list value) (inserted : list (list value))
  : result (list (list value)) :=
  match new_row with
  | VNone :: _ | [] => ret (inserted ++ [new_row])%list
  | hid :: _ =>
      if existsb (fun r => match r with
                           | h :: _ => value_eqb h hid
                           | [] => false
                           end) inserted
      then raise IntegrityError
      else ret (inserted ++ [new_row])%list
  end.

(** The body of the reinsertion loop for one row. *)
Definition reinsert (keep_indices : list nat) (row : list value)
    (inserted : list (list value)) : result (list (list value)) :=
  new_row <- comprehension (getitem row) keep_indices ;;
  v <- getitem new_row 8 ;;
  v <- standardize_act v ;;
  new_row <- setitem new_row 8 v ;;
  v <- getitem new_row 9 ;;
  v <- standardize_class v ;;
  new_row <- setitem new_row 9 v ;;
  v <- getitem new_row 7 ;;
  v <- standardize_country v ;;
  new_row <- setitem new_row 7 v ;;
  v <- getitem new_row 5 ;;
  v <- standardize_region v ;;
  new_row <- setitem new_row 5 v ;;
  insert new_row inserted.

Fixpoint reinsert_all (keep_indices : list nat) (all_data : list (list value))
    (inserted : list (list value)) : result (list (list value)) :=
  match all_data with
  | [] => ret inserted
  | row :: all_data' =>
      inserted <- reinsert keep_indices row inserted ;;
      reinsert_all keep_indices all_data' inserted
  end.

(** What [main] does between the CREATE TABLE and the commit, from the
    rows and column names it read before the DROP TABLE. *)
Definition recreate (old : table) : result table :=
  keep_indices <- comprehension (fun c => index c (column_names old))
                    kept_columns ;;
  inserted <- reinsert_all keep_indices (rows old) [] ;;
  ret {| column_names := kept_columns; rows := inserted |}.

Definition empty_table : table :=
  {| column_names := kept_columns; rows := [] |}.

(** [main()] on the database file.  Nothing is copied anywhere: the
    "back up" of the script is the SELECT into [all_data].  DROP TABLE and
    CREATE TABLE run outside a transaction and are durable at once; the
    INSERTs become durable at [conn.commit()], which an exception skips. *)
Definition main (fs : Fs.filesystem database) : Fs.outcome database :=
  let fs := Fs.log Fs.Connect fs in
  match Fs.db_file fs with
  | None | Some {| hospital_operations := None |} =>
      {| Fs.files := fs; Fs.raised := Some OperationalError |}
  | Some {| hospital_operations := Some old |} =>
      let dropped :=
        {| Fs.db_file := Some {| hospital_operations := Some empty_table |};
           Fs.backup_dir := Fs.backup_dir fs;
           Fs.writable := Fs.writable fs;
           Fs.journal := Fs.journal fs ++ [Fs.DropTable] |} in
      match recreate old with
      | inl e => {| Fs.files := dropped; Fs.raised := Some e |}
      | inr new =>
          {| Fs.files :=
               Fs.commit {| hospital_operations := Some new |} dropped;
             Fs.raised := None |}
      end
  end.

End Archive.

(** ** analyze_hospital_ops.py *)

Module Analyze.

Definition clean_text (text : value) : result value :=
  if isna text then ret VNone else
  s <- as_str text ;;
  let text := join " " (split s) in
  ret (VStr (strip text)).

Definition standardize_class (value : value) : result Py.value :=
  if isna value then ret VNone else
  s <- as_str value ;;
  let value := strip (lower s) in
  if contains "first" value || contains "1st" value then
    ret (VStr "First Class")
  else if contains "second" value || contains "2nd" value then
    ret (VStr "Second Class")
  else if contains "third" value || contains "3rd" value then
    ret (VStr "Third Class")
  else if contains "military" value then
    ret (VStr "Military")
  else if contains "civil" value then
    ret (VStr "Civil")
  else ret (VStr (title value)).

Definition standardize_act (value : value) : result Py.value :=
  if isna value then ret VNone else
  s <- as_str value ;;
  let value := strip (lower s) in
  if contains "xiv" value && contains "1868" value then
    ret (VStr "Act XIV of 1868")
  else if contains "xxii" value && contains "1864" value then
    ret (VStr "Act XXII of 1864")
  else if contains "iii" value && contains "1880" value then
    ret (VStr "Act III of 1880")
  else ret (VStr (title value)).

End Analyze.

(** ** The SQLite tables the merge script reads and writes *)

Module Sql.

(** [stations]: [station_id INTEGER PRIMARY KEY], [name TEXT UNIQUE NOT NULL]. *)
Record station_row : Type := {
  station_id : Z;
  name : string;
  region : option string;
  country : option string;
  latitude : option Q;
  longitude : option Q;
  notes : option string
}.

(** [station_reports]: the [station_id] column is nullable. *)
Record report_row : Type := {
  report_id : Z;
  doc_id : option string;
  report_station_id : option Z
}.

(** A row of a fact table: its nullable [station] text column and the
    cells of its other columns, which no statement of the script touches. *)
Record fact_row : Type := {
  station : option string;
  other_columns : list value
}.

(** Rows are kept in the order a scan returns them; fact tables by name. *)
Record database : Type := {
  stations : list station_row;
  station_reports : list report_row;
  fact_tables : list (string * list fact_row)
}.

(** The WHERE conditions the script builds, over one text column:
    [LOWER(col) = 'lit'], [col = 'lit'] and [LOWER(col) LIKE 'pat%']. *)
Inductive condition : Type :=
| LowerEquals (lit : string)
| Equals (lit : string)
| LowerLike (pat : string).

(** SQLite's [LOWER] folds ASCII letters; [LIKE] compares ASCII letters
    without regard to case, and a trailing [%] makes it a prefix test. *)
Definition holds (cond : condition) (text : string) : bool :=
  match cond with
  | LowerEquals lit => lower text =? lit
  | Equals lit => text =? lit
  | LowerLike pat => prefix (lower pat) (lower (lower text))
  end.

(** A condition on a NULL cell is NULL, which selects nothing. *)
Definition holds_cell (cond : condition) (cell : option string) : bool :=
  match cell with
  | Some text => holds cond text
  | None => false
  end.

Definition with_stations (l : list station_row) (d : database) : database :=
  {| stations := l;
     station_reports := station_reports d;
     fact_tables := fact_tables d |}.

Definition with_reports (l : list report_row) (d : database) : database :=
  {| stations := stations d;
     station_reports := l;
     fact_tables := fact_tables d |}.

Definition with_fact_tables (l : list (string * list fact_row)) (d : database)
  : database :=
  {| stations := stations d;
     station_reports := station_reports d;
     fact_tables := l |}.

(** [SELECT station_id FROM stations WHERE name = ?] then [fetchone()] *)
Definition select_id_by_name (n : string) (d : database) : option Z :=
  match filter (fun r => name r =? n) (stations d) with
  | [] => None
  | r :: _ => Some (station_id r)
  end.

(** [SELECT station_id, name FROM stations WHERE <cond> AND name <> ?] *)
Definition select_variants (cond : condition) (n : string) (d : database)
  : list (Z * string) :=
  map (fun r => (station_id r, name r))
      (filter (fun r => holds cond (name r) && negb (name r =? n))
              (stations d)).

(** [SELECT station_id, name FROM stations WHERE <cond>] *)
Definition select_where (cond : condition) (d : database) : list (Z * string) :=
  map (fun r => (station_id r, name r))
      (filter (fun r => holds cond (name r)) (stations d)).

Definition is_report_of (id : Z) (r : report_row) : bool :=
  match report_station_id r with
  | Some i => (i =? id)%Z
  | None => false
  end.

Definition repoint (new_id old_id : Z) (r : report_row) : report_row :=
  if is_report_of old_id r then
    {| report_id := report_id r;
       doc_id := doc_id r;
       report_station_id := Some new_id |}
  else r.

(** [UPDATE station_reports SET station_id = ? WHERE station_id = ?] *)
Definition update_reports (new_id old_id : Z) (d : database) : database :=
  with_reports (map (repoint new_id old_id) (station_reports d)) d.

(** [DELETE FROM stations WHERE station_id = ?] *)
Definition delete_station (id : Z) (d : database) : database :=
  with_stations
    (filter (fun r => negb (station_id r =? id)%Z) (stations d)) d.

Definition set_name (n : string) (r : station_row) : station_row :=
  {| station_id := station_id r;
     name := n;
     region := region r;
     country := country r;
     latitude := latitude r;
     longitude := longitude r;
     notes := notes r |}.

(** [UPDATE stations SET name = ? WHERE station_id = ?].  The UNIQUE
    constraint on [name] fails the statement when a row it changes would
    share its new name with another row. *)
Definition rename_station (n : string) (id : Z) (d : database)
  : result database :=
  let hit := fun r => (station_id r =? id)%Z in
  let targets := filter hit (stations d) in
  let others := filter (fun r => negb (hit r)) (stations d) in
  match targets with
  | [] => ret d
  | _ :: more =>
      if existsb (fun r => name r =? n) others || negb (length more =? 0)%nat
      then raise IntegrityError
      else ret (with_stations
                  (map (fun r => if hit r then set_name n r else r)
                       (stations d)) d)
  end.

Definition set_coordinates (lat lon : Q) (r : station_row) : station_row :=
  {| station_id := station_id r;
     name := name r;
     region := region r;
     country := country r;
     latitude := Some lat;
     longitude := Some lon;
     notes := notes r |}.

(** [UPDATE stations SET latitude = ?, longitude = ? WHERE <p>], with the
    cursor's [rowcount]: the number of rows the WHERE clause selects. *)
Definition update_coordinates (p : station_row -> bool) (lat lon : Q)
    (d : database) : database * nat :=
  (with_stations
     (map (fun r => if p r then set_coordinates lat lon r else r)
          (stations d)) d,
   length (filter p (stations d))).

Definition set_station (n : string) (r : fact_row) : fact_row :=
  {| station := Some n; other_columns := other_columns r |}.

Definition rewrite_row (cond : condition) (n : string) (r : fact_row)
  : fact_row :=
  if holds_cell cond (station r) then set_station n r else r.

Fixpoint update_table (table : string) (f : list fact_row -> list fact_row)
    (tables : list (string * list fact_row))
  : option (list (string * list fact_row)) :=
  match tables with
  | [] => None
  | (t, rows) :: rest =>
      if t =? table then Some ((t, f rows) :: rest)
      else match update_table table f rest with
           | Some rest' => Some ((t, rows) :: rest')
           | None => None
           end
  end.

Fixpoint lookup_table (table : string)
    (tables : list (string * list fact_row)) : option (list fact_row) :=
  match tables with
  | [] => None
  | (t, rows) :: rest =>
      if t =? table then Some rows else lookup_table table rest
  end.

(** [UPDATE <table> SET station = ? WHERE <cond>] with its [rowcount];
    a table that does not exist raises [OperationalError]. *)
Definition update_fact (table : string) (cond : condition) (n : string)
    (d : database) : result (database * nat) :=
  match lookup_table table (fact_tables d),
        update_table table (map (rewrite_row cond n)) (fact_tables d) with
  | Some rows, Some tables' =>
      ret (with_fact_tables tables' d,
           length (filter (fun r => holds_cell cond (station r)) rows))
  | _, _ => raise OperationalError
  end.

End Sql.

Import Sql.

(** ** python_tools/update_standardizations.py *)

Module Update.

Import Fs.

(** What the script prints, with the counts it reports. *)
Inductive line : Type :=
| UpdatedToRangoon (table : string) (rowcount : nat)
| MergedIntoRangoon (old_name : string) (old_id rangoon_id : Z)
| RenamedToRangoon (old_name : string)
| RangoonOperations (merged : nat)
| Promoted (old_name : string) (old_id : Z) (new_name : string)
| MergedDuplicate (old_name : string) (old_id canonical_id : Z)
| SetCoords (new_name : string) (rowcount : nat)
| Standardized (table : string) (new_name : string) (cond : condition)
    (rowcount : nat)
| CoordsSet (cond : condition) (rowcount : nat).

(** The open connection and the standard output. *)
Record session : Type := {
  db : database;
  stdout : list line
}.

Definition print (l : line) (s : session) : session :=
  {| db := db s; stdout := stdout s ++ [l] |}.

Definition execute (d : database) (s : session) : session :=
  {| db := d; stdout := stdout s |}.

(** A [for] loop whose body may raise. *)
Fixpoint for_each {A S : Type} (xs : list A) (body : A -> S -> result S)
    (s : S) : result S :=
  match xs with
  | [] => ret s
  | x :: xs' => s' <- body x s ;; for_each xs' body s'
  end.

Definition backup_path (stamp : string) : string :=
  "medical_lock_hospitals_backup_" ++ stamp ++ ".db".

(** [update_station_name(table, column, where_clause, params)]; every call
    passes the column [station] and the one parameter [new_name]. *)
Definition update_station_name (table : string) (where_clause : condition)
    (new_name : string) (s : session) : result (session * nat) :=
  '(d, rowcount) <- update_fact table where_clause new_name (db s) ;;
  ret (execute d s, rowcount).

(** The tables of [rangoon_targets]; each is paired with the column
    [station] in the script. *)
Definition rangoon_targets : list string :=
  ["hospital_operations"; "women_admission"; "women_data"; "troops";
   "troop_data"].

(** Step 2, first loop: the fact tables. *)
Definition rangoon_tables (s : session) : result session :=
  for_each rangoon_targets
    (fun table s =>
       '(s, rc1) <- update_station_name table
                      (LowerEquals "india (british burma)") "Rangoon" s ;;
       '(s, rc2) <- update_station_name table
                      (Equals "India (British Burma)+G143") "Rangoon" s ;;
       '(s, rc3) <- update_station_name table
                      (LowerLike "india (british burma)") "Rangoon" s ;;
       ret (print (UpdatedToRangoon table (rc1 + rc2 + rc3)) s))
    s.

(** Step 2, second loop: the stations table.  [rangoon_id] is read once,
    before the loop, and never assigned in it. *)
Definition rangoon_stations (s : session) : result session :=
  let rangoon_id := select_id_by_name "Rangoon" (db s) in
  let dups := select_where (LowerLike "india (british burma)") (db s) in
  '(s, merged) <-
    for_each dups
      (fun '(old_id, old_name) '(s, merged) =>
         match rangoon_id with
         | Some rangoon_id =>
             let s := execute (update_reports rangoon_id old_id (db s)) s in
             let s := execute (delete_station old_id (db s)) s in
             ret (print (MergedIntoRangoon old_name old_id rangoon_id) s,
                  S merged)
         | None =>
             d <- rename_station "Rangoon" old_id (db s) ;;
             ret (print (RenamedToRangoon old_name) (execute d s), S merged)
         end)
      (s, 0%nat) ;;
  ret (print (RangoonOperations merged) s).

(** The body of the inner loop of [set_coords], on the connection and the
    local [canonical_id]. *)
Definition merge_variant (new_name : string) (variant : Z * string)
    (st : session * option Z) : result (session * option Z) :=
  let '(old_id, old_name) := variant in
  let '(s, canonical_id) := st in
  match canonical_id with
  | None =>
      d <- rename_station new_name old_id (db s) ;;
      ret (print (Promoted old_name old_id new_name) (execute d s),
           Some old_id)
  | Some canonical =>
      let s := execute (update_reports canonical old_id (db s)) s in
      let s := execute (delete_station old_id (db s)) s in
      ret (print (MergedDuplicate old_name old_id canonical) s,
           Some canonical)
  end.

(** The first loop of [set_coords]: one query per condition, its result
    fetched whole before the rows are processed. *)
Definition merge_stations (name_like_conditions : list condition)
    (new_name : string) (st : session * option Z)
  : result (session * option Z) :=
  for_each name_like_conditions
    (fun cond st =>
       let matches := select_variants cond new_name (db (fst st)) in
       for_each matches (merge_variant new_name) st)
    st.

(** The last loop of [set_coords]; [cond.replace('name', col)] is the same
    condition on the [station] column. *)
Definition standardize_tables (name_like_conditions : list condition)
    (new_name : string) (s : session) : result session :=
  for_each rangoon_targets
    (fun table s =>
       for_each name_like_conditions
         (fun cond s =>
            '(d, rowcount) <- update_fact table cond new_name (db s) ;;
            ret (print (Standardized table new_name cond rowcount)
                   (execute d s)))
         s)
    s.

Definition set_coords (name_like_conditions : list condition)
    (new_name : string) (lat lon : Q) (s : session) : result session :=
  let canonical_id := select_id_by_name new_name (db s) in
  '(s, _) <- merge_stations name_like_conditions new_name
               (s, canonical_id) ;;
  let '(d, rowcount) :=
    update_coordinates (fun r => name r =? new_name) lat lon (db s) in
  let s := print (SetCoords new_name rowcount) (execute d s) in
  standardize_tables name_like_conditions new_name s.

Definition sitabaldi_conditions : list condition :=
  [LowerLike "seetabuldee"; LowerLike "sitabaldi"].

(** Step 4: the [coords] dictionary, in insertion order. *)
Definition coords : list (condition * (Q * Q)) :=
  [(LowerLike "tonghoo", (18.9398, 96.4344));
   (LowerLike "jubbulpore", (23.1686, 79.9339));
   (LowerLike "muttra", (27.4924, 77.6737));
   (LowerLike "umballa", (30.3752, 76.7821));
   (LowerLike "meean meer", (31.5484, 74.3602));
   (LowerLike "fyzabad", (26.7730, 82.1458));
   (LowerLike "mooltan", (30.1979793, 71.4724978))]%Q.

Definition set_station_coords (s : session) : result session :=
  for_each coords
    (fun '(cond, (lat, lon)) s =>
       let '(d, rowcount) :=
         update_coordinates (fun r => holds cond (name r)) lat lon (db s) in
       ret (print (CoordsSet cond rowcount) (execute d s)))
    s.

(** Steps 2 to 4, on the open connection. *)
Definition updates (s : session) : result session :=
  s <- rangoon_tables s ;;
  s <- rangoon_stations s ;;
  s <- set_coords sitabaldi_conditions "Sitabaldi (Nagpur)"
         21.1430%Q 79.0871%Q s ;;
  set_station_coords s.

(** The whole script, run at clock reading [stamp].  The statements run in
    one implicit transaction, which only [conn.commit()] makes durable; an
    uncaught exception ends the process with the file as it was.  Step 5,
    after the commit, only reads and catches its own errors. *)
Definition run (stamp : string) (fs : filesystem database)
  : outcome database :=
  match makedirs fs with
  | inl e => {| files := fs; raised := Some e |}
  | inr fs =>
      match copy2 (backup_path stamp) fs with
      | inl e => {| files := fs; raised := Some e |}
      | inr fs =>
          match db_file fs with
          | None => {| files := fs; raised := Some OperationalError |}
          | Some d =>
              let fs := log Connect fs in
              match updates {| db := d; stdout := [] |} with
              | inl e => {| files := fs; raised := Some e |}
              | inr s => {| files := commit (db s) fs; raised := None |}
              end
          end
      end
  end.

End Update.

(** ** Vocabulary of the statements *)

(** [f(f(x))], where either call may raise. *)
Definition twice (f : value -> result value) (v : value) : result value :=
  y <- f v ;; f y.

(** A string that does not start with whitespace. *)
Definition lstripped (s : string) : bool :=
  match s with
  | EmptyString => true
  | String c _ => negb (isspace c)
  end.

(** A non-empty string that does not end with whitespace. *)
Fixpoint ends_in_text (s : string) : bool :=
  match s with
  | EmptyString => false
  | String c EmptyString => negb (isspace c)
  | String _ s' => ends_in_text s'
  end.

(** A non-empty string that does not start with whitespace. *)
Definition starts_in_text (s : string) : bool :=
  match s with
  | EmptyString => false
  | String c _ => negb (isspace c)
  end.

(** A string made of whitespace only and not empty: [x.isspace()]. *)
Definition blank (s : string) : bool :=
  match s with
  | EmptyString => false
  | String _ _ =>
      match strip s with
      | EmptyString => true
      | String _ _ => false
      end
  end.

(** The call returns rather than raises. *)
Definition returns {A : Type} (m : result A) : Prop := exists r, m = inr r.

(** The inputs of the normalizers' contract: a string or a missing value. *)
Definition str_or_none (v : value) : bool :=
  match v with
  | VNone | VStr _ => true
  | VInt _ => false
  end.

(** The rules of the class normalizer as the specification lists them:
    the tokens of each rule and its label, first rule first. *)
Definition class_rules : list (list string * string) :=
  [(["first"; "1st"], "First Class");
   (["second"; "2nd"], "Second Class");
   (["third"; "3rd"], "Third Class");
   (["military"], "Military");
   (["civil"], "Civil")].

(** The text contains one of the rule's tokens. *)
Definition rule_applies (rule : list string * string) (text : string) : bool :=
  existsb (fun token => contains token text) (fst rule).

(** The rules of the act normalizer: the tokens that must all occur and
    the label; the archive copy has five rules, the other copy the first
    three of them. *)
Definition archive_act_rules : list (list string * string) :=
  [(["xiv"; "1868"], "Act XIV of 1868");
   (["xxii"; "1864"], "Act XXII of 1864");
   (["iii"; "1880"], "Act III of 1880");
   (["xii"; "1864"], "Act XII of 1864");
   (["voluntary"], "Voluntary System")].

Definition analyze_act_rules : list (list string * string) :=
  firstn 3 archive_act_rules.

(** The text contains every token of the rule. *)
Definition act_rule_applies (rule : list string * string) (text : string)
  : bool :=
  forallb (fun token => contains token text) (fst rule).

Definition no_rule_applies (rules : list (list string * string))
    (text : string) : bool :=
  forallb (fun rule => negb (act_rule_applies rule text)) rules.

(** The cell of [row] under the column called [column] in table [t]. *)
Definition cell (t : Archive.table) (column : string) (row : list value)
  : option value :=
  match Archive.index column (Archive.column_names t) with
  | inr i => nth_error row i
  | inl _ => None
  end.

Definition is_null (v : value) : bool :=
  match v with
  | VNone => true
  | _ => false
  end.

(** No non-NULL key occurs twice: what PRIMARY KEY enforces. *)
Fixpoint distinct_keys (keys : list value) : bool :=
  match keys with
  | [] => true
  | k :: keys' =>
      forallb (fun k' => negb (Archive.value_eqb k k') || is_null k') keys'
      && distinct_keys keys'
  end.

Definition key_of (t : Archive.table) (row : list value) : value :=
  match cell t "hid" row with
  | Some v => v
  | None => VNone
  end.

Definition categorical_columns : list string :=
  ["region"; "country"; "act"; "class"].

(** A [hospital_operations] table as SQLite hands it to [main]: it has
    the ten columns the script names, every row has one cell per column,
    the categorical cells hold text or NULL, and [hid], a TEXT column,
    is a key. *)
Definition well_formed (t : Archive.table) : bool :=
  forallb (fun c => existsb (String.eqb c) (Archive.column_names t))
          Archive.kept_columns
  && forallb (fun row =>
                (length row =? length (Archive.column_names t))%nat)
             (Archive.rows t)
  && forallb (fun row =>
                forallb (fun c => match cell t c row with
                                  | Some v => str_or_none v
                                  | None => false
                                  end) categorical_columns)
             (Archive.rows t)
  && distinct_keys (map (key_of t) (Archive.rows t))
  && forallb (fun row => str_or_none (key_of t row)) (Archive.rows t).

(** The column holds the same cell in [row] of [old] and [row'] of [new]. *)
Definition kept (old new : Archive.table) (row row' : list value)
    (column : string) : Prop :=
  exists v, cell old column row = Some v /\ cell new column row' = Some v.

(** The column of [row'] holds what [f] returns on the cell of [row]. *)
Definition recomputed (f : value -> result value) (old new : Archive.table)
    (row row' : list value) (column : string) : Prop :=
  exists v v', cell old column row = Some v /\ f v = inr v'
               /\ cell new column row' = Some v'.

(** What the reinsertion makes of one row of [old]. *)
Definition row_image (old new : Archive.table) (row row' : list value)
  : Prop :=
  length row' = 10%nat
  /\ kept old new row row' "hid"
  /\ kept old new row row' "doc_id"
  /\ kept old new row row' "source_name"
  /\ kept old new row row' "source_type"
  /\ kept old new row row' "year"
  /\ kept old new row row' "station"
  /\ recomputed Archive.standardize_region old new row row' "region"
  /\ recomputed Archive.standardize_country old new row row' "country"
  /\ recomputed Archive.standardize_act old new row row' "act"
  /\ recomputed Archive.standardize_class old new row row' "class".

(** A row of the recreated table already carries the key [hid]. *)
Definition key_taken (hid : value) (inserted : list (list value)) : bool :=
  existsb (fun r => match r with
                    | h :: _ => Archive.value_eqb h hid
                    | [] => false
                    end) inserted.

(** The schema of [create_database.py] and two rows of it. *)
Definition sample_operations : Archive.table :=
  {| Archive.column_names :=
       ["hid"; "doc_id"; "source_name"; "source_type"; "year"; "region";
        "station"; "country"; "act"; "class"; "staff_medical_officers";
        "staff_hospital_assistants"; "staff_matron"; "staff_coolies";
        "staff_peons"; "staff_watermen"; "ops_inspection_regularity";
        "ops_unlicensed_control_notes"; "ops_committee_activity_notes"];
     Archive.rows :=
       [[VStr "H1"; VStr "D1"; VStr "Report 1873"; VStr "report";
         VInt 1873; VStr "madras presidency"; VStr "Bellary";
         VStr "British india"; VStr "Act XIV of 1868 "; VStr "1st class";
         VInt 1; VInt 2; VInt 1; VInt 4; VInt 2; VInt 1; VStr "weekly";
         VNone; VNone];
        [VStr "H2"; VStr "D1"; VStr "Report 1873"; VStr "report";
         VInt 1873; VStr "british Burma"; VStr "Tonghoo"; VNone;
         VStr "cantonment rules"; VNone;
         VNone; VInt 1; VNone; VInt 2; VInt 1; VInt 1; VNone; VNone;
         VNone]] |}.

(** ** Vocabulary of the statements about the database *)

Import Update.

(** [SELECT COUNT( * ) FROM station_reports WHERE station_id = ?] *)
Definition count_reports (id : Z) (d : database) : nat :=
  length (filter (is_report_of id) (station_reports d)).

(** [SELECT COUNT( * ) FROM stations WHERE station_id = ?] *)
Definition count_stations (id : Z) (d : database) : nat :=
  length (filter (fun r => (station_id r =? id)%Z) (stations d)).

Fixpoint distinct (ids : list Z) : bool :=
  match ids with
  | [] => true
  | i :: ids' => negb (existsb (Z.eqb i) ids') && distinct ids'
  end.

(** [station_id] is the primary key of [stations]. *)
Definition primary_key (d : database) : bool :=
  distinct (map station_id (stations d)).

(** Every table of [rangoon_targets] exists. *)
Definition targets_exist (d : database) : bool :=
  forallb (fun table => match lookup_table table (fact_tables d) with
                        | Some _ => true
                        | None => false
                        end) Update.rangoon_targets.

(** The local [canonical_id], when set, is the id of rows called
    [new_name] only; when unset, no row is called [new_name]. *)
Definition anchored (new_name : string) (canonical_id : option Z)
    (d : database) : Prop :=
  match canonical_id with
  | Some c => forall r, In r (stations d) -> station_id r = c ->
                        name r = new_name
  | None => forall r, In r (stations d) -> name r <> new_name
  end.

(** The line reports a promotion or a merge of a station row. *)
Definition is_merge_line (l : Update.line) : bool :=
  match l with
  | Update.Promoted _ _ _ | Update.MergedDuplicate _ _ _
  | Update.MergedIntoRangoon _ _ _ | Update.RenamedToRangoon _ => true
  | _ => false
  end.

(** The rowcount a line reports, for the lines that report one. *)
Definition reported_rowcount (l : Update.line) : option nat :=
  match l with
  | Update.UpdatedToRangoon _ n | Update.SetCoords _ n
  | Update.Standardized _ _ _ n | Update.CoordsSet _ n => Some n
  | _ => None
  end.

(** The row after [UPDATE stations SET name = ? WHERE station_id = ?]. *)
Definition renamed (n : string) (id : Z) (r : station_row) : station_row :=
  if (station_id r =? id)%Z then set_name n r else r.

(** What holds of the connection and of [canonical_id] between two
    iterations of the merge loops of [set_coords]: the script has printed
    [lines] since [base], [station_id] is still a key, the fact tables are
    [facts], and every row reported as merged is gone, from [stations] and
    from [station_reports]. *)
Definition merge_invariant (new_name : string) (base : list line)
    (facts : list (string * list fact_row)) (st : session * option Z)
  : Prop :=
  exists lines,
    stdout (fst st) = (base ++ lines)%list
    /\ NoDup (map station_id (stations (db (fst st))))
    /\ fact_tables (db (fst st)) = facts
    /\ anchored new_name (snd st) (db (fst st))
    /\ forall n b a,
         In (MergedDuplicate n b a) lines ->
         snd st = Some a /\ b <> a
         /\ count_stations b (db (fst st)) = 0%nat
         /\ count_reports b (db (fst st)) = 0%nat.

(** One iteration renames the rows with one id or deletes them. *)
Definition one_step (new_name : string) (id : Z) (l l' : list station_row)
  : Prop :=
  l' = map (renamed new_name id) l
  \/ l' = filter (fun r => negb (station_id r =? id)%Z) l.

(** No row that satisfies the condition has another name than
    [new_name]. *)
Definition settled (cond : condition) (new_name : string)
    (l : list station_row) : Prop :=
  forall r, In r l -> holds cond (name r) = true -> name r = new_name.

(** The variants of [cond] that are still in the table are among the
    ids still to be processed. *)
Definition pending (cond : condition) (new_name : string) (ids : list Z)
    (l : list station_row) : Prop :=
  forall r, In r l -> holds cond (name r) = true -> name r <> new_name ->
            In (station_id r) ids.

(** The table exists and each of its rows whose [station] satisfies the
    condition already carries [new_name]. *)
Definition table_settled (table : string) (cond : condition)
    (new_name : string) (d : database) : Prop :=
  exists rows,
    lookup_table table (fact_tables d) = Some rows
    /\ forall r, In r rows -> holds_cell cond (station r) = true ->
                 station r = Some new_name.

Definition table_exists (table : string) (d : database) : Prop :=
  lookup_table table (fact_tables d) <> None.

(** The script has printed [lines] since [base], none of them about a
    promotion or a merge. *)
Definition printed_no_merge (base : list line) (s : session) : Prop :=
  exists lines,
    stdout s = (base ++ lines)%list
    /\ forallb (fun l => negb (is_merge_line l)) lines = true.

(** Every row called [n] has these coordinates. *)
Definition located (n : string) (lat lon : Q) (l : list station_row) : Prop :=
  forall r, In r l -> name r = n ->
            latitude r = Some lat /\ longitude r = Some lon.

(** What a completed call of [set_coords] leaves: nothing for a second
    call to merge, move or rewrite. *)
Definition standardized (conds : list condition) (n : string) (lat lon : Q)
    (d : database) : Prop :=
  (forall c, In c conds -> settled c n (stations d))
  /\ located n lat lon (stations d)
  /\ (forall t, In t rangoon_targets -> table_exists t d)
  /\ (forall t c, In t rangoon_targets -> In c conds ->
                  table_settled t c n d).

Definition station_named (id : Z) (n : string) : station_row :=
  {| station_id := id; name := n; region := None; country := None;
     latitude := None; longitude := None; notes := None |}.

Definition report (id : Z) (doc : string) (station : option Z) : report_row :=
  {| report_id := id; doc_id := Some doc; report_station_id := station |}.

Definition fact (station : option string) : fact_row :=
  {| station := station; other_columns := [] |}.

(** A database with two spellings of Sitabaldi and one of Rangoon beside
    the canonical row. *)
Definition sample_db : database :=
  {| stations :=
       [station_named 1 "Seetabuldee"; station_named 2 "Sitabaldi";
        station_named 3 "India (British Burma)"; station_named 4 "Rangoon";
        station_named 5 "Tonghoo"];
     station_reports :=
       [report 1 "D1" (Some 1%Z); report 2 "D1" (Some 2%Z);
        report 3 "D2" (Some 3%Z); report 4 "D2" (Some 4%Z);
        report 5 "D3" None];
     fact_tables :=
       [("hospital_operations",
         [fact (Some "Seetabuldee"); fact (Some "Sitabaldi (Nagpur)");
          fact (Some "India (British Burma)"); fact None]);
        ("women_admission", [fact (Some "Sitabaldi")]);
        ("women_data", []);
        ("troops", [fact (Some "Rangoon")]);
        ("troop_data", [])] |}.

(** Two spellings of the Burma station and no row called Rangoon. *)
Definition burma_db : database :=
  {| stations :=
       [station_named 1 "India (British Burma)";
        station_named 2 "India (British Burma)+G143"];
     station_reports :=
       [report 1 "D1" (Some 1%Z); report 2 "D1" (Some 2%Z)];
     fact_tables :=
       [("hospital_operations", []); ("women_admission", []);
        ("women_data", []); ("troops", []); ("troop_data", [])] |}.

Definition session_on (d : database) : session :=
  {| db := d; stdout := [] |}.

Definition sample_fs (d : database) : Fs.filesystem database :=
  {| Fs.db_file := Some d;
     Fs.backup_dir := None;
     Fs.writable := true;
     Fs.journal := [] |}.

Definition sample_archive_fs : Fs.filesystem Archive.database :=
  {| Fs.db_file := Some {| Archive.hospital_operations := Some sample_operations |};
     Fs.backup_dir := None;
     Fs.writable := true;
     Fs.journal := [] |}.

(** Every line reports a merge into the row [c]. *)
Definition merges_into (c : Z) (lines : list line) : Prop :=
  Forall (fun l => exists old_name b, l = MergedDuplicate old_name b c) lines.

(** The lines of the merge loops of [set_coords], given the anchor
    [canonical_0] found on entry: with an anchor, merges into it only;
    without one, nothing, or one promotion followed by merges into the
    promoted row only. *)
Definition promoted_once (new_name : string) (canonical_0 : option Z)
    (canonical_id : option Z) (lines : list line) : Prop :=
  match canonical_0 with
  | Some c => canonical_id = Some c /\ merges_into c lines
  | None =>
      (lines = [] /\ canonical_id = None)
      \/ exists old_name id rest,
           lines = Promoted old_name id new_name :: rest
           /\ canonical_id = Some id /\ merges_into id rest
  end.

(** The report row after its [station_id] is set to [a]. *)
Definition repointed_to (a : Z) (r : report_row) : report_row :=
  {| report_id := report_id r;
     doc_id := doc_id r;
     report_station_id := Some a |}.

(** The ids of the rows the lines report as merged. *)
Definition merged_ids (lines : list line) : list Z :=
  flat_map (fun l => match l with
                     | MergedDuplicate _ b _ | MergedIntoRangoon _ b _ => [b]
                     | _ => []
                     end) lines.

(** The report row once every row of [ids] is merged into [a]. *)
Definition repoint_all (a : Z) (ids : list Z) (r : report_row) : report_row :=
  if existsb (fun b => is_report_of b r) ids then repointed_to a r else r.

(** The anchor of the merges printed so far is [canonical_id], and
    [station_reports] is the table [reports_0] with the reports of every
    merged row repointed to it. *)
Definition reports_follow (reports_0 : list report_row)
    (canonical_id : option Z) (lines : list line) (d : database) : Prop :=
  (forall old_name b a,
      In (MergedDuplicate old_name b a) lines
      \/ In (MergedIntoRangoon old_name b a) lines ->
      canonical_id = Some a)
  /\ match canonical_id with
     | Some c =>
         station_reports d = map (repoint_all c (merged_ids lines)) reports_0
     | None => station_reports d = reports_0
     end.

(** ** Vocabulary of the further properties *)

(** No character of the string is whitespace. *)
Fixpoint no_space (s : string) : bool :=
  match s with
  | EmptyString => true
  | String c s' => negb (isspace c) && no_space s'
  end.

(** A word as [str.split] returns it: not empty, no whitespace. *)
Definition is_word (w : string) : bool :=
  match w with
  | EmptyString => false
  | String _ _ => no_space w
  end.

(** A table that lost the column [class], with no rows. *)
Definition classless_operations : Archive.table :=
  {| Archive.column_names :=
       ["hid"; "doc_id"; "source_name"; "source_type"; "year"; "region";
        "station"; "country"; "act"];
     Archive.rows := [] |}.

Definition archive_fs_of (t : Archive.table) : Fs.filesystem Archive.database :=
  {| Fs.db_file := Some {| Archive.hospital_operations := Some t |};
     Fs.backup_dir := None;
     Fs.writable := true;
     Fs.journal := [] |}.



(** [LOWER(station) LIKE 'india (british burma)%'] *)
Definition burma_pattern : condition := LowerLike "india (british burma)".

(** [SELECT * FROM <table>], nothing when the table does not exist. *)
Definition table_rows (table : string) (d : database) : list fact_row :=
  match lookup_table table (fact_tables d) with
  | Some rows => rows
  | None => []
  end.

(** [SELECT COUNT( * ) FROM <table> WHERE <cond>] on [station] *)
Definition count_matching (cond : condition) (rows : list fact_row) : nat :=
  length (filter (fun r => holds_cell cond (station r)) rows).

(** The row after the UPDATE of one entry of [coords]. *)
Definition place (entry : condition * (Q * Q)) (r : station_row)
  : station_row :=
  let '(cond, (lat, lon)) := entry in
  if holds cond (name r) then set_coordinates lat lon r else r.

(** The row with the coordinates of the first entry its name matches. *)
Definition locate (entries : list (condition * (Q * Q))) (r : station_row)
  : station_row :=
  match find (fun entry => holds (fst entry) (name r)) entries with
  | Some entry => set_coordinates (fst (snd entry)) (snd (snd entry)) r
  | None => r
  end.

(** [SELECT COUNT( * ) FROM stations WHERE <cond>] *)
Definition count_named (cond : condition) (l : list station_row) : nat :=
  length (filter (fun r => holds cond (name r)) l).

(** No name satisfies two of the conditions. *)
Definition exclusive (entries : list (condition * (Q * Q))) : Prop :=
  ForallOrdPairs
    (fun a b => forall n, holds (fst a) n = true -> holds (fst b) n = true ->
                          False)
    entries.

(** [FOREIGN KEY (station_id) REFERENCES stations (station_id)] of
    [station_reports], which SQLite does not enforce by default: every
    report with a station refers to a row of [stations]. *)
Definition foreign_key (d : database) : bool :=
  forallb (fun r => match report_station_id r with
                    | Some i => existsb (fun t => (station_id t =? i)%Z)
                                        (stations d)
                    | None => true
                    end) (station_reports d).

(** What the merge loops keep between two iterations: [station_id] is a
    key, the anchor is the id of a row called [new_name] when it is set
    and no row is called [new_name] when it is not, and no report
    dangles. *)
Definition consistent (new_name : string) (st : session * option Z) : Prop :=
  NoDup (map station_id (stations (db (fst st))))
  /\ anchored new_name (snd st) (db (fst st))
  /\ (forall c, snd st = Some c ->
                In c (map station_id (stations (db (fst st)))))
  /\ foreign_key (db (fst st)) = true.

(** The fact tables without their [station] column: the names of the
    tables and, row by row, the cells of the other columns. *)
Definition other_cells (d : database) : list (string * list (list value)) :=
  map (fun t => (fst t, map other_columns (snd t))) (fact_tables d).

(** [SELECT report_id, doc_id FROM station_reports] *)
Definition report_keys (d : database) : list (Z * option string) :=
  map (fun r => (report_id r, doc_id r)) (station_reports d).

(** From [d] to [d'] no fact table gained, lost or reordered a row or
    changed a cell outside [station], no report was added, removed or
    given another document, and no station row was given a new id. *)
Definition preserved (d d' : database) : Prop :=
  other_cells d' = other_cells d
  /\ report_keys d' = report_keys d
  /\ incl (map station_id (stations d')) (map station_id (stations d)).

(** A database without the fact tables. *)
Definition stations_only_db : database :=
  {| stations := [station_named 4 "Rangoon"];
     station_reports := [report 1 "D1" (Some 4%Z)];
     fact_tables := [] |}.

(** * Properties *)

(** ** Characters and strings *)

Section Characters.

Local Ltac by_cases_on c :=
  destruct c as [[] [] [] [] [] [] [] []]; vm_compute; reflexivity.

Lemma lower_char_idem (c : ascii) : lower_char (lower_char c) = lower_char c.
Proof. by_cases_on c. Qed.

Lemma lower_upper_char (c : ascii) : lower_char (upper_char c) = lower_char c.
Proof. by_cases_on c. Qed.

Lemma isspace_lower_char (c : ascii) : isspace (lower_char c) = isspace c.
Proof. by_cases_on c. Qed.

End Characters.

Lemma lower_idem (s : string) : lower (lower s) = lower s.
Proof.
  induction s as [|c s IH]; simpl; [reflexivity|].
  now rewrite lower_char_idem, IH.
Qed.

Lemma lower_title_from (b : bool) (s : string) :
  lower (title_from b s) = lower s.
Proof.
  revert b; induction s as [|c s IH]; intros b; simpl; [reflexivity|].
  rewrite IH. destruct b.
  - now rewrite lower_char_idem.
  - now rewrite lower_upper_char.
Qed.

Lemma lower_title (s : string) : lower (title s) = lower s.
Proof. apply lower_title_from. Qed.

Lemma lower_lstrip (s : string) : lower (lstrip s) = lstrip (lower s).
Proof.
  induction s as [|c s IH]; simpl; [reflexivity|].
  rewrite isspace_lower_char. destruct (isspace c); [exact IH|reflexivity].
Qed.

Lemma lower_rstrip (s : string) : lower (rstrip s) = rstrip (lower s).
Proof.
  induction s as [|c s IH]; simpl; [reflexivity|].
  rewrite <- IH, isspace_lower_char.
  destruct (rstrip s); simpl; [destruct (isspace c)|]; reflexivity.
Qed.

Lemma lower_strip (s : string) : lower (strip s) = strip (lower s).
Proof. unfold strip. now rewrite lower_rstrip, lower_lstrip. Qed.

Lemma rstrip_idem (s : string) : rstrip (rstrip s) = rstrip s.
Proof.
  induction s as [|c s IH]; simpl; [reflexivity|].
  destruct (rstrip s) as [|a r] eqn:E.
  - destruct (isspace c) eqn:Ec; simpl; [reflexivity|now rewrite Ec].
  - simpl in *. now rewrite IH.
Qed.

Lemma lstripped_lstrip (s : string) : lstripped (lstrip s) = true.
Proof.
  induction s as [|c s IH]; simpl; [reflexivity|].
  destruct (isspace c) eqn:E; [exact IH|simpl; now rewrite E].
Qed.

Lemma lstrip_lstripped (s : string) : lstripped s = true -> lstrip s = s.
Proof.
  destruct s as [|c s]; simpl; [reflexivity|].
  now destruct (isspace c).
Qed.

Lemma lstripped_rstrip (s : string) :
  lstripped s = true -> lstripped (rstrip s) = true.
Proof.
  destruct s as [|c s]; simpl; [reflexivity|].
  intros H. destruct (rstrip s); [|exact H].
  destruct (isspace c) eqn:E; simpl; [reflexivity|now rewrite E].
Qed.

Lemma strip_idem (s : string) : strip (strip s) = strip s.
Proof.
  unfold strip.
  rewrite (lstrip_lstripped (rstrip (lstrip s))).
  - apply rstrip_idem.
  - apply lstripped_rstrip, lstripped_lstrip.
Qed.

(** The value the normalizers test is a fixed point of the preparation
    [value.lower().strip()], also after [title()]. *)
Lemma prepare_title (s : string) :
  strip (lower (title (strip (lower s)))) = strip (lower s).
Proof.
  rewrite lower_title, <- lower_strip, strip_idem, lower_strip.
  now rewrite lower_idem.
Qed.

Lemma title_empty (s : string) : title s = EmptyString -> s = EmptyString.
Proof. destruct s; [reflexivity|discriminate]. Qed.

Lemma lower_empty (s : string) : lower s = EmptyString -> s = EmptyString.
Proof. destruct s; [reflexivity|discriminate]. Qed.

Lemma prepared_not_blank (s : string) :
  blank s = false -> s <> EmptyString -> strip (lower s) <> EmptyString.
Proof.
  intros Hb Hs E. rewrite <- lower_strip in E. apply lower_empty in E.
  destruct s as [|c s]; [now apply Hs|].
  unfold blank in Hb. now rewrite E in Hb.
Qed.

Lemma passthrough_truthy (v : string) :
  v <> EmptyString -> truthy (VStr (title v)) = true.
Proof. destruct v; [now intros H|reflexivity]. Qed.

(** ** Idempotence of the normalizers *)

Ltac split_rules :=
  repeat match goal with
         | |- context [if ?b then _ else _] =>
             lazymatch b with
             | context [contains] =>
                 let E := fresh "E" in destruct b eqn:E
             end
         end.

Ltac passthrough_again :=
  cbn [bind ret];
  match goal with
  | |- ?f (VStr (title (strip (lower ?s)))) = _ =>
      unfold f;
      cbn [isna];
      try rewrite (passthrough_truthy (strip (lower s))) by assumption;
      cbn [negb as_str bind ret];
      rewrite (prepare_title s);
      repeat match goal with
             | E : _ = false |- _ => rewrite E; clear E
             end;
      reflexivity
  end.

Lemma archive_class_twice (x : string) :
  blank x = false ->
  twice Archive.standardize_class (VStr x) = Archive.standardize_class (VStr x).
Proof.
  intros Hb. destruct x as [|c x]; [reflexivity|].
  assert (Hv : strip (lower (String c x)) <> EmptyString)
    by (apply prepared_not_blank; [exact Hb|discriminate]).
  unfold twice, Archive.standardize_class at 1 3.
  cbn [truthy negb as_str bind ret].
  split_rules; try reflexivity. passthrough_again.
Qed.

Lemma archive_act_twice (x : string) :
  blank x = false ->
  twice Archive.standardize_act (VStr x) = Archive.standardize_act (VStr x).
Proof.
  intros Hb. destruct x as [|c x]; [reflexivity|].
  assert (Hv : strip (lower (String c x)) <> EmptyString)
    by (apply prepared_not_blank; [exact Hb|discriminate]).
  unfold twice, Archive.standardize_act at 1 3.
  cbn [truthy negb as_str bind ret].
  split_rules; try reflexivity. passthrough_again.
Qed.

Lemma archive_country_twice (x : string) :
  blank x = false ->
  twice Archive.standardize_country (VStr x)
  = Archive.standardize_country (VStr x).
Proof.
  intros Hb. destruct x as [|c x]; [reflexivity|].
  assert (Hv : strip (lower (String c x)) <> EmptyString)
    by (apply prepared_not_blank; [exact Hb|discriminate]).
  unfold twice, Archive.standardize_country at 1 3.
  cbn [truthy negb as_str bind ret].
  split_rules; try reflexivity. passthrough_again.
Qed.

Lemma archive_region_twice (x : string) :
  blank x = false ->
  twice Archive.standardize_region (VStr x)
  = Archive.standardize_region (VStr x).
Proof.
  intros Hb. destruct x as [|c x]; [reflexivity|].
  assert (Hv : strip (lower (String c x)) <> EmptyString)
    by (apply prepared_not_blank; [exact Hb|discriminate]).
  unfold twice, Archive.standardize_region at 1 3.
  cbn [truthy negb as_str bind ret].
  split_rules; try reflexivity. passthrough_again.
Qed.

Lemma analyze_class_twice (x : string) :
  twice Analyze.standardize_class (VStr x) = Analyze.standardize_class (VStr x).
Proof.
  unfold twice, Analyze.standardize_class at 1 3.
  cbn [isna as_str bind ret].
  split_rules; try reflexivity. passthrough_again.
Qed.

Lemma analyze_act_twice (x : string) :
  twice Analyze.standardize_act (VStr x) = Analyze.standardize_act (VStr x).
Proof.
  unfold twice, Analyze.standardize_act at 1 3.
  cbn [isna as_str bind ret].
  split_rules; try reflexivity. passthrough_again.
Qed.

(** On a non-empty input made of whitespace only, an archive normalizer
    returns the empty string, and the empty string is then taken for a
    missing value. *)
Lemma archive_blank (x : string) :
  blank x = true ->
  Archive.standardize_class (VStr x) = inr (VStr EmptyString)
  /\ Archive.standardize_act (VStr x) = inr (VStr EmptyString)
  /\ Archive.standardize_country (VStr x) = inr (VStr EmptyString)
  /\ Archive.standardize_region (VStr x) = inr (VStr EmptyString).
Proof.
  intros Hb. destruct x as [|c x]; [discriminate|].
  assert (E : strip (lower (String c x)) = EmptyString).
  { unfold blank in Hb. rewrite <- lower_strip.
    destruct (strip (String c x)); [reflexivity|discriminate]. }
  unfold Archive.standardize_class, Archive.standardize_act,
    Archive.standardize_country, Archive.standardize_region.
  cbn [truthy negb as_str bind ret]. rewrite E.
  repeat split; reflexivity.
Qed.

(** C4, as stated, fails: the archive class normalizer maps the one-space
    string to the empty string, and the empty string to None. *)
Lemma idempotence_fails_on_blank :
  isascii " " = true
  /\ Archive.standardize_class (VStr " ") = inr (VStr EmptyString)
  /\ twice Archive.standardize_class (VStr " ") = inr VNone
  /\ twice Archive.standardize_class (VStr " ")
     <> Archive.standardize_class (VStr " ").
Proof. repeat split; try reflexivity. discriminate. Qed.

(** C4 (amended): for every ASCII string that is not a non-empty run of
    whitespace, each of the four archive normalizers (class, act, country,
    region) returns the same value when applied to its own result; the
    class and act normalizers of [analyze_hospital_ops.py] do so for every
    ASCII string. *)
Theorem normalizers_idempotent (x : string) :
  isascii x = true ->
  (blank x = false ->
   twice Archive.standardize_class (VStr x)
   = Archive.standardize_class (VStr x)
   /\ twice Archive.standardize_act (VStr x)
      = Archive.standardize_act (VStr x)
   /\ twice Archive.standardize_country (VStr x)
      = Archive.standardize_country (VStr x)
   /\ twice Archive.standardize_region (VStr x)
      = Archive.standardize_region (VStr x))
  /\ twice Analyze.standardize_class (VStr x)
     = Analyze.standardize_class (VStr x)
  /\ twice Analyze.standardize_act (VStr x)
     = Analyze.standardize_act (VStr x).
Proof.
  intros _. split; [intros Hb|split].
  - repeat split.
    + now apply archive_class_twice.
    + now apply archive_act_twice.
    + now apply archive_country_twice.
    + now apply archive_region_twice.
  - apply analyze_class_twice.
  - apply analyze_act_twice.
Qed.

Lemma normalizers_idempotent_witness :
  isascii "  3rd class, CIVIL " = true
  /\ blank "  3rd class, CIVIL " = false
  /\ twice Archive.standardize_class (VStr "  3rd class, CIVIL ")
     = inr (VStr "Third Class").
Proof.
  split; [reflexivity|]. split; [reflexivity|].
  destruct (normalizers_idempotent "  3rd class, CIVIL " eq_refl)
    as [H _].
  destruct (H eq_refl) as [H1 _].
  rewrite H1. reflexivity.
Defined.

(** ** Missing values and totality *)

Lemma returns_ret {A : Type} (a : A) : returns (ret a).
Proof. now exists a. Qed.

Ltac returns_by_rules :=
  cbn [truthy isna negb as_str bind ret];
  split_rules; apply returns_ret.

Lemma archive_class_returns (v : value) :
  str_or_none v = true -> returns (Archive.standardize_class v).
Proof.
  destruct v as [|s|z]; [intros _; apply returns_ret| |discriminate].
  intros _. unfold Archive.standardize_class. destruct s; returns_by_rules.
Qed.

Lemma archive_act_returns (v : value) :
  str_or_none v = true -> returns (Archive.standardize_act v).
Proof.
  destruct v as [|s|z]; [intros _; apply returns_ret| |discriminate].
  intros _. unfold Archive.standardize_act. destruct s; returns_by_rules.
Qed.

Lemma archive_country_returns (v : value) :
  str_or_none v = true -> returns (Archive.standardize_country v).
Proof.
  destruct v as [|s|z]; [intros _; apply returns_ret| |discriminate].
  intros _. unfold Archive.standardize_country. destruct s; returns_by_rules.
Qed.

Lemma archive_region_returns (v : value) :
  str_or_none v = true -> returns (Archive.standardize_region v).
Proof.
  destruct v as [|s|z]; [intros _; apply returns_ret| |discriminate].
  intros _. unfold Archive.standardize_region. destruct s; returns_by_rules.
Qed.

(** C5: each of the four categorical normalizers (both copies of the class
    and act normalizers included) and [clean_text] returns None on None,
    and returns, without raising, on every input that is a string or
    None. *)
Theorem normalizers_total (v : value) :
  str_or_none v = true ->
  (Archive.standardize_class VNone = inr VNone
   /\ Archive.standardize_act VNone = inr VNone
   /\ Archive.standardize_country VNone = inr VNone
   /\ Archive.standardize_region VNone = inr VNone
   /\ Analyze.standardize_class VNone = inr VNone
   /\ Analyze.standardize_act VNone = inr VNone
   /\ Analyze.clean_text VNone = inr VNone)
  /\ returns (Archive.standardize_class v)
  /\ returns (Archive.standardize_act v)
  /\ returns (Archive.standardize_country v)
  /\ returns (Archive.standardize_region v)
  /\ returns (Analyze.standardize_class v)
  /\ returns (Analyze.standardize_act v)
  /\ returns (Analyze.clean_text v).
Proof.
  intros Hv. split; [repeat apply conj; reflexivity|].
  destruct v as [|s|z];
    [repeat apply conj; apply returns_ret| |discriminate].
  unfold Archive.standardize_class, Archive.standardize_act,
    Archive.standardize_country, Archive.standardize_region,
    Analyze.standardize_class, Analyze.standardize_act, Analyze.clean_text.
  repeat apply conj; destruct s; returns_by_rules.
Qed.

Lemma normalizers_total_witness :
  str_or_none (VStr "Lock  Hospital") = true
  /\ returns (Analyze.clean_text (VStr "Lock  Hospital")).
Proof.
  split; [reflexivity|].
  apply (normalizers_total (VStr "Lock  Hospital") eq_refl).
Defined.

(** A cell that is neither a string nor None does make them raise. *)
Example class_of_integer_raises :
  Archive.standardize_class (VInt 1) = inl AttributeError
  /\ Analyze.standardize_class (VInt 0) = inl AttributeError
  /\ Archive.standardize_class (VInt 0) = inr VNone.
Proof. repeat split. Qed.

(** ** Substring tests see through [strip] *)

Lemma prefix_rstrip (t s : string) :
  ends_in_text t = true -> prefix t (rstrip s) = prefix t s.
Proof.
  revert t; induction s as [|c s IH]; intros t Ht; [reflexivity|].
  destruct t as [|a t]; [discriminate|].
  cbn [rstrip].
  destruct t as [|b t].
  - (* the pattern is the single character [a], which is not whitespace *)
    cbn [ends_in_text] in Ht.
    destruct (rstrip s) as [|r0 r]; cbn [prefix].
    + destruct (isspace c) eqn:Ec; cbn [prefix].
      * destruct (ascii_dec a c) as [->|]; [|reflexivity].
        now rewrite Ec in Ht.
      * destruct (ascii_dec a c); [now destruct s|reflexivity].
    + destruct (ascii_dec a c); [now destruct s|reflexivity].
  - assert (Ht' : ends_in_text (String b t) = true) by exact Ht.
    specialize (IH _ Ht').
    destruct (rstrip s) as [|r0 r] eqn:Er.
    + assert (Hp : prefix (String b t) s = false)
        by (rewrite <- IH; reflexivity).
      destruct (isspace c); cbn [prefix];
        destruct (ascii_dec a c); try reflexivity;
        now rewrite Hp.
    + cbn [prefix]. destruct (ascii_dec a c); [exact IH|reflexivity].
Qed.

Lemma contains_rstrip (t s : string) :
  ends_in_text t = true -> contains t (rstrip s) = contains t s.
Proof.
  intros Ht. induction s as [|c s IH]; [reflexivity|].
  assert (Hp := prefix_rstrip t (String c s) Ht).
  cbn [contains]. rewrite <- IH.
  cbn [rstrip] in *.
  destruct (rstrip s) as [|r0 r] eqn:Er.
  - destruct (isspace c); cbn [contains]; rewrite <- Hp;
      [destruct t; [discriminate|reflexivity]|reflexivity].
  - cbn [contains]. now rewrite Hp.
Qed.

Lemma contains_lstrip (t s : string) :
  starts_in_text t = true -> contains t (lstrip s) = contains t s.
Proof.
  intros Ht. induction s as [|c s IH]; [reflexivity|].
  cbn [lstrip]. destruct (isspace c) eqn:Ec; [|reflexivity].
  rewrite IH. cbn [contains].
  destruct t as [|a t]; [discriminate|].
  cbn [prefix starts_in_text] in *.
  destruct (ascii_dec a c) as [->|]; [|reflexivity].
  now rewrite Ec in Ht.
Qed.

(** A token with text at both ends occurs in [s.strip()] exactly when it
    occurs in [s]. *)
Lemma contains_strip (t s : string) :
  starts_in_text t = true -> ends_in_text t = true ->
  contains t (strip s) = contains t s.
Proof.
  intros H1 H2. unfold strip.
  now rewrite contains_rstrip, contains_lstrip.
Qed.

Lemma contains_nonempty (t s : string) :
  starts_in_text t = true -> contains t s = true -> s <> EmptyString.
Proof.
  intros Ht H ->. destruct t; discriminate.
Qed.

(** ** Rule order of the class normalizer *)

Ltac see_through_strip :=
  rewrite ?contains_strip by reflexivity.

Ltac use_earlier_rules H :=
  try pose proof (H 0%nat _ ltac:(lia) eq_refl);
  try pose proof (H 1%nat _ ltac:(lia) eq_refl);
  try pose proof (H 2%nat _ ltac:(lia) eq_refl);
  try pose proof (H 3%nat _ ltac:(lia) eq_refl).

Ltac settle_rules :=
  cbn [rule_applies fst snd existsb] in *;
  repeat match goal with
         | H : context [contains ?t ?s] |- _ =>
             destruct (contains t s); cbn [orb andb] in H;
             try discriminate H
         | |- context [contains ?t ?s] => destruct (contains t s)
         end;
  cbn [orb andb]; unfold ret; repeat split;
  try reflexivity; try discriminate.

(** C6: when the lower-cased input contains a token of two different class
    rules, the later-listed of the two never decides the result, and the
    earlier-listed one does whenever no rule listed before it applies as
    well; both copies of the normalizer agree on this, and "1st military"
    yields "First Class". *)
Theorem class_rule_order :
  (forall (x : string) (i j : nat) (ri rj : list string * string),
      isascii x = true ->
      nth_error class_rules i = Some ri ->
      nth_error class_rules j = Some rj ->
      (i < j)%nat ->
      rule_applies ri (lower x) = true ->
      rule_applies rj (lower x) = true ->
      (Archive.standardize_class (VStr x) <> inr (VStr (snd rj))
       /\ Analyze.standardize_class (VStr x) <> inr (VStr (snd rj)))
      /\ ((forall k rk, (k < i)%nat -> nth_error class_rules k = Some rk ->
                        rule_applies rk (lower x) = false) ->
          Archive.standardize_class (VStr x) = inr (VStr (snd ri))
          /\ Analyze.standardize_class (VStr x) = inr (VStr (snd ri))))
  /\ Archive.standardize_class (VStr "1st military") = inr (VStr "First Class")
  /\ Analyze.standardize_class (VStr "1st military") = inr (VStr "First Class").
Proof.
  split; [|split; reflexivity].
  intros x i j ri rj _ Hi Hj Hij Ai Aj.
  assert (Hx : x <> EmptyString).
  { intros ->. do 5 (destruct i as [|i]; [injection Hi as <-; discriminate|]).
    now destruct i. }
  destruct x as [|c x]; [now elim Hx|]. clear Hx.
  unfold Archive.standardize_class, Analyze.standardize_class.
  cbn [truthy isna negb as_str bind ret].
  see_through_strip.
  generalize dependent (lower (String c x)). intros low Ai Aj.
  generalize (title (strip low)). intros passthrough.
  destruct j as [|[|[|[|[|j]]]]]; try (now destruct j);
    destruct i as [|[|[|[|i]]]]; try (exfalso; lia);
    injection Hj as <-; injection Hi as <-;
    (split; [|intros H; use_earlier_rules H]); settle_rules.
Qed.

Lemma class_rule_order_witness :
  Archive.standardize_class (VStr "2nd civil") = inr (VStr "Second Class").
Proof.
  destruct class_rule_order as [H _].
  destruct (H "2nd civil" 1%nat 4%nat _ _ eq_refl eq_refl eq_refl
              ltac:(lia) eq_refl eq_refl) as [_ H'].
  apply H'. intros k rk Hk Hn.
  destruct k as [|k]; [injection Hn as <-; reflexivity|lia].
Defined.

(** ** The act rules need both tokens *)

Lemma prepared_lower (s : string) :
  lower (strip (lower s)) = strip (lower s).
Proof. now rewrite lower_strip, lower_idem. Qed.

(** A passthrough result differs from a label whose year the input lacks. *)
Lemma passthrough_not_label (x year label : string) :
  starts_in_text year = true -> ends_in_text year = true ->
  contains year (lower x) = false ->
  contains year (lower label) = true ->
  title (strip (lower x)) <> label.
Proof.
  intros Y1 Y2 Hx Hl E.
  assert (E' : strip (lower x) = lower label)
    by (rewrite <- E, lower_title; symmetry; apply prepared_lower).
  rewrite <- E', contains_strip in Hl by assumption.
  congruence.
Qed.

(** C7: an input whose lower-cased form contains "xiv" but not "1868",
    and to which no other act rule applies, is not mapped to
    "Act XIV of 1868": both copies of the act normalizer return the
    title-cased, lower-cased and stripped input, so "xiv" gives "Xiv". *)
Theorem act_needs_both_tokens :
  (forall x : string,
      isascii x = true ->
      contains "xiv" (lower x) = true ->
      contains "1868" (lower x) = false ->
      (no_rule_applies (tl archive_act_rules) (lower x) = true ->
       Archive.standardize_act (VStr x)
       = inr (VStr (title (strip (lower x))))
       /\ Archive.standardize_act (VStr x) <> inr (VStr "Act XIV of 1868"))
      /\ (no_rule_applies (tl analyze_act_rules) (lower x) = true ->
          Analyze.standardize_act (VStr x)
          = inr (VStr (title (strip (lower x))))
          /\ Analyze.standardize_act (VStr x)
             <> inr (VStr "Act XIV of 1868")))
  /\ Archive.standardize_act (VStr "xiv") = inr (VStr "Xiv")
  /\ Analyze.standardize_act (VStr "xiv") = inr (VStr "Xiv").
Proof.
  split; [|split; reflexivity].
  intros x _ Hxiv Hyear.
  assert (Hne : title (strip (lower x)) <> "Act XIV of 1868")
    by (apply (passthrough_not_label x "1868"); auto).
  assert (Hx : x <> EmptyString)
    by (intros ->; discriminate).
  destruct x as [|c x]; [now elim Hx|]. clear Hx.
  unfold Archive.standardize_act, Analyze.standardize_act.
  cbn [truthy isna negb as_str bind ret].
  revert Hne. generalize (title (strip (lower (String c x)))).
  intros passthrough Hne.
  see_through_strip.
  rewrite Hxiv, Hyear. cbn [andb].
  unfold no_rule_applies, act_rule_applies.
  cbn [analyze_act_rules archive_act_rules firstn tl forallb fst].
  split; intros H;
    repeat match type of H with
           | context [contains ?t ?s] =>
               destruct (contains t s); cbn [andb negb] in H;
               try discriminate H
           end;
    cbn [andb]; (split; [reflexivity|]);
    unfold ret; intros [= E]; now apply Hne.
Qed.

Lemma act_needs_both_tokens_witness :
  Archive.standardize_act (VStr " Act XIV of 1886")
  = inr (VStr "Act Xiv Of 1886").
Proof.
  destruct act_needs_both_tokens as [H _].
  destruct (H " Act XIV of 1886" eq_refl eq_refl eq_refl) as [Ha _].
  destruct (Ha eq_refl) as [-> _]. reflexivity.
Defined.

(** ** The two copies of the class normalizer *)

(** C10: the class normalizers of [standardize_data.py] and of
    [analyze_hospital_ops.py] return the same result on None and on every
    non-empty string; on the empty string the first returns None and the
    second the empty string. *)
Theorem class_copies_agree :
  Archive.standardize_class VNone = Analyze.standardize_class VNone
  /\ (forall s : string,
         s <> EmptyString ->
         Archive.standardize_class (VStr s)
         = Analyze.standardize_class (VStr s))
  /\ Archive.standardize_class (VStr EmptyString) = inr VNone
  /\ Analyze.standardize_class (VStr EmptyString) = inr (VStr EmptyString).
Proof.
  split; [reflexivity|]. split; [|split; reflexivity].
  intros [|c s] Hs; [now elim Hs|reflexivity].
Qed.

Lemma class_copies_agree_witness :
  "Civil  lines" <> EmptyString
  /\ Archive.standardize_class (VStr "Civil  lines")
     = Analyze.standardize_class (VStr "Civil  lines").
Proof.
  split; [discriminate|].
  apply (proj1 (proj2 class_copies_agree)). discriminate.
Defined.

(** ** The drop-and-recreate driver *)

Lemma comprehension_Forall2 {A B : Type} (f : A -> result B) (l : list A) :
  (forall x, In x l -> returns (f x)) ->
  exists ys, Archive.comprehension f l = inr ys
             /\ Forall2 (fun x y => f x = inr y) l ys.
Proof.
  induction l as [|x l IH]; intros H.
  - exists []. split; [reflexivity|constructor].
  - destruct (H x (or_introl eq_refl)) as [y Hy].
    destruct IH as [ys [E F]]; [intros z Hz; apply H; now right|].
    exists (y :: ys). cbn [Archive.comprehension].
    rewrite Hy, E. split; [reflexivity|now constructor].
Qed.

Lemma index_found (c : string) (names : list string) :
  existsb (String.eqb c) names = true ->
  exists i, Archive.index c names = inr i /\ (i < length names)%nat.
Proof.
  induction names as [|y names IH]; [discriminate|].
  cbn [existsb Archive.index length]. rewrite (String.eqb_sym c y).
  destruct (y =? c).
  - intros _. exists 0%nat. split; [reflexivity|lia].
  - intros H. destruct (IH H) as [i [E L]].
    exists (S i). rewrite E. split; [reflexivity|lia].
Qed.

Lemma index_bound (c : string) (names : list string) (i : nat) :
  Archive.index c names = inr i -> (i < length names)%nat.
Proof.
  revert i; induction names as [|y names IH]; intros i; [discriminate|].
  cbn [Archive.index length]. destruct (y =? c).
  - intros [= <-]. lia.
  - destruct (Archive.index c names) as [e|j]; [discriminate|].
    intros [= <-]. specialize (IH j eq_refl). lia.
Qed.

Lemma cell_defined (t : Archive.table) (c : string) (row : list value) (i : nat) :
  Archive.index c (Archive.column_names t) = inr i ->
  length row = length (Archive.column_names t) ->
  exists v, nth_error row i = Some v /\ cell t c row = Some v.
Proof.
  intros Hi Hl. unfold cell. rewrite Hi.
  destruct (nth_error row i) as [v|] eqn:E; [now exists v|].
  apply nth_error_None in E. apply index_bound in Hi. lia.
Qed.

Lemma Forall2_nth_error_l {A B : Type} (R : A -> B -> Prop)
    (l : list A) (l' : list B) (k : nat) (x : A) :
  Forall2 R l l' -> nth_error l k = Some x ->
  exists y, nth_error l' k = Some y /\ R x y.
Proof.
  intros F; revert k; induction F as [|a b l l' Hab F IH]; intros k.
  - now destruct k.
  - destruct k as [|k]; cbn [nth_error].
    + intros [= <-]. now exists b.
    + apply IH.
Qed.

Lemma insert_fresh (hid : value) (cells : list value)
    (inserted : list (list value)) :
  is_null hid || negb (key_taken hid inserted) = true ->
  Archive.insert (hid :: cells) inserted = inr (inserted ++ [hid :: cells])%list.
Proof.
  intros H. unfold Archive.insert.
  destruct hid as [|s|z]; [reflexivity| |];
    cbn [is_null orb] in H; unfold key_taken in H;
    apply negb_true_iff in H; now rewrite H.
Qed.

Ltac cell_of H row Hlen v Hn Hc :=
  destruct (cell_defined _ _ row _ H Hlen) as [v [Hn Hc]].

Lemma reinsert_row (old new : Archive.table) (ks : list nat)
    (row : list value) (inserted : list (list value)) :
  Archive.column_names new = Archive.kept_columns ->
  Forall2 (fun c i => Archive.index c (Archive.column_names old) = inr i)
          Archive.kept_columns ks ->
  length row = length (Archive.column_names old) ->
  forallb (fun c => match cell old c row with
                    | Some v => str_or_none v
                    | None => false
                    end) categorical_columns = true ->
  is_null (key_of old row) || negb (key_taken (key_of old row) inserted)
  = true ->
  exists cells,
    Archive.reinsert ks row inserted
    = inr (inserted ++ [key_of old row :: cells])%list
    /\ row_image old new row (key_of old row :: cells).
Proof.
  intros Hnew Hks Hlen Hcat Hkey.
  unfold Archive.kept_columns in Hks.
  repeat match goal with
         | H : Forall2 _ (_ :: _) _ |- _ =>
             let i := fresh "i" in
             let Hi := fresh "Hi" in
             let F := fresh "F" in
             inversion H as [|? i ? ? Hi F]; subst; clear H
         | H : Forall2 _ [] _ |- _ => inversion H; subst; clear H
         end.
  unfold key_of in *.
  cell_of Hi row Hlen v0 Hn0 Hc0. cell_of Hi0 row Hlen v1 Hn1 Hc1.
  cell_of Hi1 row Hlen v2 Hn2 Hc2. cell_of Hi2 row Hlen v3 Hn3 Hc3.
  cell_of Hi3 row Hlen v4 Hn4 Hc4. cell_of Hi4 row Hlen v5 Hn5 Hc5.
  cell_of Hi5 row Hlen v6 Hn6 Hc6. cell_of Hi6 row Hlen v7 Hn7 Hc7.
  cell_of Hi7 row Hlen v8 Hn8 Hc8. cell_of Hi8 row Hlen v9 Hn9 Hc9.
  rewrite Hc0 in *.
  cbn [forallb categorical_columns] in Hcat.
  rewrite Hc5, Hc7, Hc8, Hc9 in Hcat.
  apply andb_prop in Hcat as [Hs5 Hcat]. apply andb_prop in Hcat as [Hs7 Hcat].
  apply andb_prop in Hcat as [Hs8 Hcat]. apply andb_prop in Hcat as [Hs9 _].
  destruct (archive_region_returns _ Hs5) as [r5 Hr5].
  destruct (archive_country_returns _ Hs7) as [r7 Hr7].
  destruct (archive_act_returns _ Hs8) as [r8 Hr8].
  destruct (archive_class_returns _ Hs9) as [r9 Hr9].
  exists [v1; v2; v3; v4; r5; v6; r7; r8; r9].
  split.
  - unfold Archive.reinsert. cbn [Archive.comprehension].
    unfold Archive.getitem at 1 2 3 4 5 6 7 8 9 10.
    rewrite Hn0, Hn1, Hn2, Hn3, Hn4, Hn5, Hn6, Hn7, Hn8, Hn9.
    cbn [bind ret Archive.getitem nth_error Archive.setitem].
    rewrite Hr8. cbn [bind ret Archive.getitem nth_error Archive.setitem].
    rewrite Hr9. cbn [bind ret Archive.getitem nth_error Archive.setitem].
    rewrite Hr7. cbn [bind ret Archive.getitem nth_error Archive.setitem].
    rewrite Hr5. cbn [bind ret Archive.getitem nth_error Archive.setitem].
    now apply insert_fresh.
  - unfold row_image, kept, recomputed, cell. rewrite Hnew.
    split; [reflexivity|].
    unfold cell in Hc0, Hc1, Hc2, Hc3, Hc4, Hc5, Hc6, Hc7, Hc8, Hc9.
    repeat split; eauto 6.
Qed.

Lemma key_taken_app (k : value) (inserted : list (list value))
    (row : list value) :
  key_taken k (inserted ++ [row])
  = key_taken k inserted
    || match row with
       | h :: _ => Archive.value_eqb h k
       | [] => false
       end.
Proof.
  unfold key_taken. rewrite existsb_app. cbn [existsb].
  now rewrite orb_false_r.
Qed.

Lemma reinsert_all_rows (old new : Archive.table) (ks : list nat)
    (rows : list (list value)) :
  Archive.column_names new = Archive.kept_columns ->
  Forall2 (fun c i => Archive.index c (Archive.column_names old) = inr i)
          Archive.kept_columns ks ->
  forallb (fun row => (length row =? length (Archive.column_names old))%nat)
          rows = true ->
  forallb (fun row =>
             forallb (fun c => match cell old c row with
                               | Some v => str_or_none v
                               | None => false
                               end) categorical_columns) rows = true ->
  distinct_keys (map (key_of old) rows) = true ->
  forall inserted,
    forallb (fun k => is_null k || negb (key_taken k inserted))
            (map (key_of old) rows) = true ->
    exists added,
      Archive.reinsert_all ks rows inserted = inr (inserted ++ added)%list
      /\ Forall2 (row_image old new) rows added.
Proof.
  intros Hnew Hks.
  induction rows as [|row rows IH]; intros Hlen Hcat Hkeys inserted Hfresh.
  - exists []. rewrite app_nil_r. split; [reflexivity|constructor].
  - cbn [forallb map distinct_keys] in *.
    apply andb_prop in Hlen as [Hlen Hlens].
    apply andb_prop in Hcat as [Hcat Hcats].
    apply andb_prop in Hkeys as [Hkey Hkeys].
    apply andb_prop in Hfresh as [Hfresh Hfreshs].
    apply Nat.eqb_eq in Hlen.
    destruct (reinsert_row old new ks row inserted Hnew Hks Hlen Hcat Hfresh)
      as [cells [E Himg]].
    destruct (IH Hlens Hcats Hkeys (inserted ++ [key_of old row :: cells])%list)
      as [added [E' F]].
    { apply forallb_forall. intros k Hk.
      rewrite forallb_forall in Hkey, Hfreshs.
      specialize (Hkey k Hk). specialize (Hfreshs k Hk).
      rewrite key_taken_app.
      destruct (is_null k); [reflexivity|].
      rewrite orb_false_r in Hkey. cbn [orb] in *.
      apply negb_true_iff in Hkey, Hfreshs.
      now rewrite Hkey, Hfreshs. }
    exists ((key_of old row :: cells) :: added).
    cbn [Archive.reinsert_all]. rewrite E. cbn [bind].
    rewrite E', <- app_assoc. split; [reflexivity|now constructor].
Qed.

(** C9: on a well-formed [hospital_operations] table the reinsertion
    returns a table with exactly the ten kept columns and one row per old
    row, in the same order; in each row the cells of hid, doc_id,
    source_name, source_type, year and station are the old row's, and
    the cells of region, country, act and class are the normalizers'
    results on the old row's cells.  No staff column remains. *)
Theorem recreate_frame (old : Archive.table) :
  well_formed old = true ->
  exists new,
    Archive.recreate old = inr new
    /\ Archive.column_names new = Archive.kept_columns
    /\ length (Archive.rows new) = length (Archive.rows old)
    /\ forall (k : nat) (row : list value),
         nth_error (Archive.rows old) k = Some row ->
         exists row',
           nth_error (Archive.rows new) k = Some row'
           /\ row_image old new row row'.
Proof.
  unfold well_formed. intros H.
  apply andb_prop in H as [H _].
  apply andb_prop in H as [H Hkeys]. apply andb_prop in H as [H Hcat].
  apply andb_prop in H as [Hcols Hlen].
  destruct (comprehension_Forall2
              (fun c => Archive.index c (Archive.column_names old))
              Archive.kept_columns) as [ks [Eks Fks]].
  { intros c Hc. rewrite forallb_forall in Hcols.
    destruct (index_found c _ (Hcols c Hc)) as [i [Hi _]]. now exists i. }
  set (shape := {| Archive.column_names := Archive.kept_columns;
                   Archive.rows := [] |}).
  destruct (reinsert_all_rows old shape ks (Archive.rows old)
              eq_refl Fks Hlen Hcat Hkeys []) as [added [E F]].
  { apply forallb_forall. intros k _. now rewrite orb_true_r. }
  exists {| Archive.column_names := Archive.kept_columns;
            Archive.rows := added |}.
  unfold Archive.recreate. rewrite Eks. cbn [bind]. rewrite E.
  split; [reflexivity|]. split; [reflexivity|].
  split; [symmetry; exact (Forall2_length F)|].
  intros k row Hk.
  destruct (Forall2_nth_error_l _ _ _ _ _ F Hk) as [row' [Hk' Himg]].
  exists row'. split; [exact Hk'|exact Himg].
Qed.

Lemma recreate_frame_witness :
  well_formed sample_operations = true
  /\ exists new,
       Archive.recreate sample_operations = inr new
       /\ Archive.column_names new = Archive.kept_columns.
Proof.
  split; [reflexivity|].
  destruct (recreate_frame sample_operations eq_refl) as [new [E [C _]]].
  exists new. split; [exact E|exact C].
Defined.

Example recreate_sample :
  Archive.recreate sample_operations
  = inr {| Archive.column_names := Archive.kept_columns;
           Archive.rows :=
             [[VStr "H1"; VStr "D1"; VStr "Report 1873"; VStr "report";
               VInt 1873; VStr "Madras Presidency"; VStr "Bellary";
               VStr "British India"; VStr "Act XIV of 1868";
               VStr "First Class"];
              [VStr "H2"; VStr "D1"; VStr "Report 1873"; VStr "report";
               VInt 1873; VStr "Burma"; VStr "Tonghoo"; VNone;
               VStr "Cantonment Rules"; VNone]] |}.
Proof. reflexivity. Qed.

(** ** Backups *)

Section Backups.

Import Fs.


(** [main] of the archive script never touches the backup directory. *)
Lemma archive_main_never_copies (fs : filesystem Archive.database) :
  backup_dir (files (Archive.main fs)) = backup_dir fs.
Proof.
  unfold Archive.main. cbn [db_file log].
  destruct (db_file fs) as [[[old|]]|]; try reflexivity.
  destruct (Archive.recreate old); reflexivity.
Qed.

(** C3, as stated, fails: [standardize_data.py] drops and recreates
    [hospital_operations] and commits, and no backup file or directory
    exists afterwards. *)
Lemma archive_main_drops_without_backup :
  let o := Archive.main sample_archive_fs in
  raised o = None
  /\ journal (files o) = [Connect; DropTable; Commit]
  /\ backup_dir (files o) = None
  /\ db_file (files o) <> db_file sample_archive_fs.
Proof.
  cbv zeta. repeat split. vm_compute. discriminate.
Qed.

(** A run of [update_standardizations.py]: what it adds to the journal,
    what a failing copy entails, and what precedes a commit. *)
Lemma update_backs_up_first (stamp : string) (fs : filesystem database) :
  let o := Update.run stamp fs in
  exists events,
    journal (files o) = (journal fs ++ events)%list
    /\ (db_file fs = None \/ writable fs = false ->
        raised o <> None /\ db_file (files o) = db_file fs
        /\ ~ In Commit events)
    /\ (In Commit events ->
        exists pre,
          events = (pre ++ [Copy2 (Update.backup_path stamp); Connect; Commit])%list
          /\ (pre = [] \/ pre = [Makedirs])
          /\ (backup_dir fs = None -> pre = [Makedirs])
          /\ backup_at (Update.backup_path stamp) (files o) = db_file fs
          /\ db_file fs <> None)
    /\ (db_file (files o) <> db_file fs -> In Commit events).
Proof.
  cbv zeta. unfold Update.run, makedirs, copy2.
  destruct fs as [file dir w j]. cbn [db_file backup_dir writable journal log].
  destruct dir as [files0|]; destruct w; destruct file as [d|];
    cbn [db_file backup_dir writable journal log files raised bind ret raise].
  all: try (destruct (Update.updates {| Update.db := d; Update.stdout := [] |})
              as [e|s];
            cbn [db_file backup_dir writable journal log files raised commit]).
  all: rewrite <- ?app_assoc; cbn [app].
  all: eexists; (split; [try reflexivity; symmetry; apply app_nil_r|]).
  all: split;
    [intros [H|H]; try discriminate H;
     repeat split; try discriminate; cbn [In]; intuition discriminate|].
  all: split; [|intros H; cbn [In]; tauto].
  all: cbn [In]; intros H;
    try (exfalso; intuition discriminate).
  - exists []. repeat split; try discriminate; auto.
    unfold backup_at. cbn [commit log backup_dir filter fst].
    now rewrite String.eqb_refl.
  - exists [Makedirs]. repeat split; try discriminate; auto.
    unfold backup_at. cbn [commit log backup_dir filter fst].
    now rewrite String.eqb_refl.
Qed.

(** C3 (amended): a run of [update_standardizations.py] creates the backup
    directory when it is absent and copies the database file to
    [medical_lock_hospitals_backup_<stamp>.db] in it before it connects;
    when the copy cannot succeed the run ends with an exception, commits
    nothing and leaves the database file as it was; and whenever the run
    commits, the backup holds the database as it was before the run.
    [main] of [standardize_data.py] leaves the backup directory as it
    found it. *)
Theorem backup_before_commit :
  (forall (stamp : string) (fs : filesystem database),
      let o := Update.run stamp fs in
      exists events,
        journal (files o) = (journal fs ++ events)%list
        /\ (db_file fs = None \/ writable fs = false ->
            raised o <> None /\ db_file (files o) = db_file fs
            /\ ~ In Commit events)
        /\ (In Commit events ->
            exists pre,
              events
              = (pre ++ [Copy2 (Update.backup_path stamp); Connect; Commit])%list
              /\ (pre = [] \/ pre = [Makedirs])
              /\ (backup_dir fs = None -> pre = [Makedirs])
              /\ backup_at (Update.backup_path stamp) (files o) = db_file fs
              /\ db_file fs <> None)
        /\ (db_file (files o) <> db_file fs -> In Commit events))
  /\ (forall fs : filesystem Archive.database,
         backup_dir (files (Archive.main fs)) = backup_dir fs).
Proof.
  split.
  - intros stamp fs. apply update_backs_up_first.
  - apply archive_main_never_copies.
Qed.

Lemma backup_before_commit_witness :
  raised (Update.run "1873-01-01_120000" (sample_fs sample_db)) = None
  /\ backup_at (Update.backup_path "1873-01-01_120000")
       (files (Update.run "1873-01-01_120000" (sample_fs sample_db)))
     = Some sample_db.
Proof.
  split; [vm_compute; reflexivity|].
  destruct (proj1 backup_before_commit "1873-01-01_120000"
              (sample_fs sample_db)) as [events [Hj [_ [Hc _]]]].
  assert (He : events
               = [Makedirs; Copy2 (Update.backup_path "1873-01-01_120000");
                  Connect; Commit]).
  { revert Hj. vm_compute. now intros <-. }
  destruct Hc as [pre [_ [_ [_ [Hb _]]]]]; [|exact Hb].
  rewrite He. cbn [In]. tauto.
Defined.

End Backups.

(** ** Loops *)

(** A loop keeps an invariant that may mention the items still to come. *)
Lemma for_each_keeps {A S : Type} (P : list A -> S -> Prop)
    (body : A -> S -> result S) :
  (forall x rest s s', P (x :: rest) s -> body x s = inr s' -> P rest s') ->
  forall xs s s', P xs s -> for_each xs body s = inr s' -> P [] s'.
Proof.
  intros Hbody xs; induction xs as [|x xs IH]; intros s s' HP.
  - now intros [= <-].
  - cbn [for_each]. destruct (body x s) as [e|s1] eqn:E; [discriminate|].
    cbn [bind]. apply IH. now apply (Hbody x xs s).
Qed.

(** A loop whose body returns under the invariant returns. *)
Lemma for_each_returns {A S : Type} (P : list A -> S -> Prop)
    (body : A -> S -> result S) :
  (forall x rest s, P (x :: rest) s ->
                    exists s', body x s = inr s' /\ P rest s') ->
  forall xs s, P xs s -> exists s', for_each xs body s = inr s' /\ P [] s'.
Proof.
  intros Hbody xs; induction xs as [|x xs IH]; intros s HP.
  - now exists s.
  - destruct (Hbody x xs s HP) as [s1 [E H1]].
    destruct (IH s1 H1) as [s' [E' H']].
    exists s'. cbn [for_each]. rewrite E. now split.
Qed.

(** ** Counting rows *)

Lemma count_zero {A : Type} (p : A -> bool) (l : list A) :
  length (filter p l) = 0%nat <-> forall x, In x l -> p x = false.
Proof.
  induction l as [|a l IH]; cbn [filter].
  - split; [now intros _ x []|reflexivity].
  - destruct (p a) eqn:E; cbn [length].
    + split; [discriminate|]. intros H.
      specialize (H a (or_introl eq_refl)). congruence.
    + rewrite IH. split.
      * intros H x [<-|Hx]; auto.
      * intros H x Hx. apply H. now right.
Qed.

Lemma distinct_NoDup (ids : list Z) : distinct ids = true -> NoDup ids.
Proof.
  induction ids as [|i ids IH]; cbn [distinct]; [constructor|].
  intros H. apply andb_prop in H as [Hi Hd].
  constructor; [|now apply IH].
  intros Hin. apply negb_true_iff in Hi.
  assert (existsb (Z.eqb i) ids = true); [|congruence].
  apply existsb_exists. exists i. split; [exact Hin|apply Z.eqb_refl].
Qed.

Lemma NoDup_map_filter {A B : Type} (f : A -> B) (p : A -> bool)
    (l : list A) :
  NoDup (map f l) -> NoDup (map f (filter p l)).
Proof.
  induction l as [|a l IH]; cbn [map filter]; [trivial|].
  intros H. inversion H as [|? ? Hn Hl]; subst.
  destruct (p a); cbn [map]; [|now apply IH].
  constructor; [|now apply IH].
  intros Hin. apply Hn. apply in_map_iff in Hin as [x [E Hx]].
  apply filter_In in Hx as [Hx _]. apply in_map_iff. now exists x.
Qed.

Lemma NoDup_map_same {A B : Type} (f : A -> B) (l : list A) (x y : A) :
  NoDup (map f l) -> In x l -> In y l -> f x = f y -> x = y.
Proof.
  induction l as [|a l IH]; cbn [map]; [now intros _ []|].
  intros H Hx Hy E. inversion H as [|? ? Hn Hl]; subst.
  destruct Hx as [<-|Hx]; destruct Hy as [<-|Hy]; auto.
  - elim Hn. rewrite E. now apply in_map.
  - elim Hn. rewrite <- E. now apply in_map.
Qed.

(** ** One merge: repoint the reports, delete the row *)

Lemma merge_removes (c id : Z) (d : database) :
  id <> c ->
  count_stations id (delete_station id (update_reports c id d)) = 0%nat
  /\ count_reports id (delete_station id (update_reports c id d)) = 0%nat.
Proof.
  intros Hne. unfold count_stations, count_reports.
  cbn [delete_station update_reports with_stations with_reports stations
       station_reports].
  split; apply count_zero.
  - intros r Hr. apply filter_In in Hr as [_ Hr].
    now apply negb_true_iff in Hr.
  - intros r Hr. apply in_map_iff in Hr as [r0 [<- _]].
    unfold repoint. destruct (is_report_of id r0) eqn:E; [|exact E].
    unfold is_report_of. cbn [report_station_id]. now apply Z.eqb_neq.
Qed.

Lemma merge_keeps_removed (c id b : Z) (d : database) :
  b <> c ->
  count_stations b d = 0%nat -> count_reports b d = 0%nat ->
  count_stations b (delete_station id (update_reports c id d)) = 0%nat
  /\ count_reports b (delete_station id (update_reports c id d)) = 0%nat.
Proof.
  unfold count_stations, count_reports. rewrite !count_zero.
  cbn [delete_station update_reports with_stations with_reports stations
       station_reports].
  intros Hne Hs Hr. split.
  - intros r Hin. apply filter_In in Hin as [Hin _]. now apply Hs.
  - intros r Hin. apply in_map_iff in Hin as [r0 [<- Hin]].
    unfold repoint. destruct (is_report_of id r0) eqn:E; [|now apply Hr].
    unfold is_report_of. cbn [report_station_id]. now apply Z.eqb_neq.
Qed.

Lemma merge_keeps_key (c id : Z) (d : database) :
  NoDup (map station_id (stations d)) ->
  NoDup (map station_id
           (stations (delete_station id (update_reports c id d)))).
Proof. apply NoDup_map_filter. Qed.

(** ** Renaming a row *)

Lemma rename_result (n : string) (id : Z) (d d' : database) :
  rename_station n id d = inr d' ->
  stations d' = map (renamed n id) (stations d)
  /\ station_reports d' = station_reports d
  /\ fact_tables d' = fact_tables d.
Proof.
  unfold rename_station.
  destruct (filter (fun r => (station_id r =? id)%Z) (stations d))
    as [|t more] eqn:E.
  - intros [= <-]. repeat split.
    rewrite <- (map_id (stations d)) at 1. apply map_ext_in.
    intros r Hr. unfold renamed.
    destruct (station_id r =? id)%Z eqn:Er; [|reflexivity].
    assert (In r []) as []. rewrite <- E. now apply filter_In.
  - destruct (_ || _); [discriminate|]. intros [= <-]. now repeat split.
Qed.

Lemma NoDup_constant {A B : Type} (f : A -> B) (k : B) (l : list A) :
  NoDup (map f l) -> (forall x, In x l -> f x = k) -> (length l <= 1)%nat.
Proof.
  destruct l as [|a [|b l]]; cbn [length]; try lia.
  intros H Hk. exfalso. inversion H as [|? ? Hn _]; subst. apply Hn.
  left. rewrite (Hk a), (Hk b); cbn [In]; auto.
Qed.

Lemma rename_returns (n : string) (id : Z) (d : database) :
  NoDup (map station_id (stations d)) ->
  (forall r, In r (stations d) -> name r <> n) ->
  returns (rename_station n id d).
Proof.
  intros Hkey Hfree. unfold rename_station.
  destruct (filter (fun r => (station_id r =? id)%Z) (stations d))
    as [|t more] eqn:E; [apply returns_ret|].
  assert (Hothers :
            existsb (fun r => name r =? n)
              (filter (fun r => negb (station_id r =? id)%Z) (stations d))
            = false).
  { apply not_true_iff_false. intros H.
    apply existsb_exists in H as [r [Hr Hn]].
    apply filter_In in Hr as [Hr _]. apply String.eqb_eq in Hn.
    now apply (Hfree r). }
  assert (Hone : (length (t :: more) <= 1)%nat).
  { rewrite <- E. apply (NoDup_constant station_id id).
    - now apply NoDup_map_filter.
    - intros r Hr. apply filter_In in Hr as [_ Hr]. now apply Z.eqb_eq. }
  rewrite Hothers. destruct more; [apply returns_ret|cbn [length] in Hone; lia].
Qed.

Lemma renamed_id (n : string) (id : Z) (r : station_row) :
  station_id (renamed n id r) = station_id r.
Proof. unfold renamed. now destruct (station_id r =? id)%Z. Qed.

Lemma renamed_ids (n : string) (id : Z) (l : list station_row) :
  map station_id (map (renamed n id) l) = map station_id l.
Proof. rewrite map_map. apply map_ext. apply renamed_id. Qed.

Lemma count_renamed (n : string) (id b : Z) (l : list station_row) :
  length (filter (fun r => (station_id r =? b)%Z) (map (renamed n id) l))
  = length (filter (fun r => (station_id r =? b)%Z) l).
Proof.
  induction l as [|r l IH]; [reflexivity|].
  cbn [map filter]. rewrite renamed_id.
  destruct (station_id r =? b)%Z; cbn [length]; now rewrite IH.
Qed.

Lemma rename_keeps_counts (n : string) (id b : Z) (d d' : database) :
  rename_station n id d = inr d' ->
  count_stations b d' = count_stations b d
  /\ count_reports b d' = count_reports b d.
Proof.
  intros H. apply rename_result in H as [Hs [Hr _]].
  unfold count_stations, count_reports. rewrite Hs, Hr.
  split; [apply count_renamed|reflexivity].
Qed.

(** ** The merge loops of [set_coords] *)

Lemma one_step_settled (cond : condition) (n : string) (id : Z)
    (l l' : list station_row) :
  one_step n id l l' -> settled cond n l -> settled cond n l'.
Proof.
  intros [->| ->] H r Hr Hc.
  - apply in_map_iff in Hr as [r0 [<- Hr]]. revert Hc. unfold renamed.
    destruct (station_id r0 =? id)%Z; [reflexivity|now apply H].
  - apply filter_In in Hr as [Hr _]. now apply H.
Qed.

Lemma one_step_pending (cond : condition) (n : string) (id : Z)
    (ids : list Z) (l l' : list station_row) :
  one_step n id l l' -> pending cond n (id :: ids) l -> pending cond n ids l'.
Proof.
  intros [->| ->] H r Hr Hc Hn.
  - apply in_map_iff in Hr as [r0 [<- Hr]]. revert Hc Hn. unfold renamed.
    destruct (station_id r0 =? id)%Z eqn:E; [now intros _ []|].
    intros Hc Hn. destruct (H r0 Hr Hc Hn) as [E'|Hin]; [|exact Hin].
    apply Z.eqb_neq in E. congruence.
  - apply filter_In in Hr as [Hr E]. apply negb_true_iff in E.
    destruct (H r Hr Hc Hn) as [E'|Hin]; [|exact Hin].
    apply Z.eqb_neq in E. congruence.
Qed.

Lemma pending_nil_settled (cond : condition) (n : string)
    (l : list station_row) :
  pending cond n [] l -> settled cond n l.
Proof.
  intros H r Hr Hc. destruct (String.eqb_spec (name r) n) as [E|E]; [exact E|].
  now destruct (H r Hr Hc E).
Qed.

(** One iteration of the inner loop. *)
Lemma merge_variant_step (n : string) (base : list line)
    (facts : list (string * list fact_row)) (id : Z) (old_name : string)
    (st : session * option Z) :
  merge_invariant n base facts st ->
  (forall c, snd st = Some c -> id <> c) ->
  exists st',
    merge_variant n (id, old_name) st = inr st'
    /\ merge_invariant n base facts st'
    /\ snd st' = Some (match snd st with
                       | Some c => c
                       | None => id
                       end)
    /\ one_step n id (stations (db (fst st))) (stations (db (fst st'))).
Proof.
  destruct st as [s [c|]]; cbn [fst snd];
    intros [lines [Hout [Hkey [Hfacts [Hanchor Hgone]]]]] Hid;
    cbn [fst snd] in *.
  - (* merge into the canonical row *)
    specialize (Hid c eq_refl).
    exists (print (MergedDuplicate old_name id c)
              (execute (delete_station id (update_reports c id (db s))) s),
            Some c).
    split; [reflexivity|]. cbn [fst snd print execute db stdout].
    split; [|split; [reflexivity|now right]].
    exists (lines ++ [MergedDuplicate old_name id c])%list.
    cbn [fst snd print execute db stdout]. rewrite Hout, <- app_assoc.
    split; [reflexivity|]. split; [now apply merge_keeps_key|].
    split; [exact Hfacts|]. split.
    + intros r Hr. apply filter_In in Hr as [Hr _]. now apply Hanchor.
    + intros n0 b a Hin. apply in_app_or in Hin as [Hin|[[= -> -> ->]|[]]].
      * destruct (Hgone _ _ _ Hin) as [[= ->] [Hb [Hs Hr]]].
        split; [reflexivity|]. split; [exact Hb|].
        now apply merge_keeps_removed.
      * split; [reflexivity|]. split; [exact Hid|].
        now apply merge_removes.
  - (* promote the row *)
    destruct (rename_returns n id (db s) Hkey Hanchor) as [d' E].
    destruct (rename_result _ _ _ _ E) as [Hs [Hr Hf]].
    exists (print (Promoted old_name id n) (execute d' s), Some id).
    cbn [merge_variant]. rewrite E. cbn [bind ret fst snd].
    split; [reflexivity|]. split; [|split; [reflexivity|now left]].
    exists (lines ++ [Promoted old_name id n])%list.
    cbn [fst snd print execute db stdout]. rewrite Hout, <- app_assoc.
    split; [reflexivity|]. split; [now rewrite Hs, renamed_ids|].
    split; [congruence|]. split.
    + intros r Hin E'. rewrite Hs in Hin.
      apply in_map_iff in Hin as [r0 [<- Hin]]. revert E'. unfold renamed.
      destruct (station_id r0 =? id)%Z eqn:E0; [reflexivity|].
      intros E'. apply Z.eqb_neq in E0. contradiction.
    + intros n0 b a Hin. apply in_app_or in Hin as [Hin|[[=]|[]]].
      now destruct (Hgone _ _ _ Hin) as [[=] _].
Qed.

Lemma select_variants_ids (cond : condition) (n : string) (d : database) :
  map fst (select_variants cond n d)
  = map station_id
      (filter (fun r => holds cond (name r) && negb (name r =? n))
              (stations d)).
Proof. unfold select_variants. rewrite map_map. reflexivity. Qed.

(** The inner loop: every variant of one condition is promoted or merged. *)
Lemma merge_matches (n : string) (base : list line)
    (facts : list (string * list fact_row)) (cond : condition)
    (done : list condition) (st : session * option Z) :
  merge_invariant n base facts st ->
  (forall c, In c done -> settled c n (stations (db (fst st)))) ->
  exists st',
    for_each (select_variants cond n (db (fst st))) (merge_variant n) st
    = inr st'
    /\ merge_invariant n base facts st'
    /\ (forall c, In c (done ++ [cond])%list ->
                  settled c n (stations (db (fst st')))).
Proof.
  intros Hinv Hdone.
  pose (P := fun (ms : list (Z * string)) (st : session * option Z) =>
               merge_invariant n base facts st
               /\ NoDup (map fst ms)
               /\ (forall c, snd st = Some c -> ~ In c (map fst ms))
               /\ pending cond n (map fst ms) (stations (db (fst st)))
               /\ (forall c, In c done ->
                             settled c n (stations (db (fst st))))).
  destruct (for_each_returns P (merge_variant n)) with
    (xs := select_variants cond n (db (fst st))) (s := st)
    as [st' [E [Hinv' [_ [_ [Hpend Hdone']]]]]].
  - (* one iteration *)
    intros [id old_name] rest s [Hi [Hnd [Hc [Hp Hd]]]].
    cbn [map fst] in *. inversion Hnd as [|? ? Hfresh Hnd']; subst.
    destruct (merge_variant_step n base facts id old_name s Hi)
      as [s' [E [Hi' [Hc' Hstep]]]].
    { intros c Ec <-. apply (Hc id Ec). now left. }
    exists s'. split; [exact E|]. split; [exact Hi'|]. split; [exact Hnd'|].
    split; [|split].
    + intros c Ec Hin. rewrite Hc' in Ec. injection Ec as <-.
      destruct (snd s) as [c0|] eqn:E0; [|contradiction].
      apply (Hc c0 eq_refl). now right.
    + now apply (one_step_pending cond n id _ _ _ Hstep).
    + intros c Hin. apply (one_step_settled c n id _ _ Hstep). now apply Hd.
  - (* on entry *)
    destruct Hinv as [lines [Hout [Hkey [Hfacts [Hanchor Hgone]]]]].
    split; [now exists lines|]. rewrite select_variants_ids.
    split; [now apply NoDup_map_filter|]. split; [|split; [|exact Hdone]].
    + intros c Ec Hin. apply in_map_iff in Hin as [r [Er Hr]].
      apply filter_In in Hr as [Hr Hb]. apply andb_prop in Hb as [_ Hb].
      apply negb_true_iff, String.eqb_neq in Hb. apply Hb.
      rewrite Ec in Hanchor. now apply Hanchor.
    + intros r Hr Hc Hn. apply in_map. apply filter_In. split; [exact Hr|].
      rewrite Hc. now apply negb_true_iff, String.eqb_neq.
  - exists st'. split; [exact E|]. split; [exact Hinv'|].
    intros c Hin. apply in_app_or in Hin as [Hin|[<-|[]]]; [now apply Hdone'|].
    now apply pending_nil_settled.
Qed.

(** The first loop of [set_coords] returns, keeps the invariant and
    leaves no variant of any condition behind. *)
Lemma merge_stations_returns (conds : list condition) (n : string)
    (base : list line) (facts : list (string * list fact_row))
    (st : session * option Z) :
  merge_invariant n base facts st ->
  exists st',
    merge_stations conds n st = inr st'
    /\ merge_invariant n base facts st'
    /\ (forall c, In c conds -> settled c n (stations (db (fst st')))).
Proof.
  intros Hinv.
  pose (P := fun (rest : list condition) (st : session * option Z) =>
               merge_invariant n base facts st
               /\ exists done,
                   conds = (done ++ rest)%list
                   /\ forall c, In c done ->
                                settled c n (stations (db (fst st)))).
  unfold merge_stations.
  destruct (for_each_returns P
              (fun cond st =>
                 for_each (select_variants cond n (db (fst st)))
                   (merge_variant n) st))
    with (xs := conds) (s := st) as [st' [E [Hinv' [done [Ed Hd]]]]].
  - intros cond rest s [Hi [done [Ed Hd]]].
    destruct (merge_matches n base facts cond done s Hi Hd)
      as [s' [E [Hi' Hd']]].
    exists s'. split; [exact E|]. split; [exact Hi'|].
    exists (done ++ [cond])%list. split; [|exact Hd'].
    now rewrite <- app_assoc.
  - split; [exact Hinv|]. exists []. split; [reflexivity|now intros c []].
  - exists st'. split; [exact E|]. split; [exact Hinv'|].
    rewrite app_nil_r in Ed. subst done. exact Hd.
Qed.

(** ** The fact tables *)

Lemma update_table_found (table : string)
    (f : list fact_row -> list fact_row)
    (tables : list (string * list fact_row)) (rows : list fact_row) :
  lookup_table table tables = Some rows ->
  exists tables',
    update_table table f tables = Some tables'
    /\ lookup_table table tables' = Some (f rows)
    /\ (forall t, t <> table ->
                  lookup_table t tables' = lookup_table t tables)
    /\ (f rows = rows -> tables' = tables).
Proof.
  induction tables as [|[t0 rows0] tables IH]; [discriminate|].
  cbn [lookup_table update_table].
  destruct (t0 =? table) eqn:E.
  - intros [= ->]. eexists. split; [reflexivity|].
    cbn [lookup_table]. rewrite E. split; [reflexivity|]. split.
    + intros t Ht. apply String.eqb_eq in E. subst t0.
      apply String.eqb_neq in Ht. rewrite String.eqb_sym in Ht.
      now rewrite Ht.
    + now intros ->.
  - intros H. destruct (IH H) as [tables' [E1 [E2 [E3 E4]]]].
    rewrite E1. eexists. split; [reflexivity|].
    cbn [lookup_table]. rewrite E. split; [exact E2|]. split.
    + intros t Ht. destruct (t0 =? t); [reflexivity|now apply E3].
    + intros Hf. now rewrite E4.
Qed.

Lemma with_fact_tables_same (d : database) :
  with_fact_tables (fact_tables d) d = d.
Proof. now destruct d. Qed.

Lemma rewrite_row_settled (cond : condition) (n : string) (r : fact_row) :
  (holds_cell cond (station r) = true -> station r = Some n) ->
  rewrite_row cond n r = r.
Proof.
  unfold rewrite_row. destruct (holds_cell cond (station r)); [|reflexivity].
  intros H. destruct r as [st others]. cbn [station] in H.
  unfold set_station. cbn [other_columns]. now rewrite (H eq_refl).
Qed.

(** One UPDATE of a fact table that exists. *)
Lemma update_fact_step (table : string) (cond : condition) (n : string)
    (d : database) :
  table_exists table d ->
  exists d' rowcount,
    update_fact table cond n d = inr (d', rowcount)
    /\ stations d' = stations d
    /\ station_reports d' = station_reports d
    /\ table_settled table cond n d'
    /\ (forall t c, table_settled t c n d -> table_settled t c n d')
    /\ (forall t, table_exists t d -> table_exists t d')
    /\ (table_settled table cond n d -> d' = d).
Proof.
  unfold table_exists, update_fact. intros Hex.
  destruct (lookup_table table (fact_tables d)) as [rows|] eqn:E;
    [clear Hex|now elim Hex].
  destruct (update_table_found table (map (rewrite_row cond n)) _ _ E)
    as [tables' [E1 [E2 [E3 E4]]]].
  rewrite E1. do 2 eexists. split; [reflexivity|].
  cbn [with_fact_tables stations station_reports fact_tables].
  split; [reflexivity|]. split; [reflexivity|].
  assert (Hnew : forall c,
             (forall r, In r rows -> holds_cell c (station r) = true ->
                        station r = Some n) ->
             forall r, In r (map (rewrite_row cond n) rows) ->
                       holds_cell c (station r) = true ->
                       station r = Some n).
  { intros c Hc r Hr. apply in_map_iff in Hr as [r0 [<- Hr]].
    unfold rewrite_row. destruct (holds_cell cond (station r0)) eqn:E0.
    - reflexivity.
    - now apply Hc. }
  split; [|split; [|split]].
  - exists (map (rewrite_row cond n) rows). split; [exact E2|].
    intros r Hr. apply in_map_iff in Hr as [r0 [<- Hr]].
    unfold rewrite_row. destruct (holds_cell cond (station r0)) eqn:E0.
    + reflexivity.
    + congruence.
  - intros t c [rows0 [El Hs]]. unfold table_settled.
    cbn [with_fact_tables fact_tables].
    destruct (String.eqb_spec t table) as [->|Ht].
    + rewrite E in El. injection El as <-.
      exists (map (rewrite_row cond n) rows). split; [exact E2|].
      now apply Hnew.
    + exists rows0. split; [|exact Hs]. now rewrite E3.
  - intros t Ht. destruct (String.eqb_spec t table) as [->|Hne].
    + now rewrite E2.
    + now rewrite E3.
  - intros [rows0 [El Hs]]. rewrite E in El. injection El as <-.
    rewrite E4; [apply with_fact_tables_same|].
    rewrite <- (map_id rows) at 2. apply map_ext_in.
    intros r Hr. apply rewrite_row_settled. now apply Hs.
Qed.

Lemma printed_no_merge_print (base : list line) (l : line) (d : database)
    (s : session) :
  is_merge_line l = false ->
  printed_no_merge base s -> printed_no_merge base (print l (execute d s)).
Proof.
  intros Hl [lines [E H]]. exists (lines ++ [l])%list.
  cbn [print execute stdout]. rewrite E, <- app_assoc.
  split; [reflexivity|]. rewrite forallb_app, H. cbn [forallb].
  now rewrite Hl.
Qed.

Section StandardizeTables.

Variables (conds : list condition) (n : string) (base : list line)
          (s0 : session).

Let already : Prop :=
  forall t c, In t rangoon_targets -> In c conds ->
              table_settled t c n (db s0).

(** What every iteration of the two loops keeps. *)
Let frame (s : session) : Prop :=
  stations (db s) = stations (db s0)
  /\ station_reports (db s) = station_reports (db s0)
  /\ printed_no_merge base s
  /\ (forall t, In t rangoon_targets -> table_exists t (db s))
  /\ (forall t c, table_settled t c n (db s0) -> table_settled t c n (db s))
  /\ (already -> db s = db s0).

Lemma standardize_table_returns (table : string) (s : session)
    (X : string -> condition -> Prop) :
  In table rangoon_targets ->
  frame s ->
  (forall t c, X t c -> table_settled t c n (db s)) ->
  exists s',
    for_each conds
      (fun cond s =>
         '(d, rowcount) <- update_fact table cond n (db s) ;;
         ret (print (Standardized table n cond rowcount) (execute d s)))
      s = inr s'
    /\ frame s'
    /\ (forall t c, X t c -> table_settled t c n (db s'))
    /\ (forall c, In c conds -> table_settled table c n (db s')).
Proof.
  intros Ht Hframe HX.
  pose (P := fun (rest : list condition) (s : session) =>
               frame s
               /\ (forall t c, X t c -> table_settled t c n (db s))
               /\ exists done,
                   conds = (done ++ rest)%list
                   /\ forall c, In c done -> table_settled table c n (db s)).
  destruct (for_each_returns P
              (fun cond s =>
                 '(d, rowcount) <- update_fact table cond n (db s) ;;
                 ret (print (Standardized table n cond rowcount)
                        (execute d s))))
    with (xs := conds) (s := s) as [s' [E [Hf [HX' [done [Ed Hd]]]]]].
  - intros cond rest s1 [[F1 [F2 [F3 [F4 [F5 F6]]]]] [HX1 [done [Ed Hd]]]].
    destruct (update_fact_step table cond n (db s1) (F4 table Ht))
      as [d' [k [E [U1 [U2 [U3 [U4 [U5 U6]]]]]]]].
    exists (print (Standardized table n cond k) (execute d' s1)).
    rewrite E. cbn [bind ret]. split; [reflexivity|].
    unfold P, frame. cbn [print execute db]. split; [|split].
    + split; [congruence|]. split; [congruence|].
      split; [now apply printed_no_merge_print|].
      split; [intros t Hin; apply U5; now apply F4|].
      split; [intros t c Hs; apply U4; now apply F5|].
      intros Hal. rewrite U6; [now apply F6|].
      rewrite (F6 Hal). apply Hal; [exact Ht|].
      rewrite Ed. apply in_or_app. right. now left.
    + intros t c Hx. apply U4. now apply HX1.
    + exists (done ++ [cond])%list. split; [now rewrite <- app_assoc|].
      intros c Hin. apply in_app_or in Hin as [Hin|[<-|[]]]; [|exact U3].
      apply U4. now apply Hd.
  - split; [exact Hframe|]. split; [exact HX|].
    exists []. split; [reflexivity|now intros c []].
  - exists s'. split; [exact E|]. split; [exact Hf|]. split; [exact HX'|].
    rewrite app_nil_r in Ed. subst done. exact Hd.
Qed.

Lemma standardize_tables_frame (s : session) :
  frame s ->
  exists s',
    standardize_tables conds n s = inr s'
    /\ frame s'
    /\ (forall t c, In t rangoon_targets -> In c conds ->
                    table_settled t c n (db s')).
Proof.
  intros Hframe.
  pose (P := fun (rest : list string) (s : session) =>
               frame s
               /\ exists done,
                   rangoon_targets = (done ++ rest)%list
                   /\ forall t c, In t done /\ In c conds ->
                                  table_settled t c n (db s)).
  unfold standardize_tables.
  destruct (for_each_returns P
              (fun table s =>
                 for_each conds
                   (fun cond s =>
                      '(d, rowcount) <- update_fact table cond n (db s) ;;
                      ret (print (Standardized table n cond rowcount)
                             (execute d s)))
                   s))
    with (xs := rangoon_targets) (s := s) as [s' [E [Hf [done [Ed Hd]]]]].
  - intros table rest s1 [Hf [done [Ed Hd]]].
    destruct (standardize_table_returns table s1
                (fun t c => In t done /\ In c conds))
      as [s' [E [Hf' [HX Hc]]]]; [|exact Hf|exact Hd|].
    { rewrite Ed. apply in_or_app. right. now left. }
    exists s'. split; [exact E|]. split; [exact Hf'|].
    exists (done ++ [table])%list. split; [now rewrite <- app_assoc|].
    intros t c [Hin Hc']. apply in_app_or in Hin as [Hin|[<-|[]]].
    + now apply HX.
    + now apply Hc.
  - split; [exact Hframe|]. exists []. split; [reflexivity|].
    now intros t c [[] _].
  - exists s'. split; [exact E|]. split; [exact Hf|].
    rewrite app_nil_r in Ed. intros t c Ht Hc. apply Hd. split; [|exact Hc].
    now rewrite <- Ed.
Qed.

End StandardizeTables.

(** The last loop of [set_coords] returns when the five tables exist; it
    leaves [stations] and [station_reports] alone, prints no merge, settles
    every table for every condition, and changes nothing when they were
    settled already. *)
Lemma standardize_tables_returns (conds : list condition) (n : string)
    (base : list line) (s : session) :
  (forall t, In t rangoon_targets -> table_exists t (db s)) ->
  printed_no_merge base s ->
  exists s',
    standardize_tables conds n s = inr s'
    /\ stations (db s') = stations (db s)
    /\ station_reports (db s') = station_reports (db s)
    /\ printed_no_merge base s'
    /\ (forall t, In t rangoon_targets -> table_exists t (db s'))
    /\ (forall t c, In t rangoon_targets -> In c conds ->
                    table_settled t c n (db s'))
    /\ ((forall t c, In t rangoon_targets -> In c conds ->
                     table_settled t c n (db s)) ->
        db s' = db s).
Proof.
  intros Hex Hp.
  destruct (standardize_tables_frame conds n base s s)
    as [s' [E [[F1 [F2 [F3 [F4 [F5 F6]]]]] Hs]]].
  { repeat split; auto. }
  exists s'. repeat split; auto.
Qed.

(** ** [set_coords] as a whole *)

Lemma targets_exist_tables (d : database) :
  targets_exist d = true <->
  forall t, In t rangoon_targets -> table_exists t d.
Proof.
  unfold targets_exist, table_exists. rewrite forallb_forall.
  split; intros H t Ht; specialize (H t Ht);
    destruct (lookup_table t (fact_tables d)); congruence.
Qed.

(** The anchor the first query of [set_coords] finds. *)
Lemma select_id_anchored (n : string) (d : database) :
  NoDup (map station_id (stations d)) ->
  anchored n (select_id_by_name n d) d.
Proof.
  intros Hkey. unfold select_id_by_name.
  destruct (filter (fun r => name r =? n) (stations d)) as [|r0 l] eqn:E.
  - intros r Hr En.
    assert (In r []) as []. rewrite <- E. apply filter_In.
    split; [exact Hr|now apply String.eqb_eq].
  - assert (H0 : In r0 (filter (fun r => name r =? n) (stations d)))
      by (rewrite E; now left).
    apply filter_In in H0 as [H0 En]. apply String.eqb_eq in En.
    intros r Hr Eid.
    now rewrite (NoDup_map_same station_id _ r r0 Hkey Hr H0 Eid).
Qed.

Lemma count_coordinates (p : station_row -> bool) (lat lon : Q) (b : Z)
    (d : database) :
  count_stations b (fst (update_coordinates p lat lon d)) = count_stations b d
  /\ count_reports b (fst (update_coordinates p lat lon d))
     = count_reports b d.
Proof.
  unfold count_stations, count_reports, update_coordinates.
  cbn [fst with_stations stations station_reports].
  split; [|reflexivity].
  induction (stations d) as [|r l IH]; [reflexivity|].
  cbn [map filter].
  replace (station_id (if p r then set_coordinates lat lon r else r))
    with (station_id r) by now destruct (p r).
  destruct (station_id r =? b)%Z; cbn [length]; now rewrite IH.
Qed.

Lemma settled_coordinates (cond : condition) (n : string)
    (p : station_row -> bool) (lat lon : Q) (d : database) :
  settled cond n (stations d) ->
  settled cond n (stations (fst (update_coordinates p lat lon d))).
Proof.
  intros H r Hr. cbn [update_coordinates fst with_stations stations] in Hr.
  apply in_map_iff in Hr as [r0 [<- Hr]].
  replace (name (if p r0 then set_coordinates lat lon r0 else r0))
    with (name r0) by now destruct (p r0).
  now apply H.
Qed.

Lemma located_coordinates (n : string) (lat lon : Q) (d : database) :
  located n lat lon
    (stations (fst (update_coordinates (fun r => name r =? n) lat lon d))).
Proof.
  intros r Hr. cbn [update_coordinates fst with_stations stations] in Hr.
  apply in_map_iff in Hr as [r0 [<- Hr]].
  destruct (String.eqb_spec (name r0) n) as [E|E]; [now split|].
  intros E'. contradiction.
Qed.

Lemma coordinates_again (n : string) (lat lon : Q) (d : database) :
  located n lat lon (stations d) ->
  fst (update_coordinates (fun r => name r =? n) lat lon d) = d.
Proof.
  intros H. unfold update_coordinates. cbn [fst].
  destruct d as [l reports facts]. unfold with_stations.
  cbn [stations station_reports fact_tables] in *. f_equal.
  rewrite <- (map_id l) at 2. apply map_ext_in. intros r Hr.
  destruct (String.eqb_spec (name r) n) as [E|E]; [|reflexivity].
  destruct (H r Hr E) as [Hlat Hlon]. destruct r. cbn in *.
  unfold set_coordinates. cbn. now rewrite Hlat, Hlon.
Qed.

Lemma set_coords_returns (conds : list condition) (n : string) (lat lon : Q)
    (s : session) :
  primary_key (db s) = true ->
  targets_exist (db s) = true ->
  exists s' lines,
    set_coords conds n lat lon s = inr s'
    /\ stdout s' = (stdout s ++ lines)%list
    /\ (forall old_name b a,
           In (MergedDuplicate old_name b a) lines ->
           count_stations b (db s') = 0%nat /\ count_reports b (db s') = 0%nat)
    /\ standardized conds n lat lon (db s').
Proof.
  intros Hkey Hex. apply distinct_NoDup in Hkey.
  assert (Hex' := proj1 (targets_exist_tables _) Hex). clear Hex.
  rename Hex' into Hex.
  destruct (merge_stations_returns conds n (stdout s) (fact_tables (db s))
              (s, select_id_by_name n (db s)))
    as [[s1 c1] [E1 [[lines1 [Hout [Hkey1 [Hfacts [_ Hgone]]]]] Hset]]].
  { exists []. cbn [fst snd]. rewrite app_nil_r.
    split; [reflexivity|]. split; [exact Hkey|]. split; [reflexivity|].
    split; [now apply select_id_anchored|]. now intros old_name b a []. }
  cbn [fst snd] in *.
  pose (d := fst (update_coordinates (fun r => name r =? n) lat lon (db s1))).
  pose (rc := snd (update_coordinates (fun r => name r =? n) lat lon (db s1))).
  destruct (standardize_tables_returns conds n (stdout s1)
              (print (SetCoords n rc) (execute d s1)))
    as [s' [E2 [F1 [F2 [[lines2 [Hout2 Hno]] [F4 [F5 _]]]]]]].
  { intros t Ht. unfold table_exists. cbn [print execute db].
    unfold d. cbn [update_coordinates fst with_stations fact_tables].
    rewrite Hfacts. now apply Hex. }
  { exists [SetCoords n rc]. now split. }
  cbn [print execute db] in F1, F2.
  exists s', (lines1 ++ lines2)%list.
  unfold set_coords. rewrite E1. cbn [bind].
  change (update_coordinates (fun r => name r =? n) lat lon (db s1))
    with (d, rc) at 1.
  split; [exact E2|]. split; [now rewrite Hout2, Hout, app_assoc|].
  split.
  - intros old_name b a Hin. apply in_app_or in Hin as [Hin|Hin].
    + destruct (Hgone _ _ _ Hin) as [_ [_ [Hs Hr]]].
      destruct (count_coordinates (fun r => name r =? n) lat lon b (db s1))
        as [Cs Cr].
      fold d in Cs, Cr. unfold count_stations, count_reports in *.
      rewrite F1, F2. now rewrite Cs, Cr.
    + rewrite forallb_forall in Hno. now specialize (Hno _ Hin).
  - split; [|split; [|split]]; auto.
    + intros c Hc. rewrite F1. apply settled_coordinates. now apply Hset.
    + rewrite F1. apply located_coordinates.
Qed.

Lemma select_variants_settled (cond : condition) (n : string) (d : database) :
  settled cond n (stations d) -> select_variants cond n d = [].
Proof.
  intros H. unfold select_variants.
  replace (filter (fun r => holds cond (name r) && negb (name r =? n))
             (stations d)) with (@nil station_row); [reflexivity|].
  symmetry. apply length_zero_iff_nil. apply count_zero.
  intros r Hr. destruct (holds cond (name r)) eqn:E; [|reflexivity].
  rewrite (H r Hr E), String.eqb_refl. reflexivity.
Qed.

Lemma merge_stations_settled (conds : list condition) (n : string)
    (st : session * option Z) :
  (forall c, In c conds -> settled c n (stations (db (fst st)))) ->
  merge_stations conds n st = inr st.
Proof.
  unfold merge_stations.
  induction conds as [|cond conds IH]; intros H; [reflexivity|].
  cbn [for_each]. rewrite select_variants_settled by (apply H; now left).
  cbn [for_each bind ret]. apply IH. intros c Hc. apply H. now right.
Qed.

(** A second call of [set_coords] on what the first call left returns,
    leaves the database as it is and promotes or merges nothing. *)
Lemma set_coords_again (conds : list condition) (n : string) (lat lon : Q)
    (s : session) :
  standardized conds n lat lon (db s) ->
  exists s' lines,
    set_coords conds n lat lon s = inr s'
    /\ db s' = db s
    /\ stdout s' = (stdout s ++ lines)%list
    /\ forallb (fun l => negb (is_merge_line l)) lines = true.
Proof.
  intros [Hset [Hloc [Hex Htab]]].
  pose (rc := snd (update_coordinates (fun r => name r =? n) lat lon (db s))).
  destruct (standardize_tables_returns conds n (stdout s)
              (print (SetCoords n rc) (execute (db s) s)))
    as [s' [E [_ [_ [[lines [Hout Hno]] [_ [_ Hsame]]]]]]].
  { exact Hex. }
  { exists [SetCoords n rc]. now split. }
  exists s', lines. unfold set_coords.
  rewrite merge_stations_settled by exact Hset. cbn [bind].
  rewrite (surjective_pairing (update_coordinates _ lat lon (db s))).
  rewrite coordinates_again by exact Hloc. fold rc.
  split; [exact E|]. split; [now apply Hsame|]. now split.
Qed.

(** ** The Rangoon loop over [stations] *)

Lemma select_where_ids (cond : condition) (d : database) :
  map fst (select_where cond d)
  = map station_id (filter (fun r => holds cond (name r)) (stations d)).
Proof. unfold select_where. rewrite map_map. reflexivity. Qed.

(** Every row the loop reports as merged into Rangoon is gone when the
    loop is over. *)
Lemma rangoon_stations_merged (s s' : session) :
  primary_key (db s) = true ->
  rangoon_stations s = inr s' ->
  exists lines,
    stdout s' = (stdout s ++ lines)%list
    /\ forall old_name b a,
         In (MergedIntoRangoon old_name b a) lines ->
         count_stations b (db s') = 0%nat /\ count_reports b (db s') = 0%nat.
Proof.
  intros Hkey. apply distinct_NoDup in Hkey.
  unfold rangoon_stations.
  set (rangoon_id := select_id_by_name "Rangoon" (db s)).
  set (cond := LowerLike "india (british burma)").
  pose (P := fun (rest : list (Z * string)) (st : session * nat) =>
               exists lines,
                 stdout (fst st) = (stdout s ++ lines)%list
                 /\ NoDup (map station_id (stations (db (fst st))))
                 /\ NoDup (map fst rest)
                 /\ (forall a, rangoon_id = Some a -> ~ In a (map fst rest))
                 /\ forall old_name b a,
                      In (MergedIntoRangoon old_name b a) lines ->
                      rangoon_id = Some a /\ b <> a
                      /\ count_stations b (db (fst st)) = 0%nat
                      /\ count_reports b (db (fst st)) = 0%nat).
  match goal with
  | |- context [for_each ?xs ?body ?init] =>
      destruct (for_each xs body init) as [e|[s1 merged]] eqn:E;
      [discriminate|
       apply (for_each_keeps P body) in E]
  end.
  - destruct E as [lines [Hout [_ [_ [_ Hgone]]]]]. cbn [fst] in *.
    intros [= <-]. exists (lines ++ [RangoonOperations merged])%list.
    cbn [print stdout db]. rewrite Hout, <- app_assoc.
    split; [reflexivity|].
    intros old_name b a Hin. apply in_app_or in Hin as [Hin|[[=]|[]]].
    now destruct (Hgone _ _ _ Hin) as [_ [_ H]].
  - (* one iteration *)
    intros [id old_name] rest [s2 m] st'
           [lines [Hout [Hk [Hnd [Hanchor Hgone]]]]].
    cbn [fst snd map] in *. inversion Hnd as [|? ? Hfresh Hnd']; subst.
    destruct rangoon_id as [a|] eqn:Er.
    + intros [= <-].
      assert (Hid : id <> a) by (intros ->; apply (Hanchor a eq_refl); now left).
      exists (lines ++ [MergedIntoRangoon old_name id a])%list.
      cbn [fst print execute db stdout].
      rewrite Hout, <- app_assoc. split; [reflexivity|].
      split; [now apply merge_keeps_key|]. split; [exact Hnd'|]. split.
      * intros a0 [= <-] Hin. apply (Hanchor a eq_refl). now right.
      * intros n0 b a0 Hin. apply in_app_or in Hin as [Hin|[[= -> -> ->]|[]]].
        -- destruct (Hgone _ _ _ Hin) as [[= ->] [Hb [Hs Hr]]].
           split; [reflexivity|]. split; [exact Hb|].
           now apply merge_keeps_removed.
        -- split; [reflexivity|]. split; [exact Hid|].
           now apply merge_removes.
    + destruct (rename_station "Rangoon" id (db s2)) as [e|d'] eqn:En;
        [discriminate|].
      intros [= <-].
      destruct (rename_result _ _ _ _ En) as [Hs _].
      exists (lines ++ [RenamedToRangoon old_name])%list.
      cbn [fst print execute db stdout].
      rewrite Hout, <- app_assoc. split; [reflexivity|].
      split; [now rewrite Hs, renamed_ids|]. split; [exact Hnd'|].
      split; [discriminate|].
      intros n0 b a Hin. apply in_app_or in Hin as [Hin|[[=]|[]]].
      now destruct (Hgone _ _ _ Hin) as [[=] _].
  - (* on entry *)
    exists []. cbn [fst]. rewrite app_nil_r. split; [reflexivity|].
    split; [exact Hkey|]. rewrite select_where_ids.
    split; [now apply NoDup_map_filter|]. split; [|now intros n0 b a []].
    intros a Ea Hin. apply in_map_iff in Hin as [r [Er Hr]].
    apply filter_In in Hr as [Hr Hc].
    assert (Hn : name r = "Rangoon").
    { assert (Ha := select_id_anchored "Rangoon" (db s) Hkey).
      fold rangoon_id in Ha. rewrite Ea in Ha. now apply (Ha r). }
    rewrite Hn in Hc. discriminate Hc.
Qed.


(** With a row called Rangoon the Rangoon loop returns: it only repoints
    and deletes. *)
Lemma rangoon_stations_returns (s : session) :
  select_id_by_name "Rangoon" (db s) <> None ->
  returns (rangoon_stations s).
Proof.
  unfold rangoon_stations.
  destruct (select_id_by_name "Rangoon" (db s)) as [a|]; [intros _|now intros []].
  match goal with
  | |- context [for_each ?items ?body ?init] =>
      destruct (for_each_returns (fun _ _ => True) body) with
        (xs := items) (s := init) as [[s' merged] [E _]]
  end.
  - intros [id old_name] rest [s1 m] _. eexists. split; [reflexivity|exact I].
  - exact I.
  - rewrite E. apply returns_ret.
Qed.

(** ** Promotion happens once, and first *)

Lemma merge_variant_promoted_once (n : string) (c0 : option Z)
    (base : list line) (variant : Z * string) (st st' : session * option Z)
    (lines : list line) :
  stdout (fst st) = (base ++ lines)%list ->
  promoted_once n c0 (snd st) lines ->
  merge_variant n variant st = inr st' ->
  exists lines',
    stdout (fst st') = (base ++ lines')%list
    /\ promoted_once n c0 (snd st') lines'.
Proof.
  destruct variant as [id old_name]. destruct st as [s [c|]];
    cbn [fst snd merge_variant]; intros Hout Hshape.
  - intros [= <-]. cbn [fst snd print execute stdout].
    exists (lines ++ [MergedDuplicate old_name id c])%list.
    rewrite Hout, <- app_assoc. split; [reflexivity|].
    assert (Hlast : merges_into c [MergedDuplicate old_name id c])
      by (constructor; [now exists old_name, id|constructor]).
    destruct c0 as [c0|]; cbn [promoted_once] in *.
    + destruct Hshape as [[= ->] Hm]. split; [reflexivity|].
      now apply Forall_app.
    + destruct Hshape as [[_ [=]]|[nm [i [rest [-> [[= ->] Hm]]]]]].
      right. exists nm, i, (rest ++ [MergedDuplicate old_name id i])%list.
      split; [reflexivity|]. split; [reflexivity|]. now apply Forall_app.
  - destruct (rename_station n id (db s)) as [e|d'];
      [discriminate|]. intros [= <-].
    cbn [fst snd print execute stdout].
    exists (lines ++ [Promoted old_name id n])%list.
    rewrite Hout, <- app_assoc. split; [reflexivity|].
    destruct c0 as [c0|]; cbn [promoted_once] in *.
    + now destruct Hshape as [[=] _].
    + destruct Hshape as [[-> _]|[nm [i [rest [_ [[=] _]]]]]].
      right. exists old_name, id, []. repeat split. constructor.
Qed.

Lemma merge_stations_promoted_once (conds : list condition) (n : string)
    (c0 : option Z) (base : list line) (st st' : session * option Z) :
  (exists lines, stdout (fst st) = (base ++ lines)%list
                 /\ promoted_once n c0 (snd st) lines) ->
  merge_stations conds n st = inr st' ->
  exists lines, stdout (fst st') = (base ++ lines)%list
                /\ promoted_once n c0 (snd st') lines.
Proof.
  intros H E. unfold merge_stations in E.
  pose (P := fun (st : session * option Z) =>
               exists lines, stdout (fst st) = (base ++ lines)%list
                             /\ promoted_once n c0 (snd st) lines).
  revert E. apply (for_each_keeps (fun _ => P)); [|exact H].
  intros cond _ s1 s2 H1.
  apply (for_each_keeps (fun _ => P)); [|exact H1].
  intros variant _ s3 s4 [lines [Hout Hshape]].
  now apply (merge_variant_promoted_once n c0 base variant s3 s4 lines).
Qed.

Lemma standardize_tables_prints (conds : list condition) (n : string)
    (base : list line) (s s' : session) :
  printed_no_merge base s ->
  standardize_tables conds n s = inr s' ->
  printed_no_merge base s'.
Proof.
  intros H E. unfold standardize_tables in E. revert E.
  apply (for_each_keeps (fun _ => printed_no_merge base)); [|exact H].
  intros table _ s1 s2 H1.
  apply (for_each_keeps (fun _ => printed_no_merge base)); [|exact H1].
  intros cond _ s3 s4 H3.
  destruct (update_fact table cond n (db s3)) as [e|[d k]];
    [discriminate|].
  intros [= <-]. now apply printed_no_merge_print.
Qed.

Lemma filter_no_merge (lines : list line) :
  forallb (fun l => negb (is_merge_line l)) lines = true ->
  filter is_merge_line lines = [].
Proof.
  induction lines as [|l lines IH]; [reflexivity|].
  cbn [forallb filter]. intros H. apply andb_prop in H as [Hl H].
  apply negb_true_iff in Hl. rewrite Hl. now apply IH.
Qed.

Lemma filter_merges_into (c : Z) (lines : list line) :
  merges_into c lines -> filter is_merge_line lines = lines.
Proof.
  induction 1 as [|l lines [old_name [b ->]] _ IH]; [reflexivity|].
  cbn [filter is_merge_line]. now rewrite IH.
Qed.

(** When no row carries the canonical name on entry, the station lines of
    a call of [set_coords] are none at all, or the promotion of the first
    row processed followed by merges into that row only. *)
Lemma set_coords_promotes_once (conds : list condition) (n : string)
    (lat lon : Q) (s s' : session) :
  select_id_by_name n (db s) = None ->
  set_coords conds n lat lon s = inr s' ->
  exists lines,
    stdout s' = (stdout s ++ lines)%list
    /\ (filter is_merge_line lines = []
        \/ exists old_name id rest,
             filter is_merge_line lines = Promoted old_name id n :: rest
             /\ merges_into id rest).
Proof.
  intros Hnone. unfold set_coords. rewrite Hnone.
  destruct (merge_stations conds n (s, None)) as [e|[s1 c1]] eqn:E1;
    [discriminate|].
  cbn [bind].
  destruct (merge_stations_promoted_once conds n None (stdout s)
              (s, None) (s1, c1)) as [lines1 [Hout1 Hshape]];
    [|exact E1|].
  { exists []. cbn [fst snd]. rewrite app_nil_r. split; [reflexivity|].
    now left. }
  cbn [fst snd promoted_once] in *.
  destruct (update_coordinates (fun r => name r =? n) lat lon (db s1))
    as [d rc].
  intros E2.
  destruct (standardize_tables_prints conds n (stdout s1) _ _
              (printed_no_merge_print (stdout s1) (SetCoords n rc) d s1
                 eq_refl (ex_intro _ [] (conj (eq_sym (app_nil_r _)) eq_refl)))
              E2)
    as [lines2 [Hout2 Hno]].
  exists (lines1 ++ lines2)%list.
  split; [now rewrite Hout2, Hout1, app_assoc|].
  rewrite filter_app, (filter_no_merge lines2 Hno), app_nil_r.
  destruct Hshape as [[-> _]|[old_name [id [rest [-> [_ Hm]]]]]].
  - now left.
  - right. exists old_name, id, rest. cbn [filter is_merge_line].
    now rewrite (filter_merges_into id rest Hm).
Qed.

(** ** Where the reports of a merged row go *)

Lemma repoint_repointed (c id : Z) (r : report_row) :
  repoint c id (repointed_to c r) = repointed_to c r.
Proof.
  unfold repoint. now destruct (is_report_of id (repointed_to c r)).
Qed.

Lemma repoint_all_nil (c : Z) (l : list report_row) :
  map (repoint_all c []) l = l.
Proof.
  rewrite <- (map_id l) at 2. now apply map_ext.
Qed.

Lemma repoint_all_snoc (c id : Z) (ids : list Z) (l : list report_row) :
  map (repoint c id) (map (repoint_all c ids) l)
  = map (repoint_all c (ids ++ [id])) l.
Proof.
  rewrite map_map. apply map_ext. intros r. unfold repoint_all.
  rewrite existsb_app. cbn [existsb]. rewrite orb_false_r.
  destruct (existsb (fun b => is_report_of b r) ids); cbn [orb].
  - apply repoint_repointed.
  - reflexivity.
Qed.

Lemma merged_ids_app (lines lines' : list line) :
  merged_ids (lines ++ lines') = (merged_ids lines ++ merged_ids lines')%list.
Proof. apply flat_map_app. Qed.

Lemma in_merged_ids (lines : list line) (old_name : string) (b a : Z) :
  In (MergedDuplicate old_name b a) lines
  \/ In (MergedIntoRangoon old_name b a) lines ->
  In b (merged_ids lines).
Proof.
  intros [H|H]; apply in_flat_map; eexists; (split; [exact H|now left]).
Qed.

Lemma merged_ids_no_merge (lines : list line) :
  forallb (fun l => negb (is_merge_line l)) lines = true ->
  merged_ids lines = [].
Proof.
  induction lines as [|l lines IH]; [reflexivity|].
  cbn [forallb]. intros H. apply andb_prop in H as [Hl H].
  unfold merged_ids. cbn [flat_map]. fold (merged_ids lines).
  rewrite (IH H). now destruct l.
Qed.

(** The reports of a merged row are the reports of the anchor afterwards. *)
Lemma reports_follow_merged (reports_0 : list report_row) (c : option Z)
    (lines : list line) (d : database) (old_name : string) (b a : Z)
    (i : nat) (r : report_row) :
  reports_follow reports_0 c lines d ->
  In (MergedDuplicate old_name b a) lines
  \/ In (MergedIntoRangoon old_name b a) lines ->
  nth_error reports_0 i = Some r ->
  report_station_id r = Some b ->
  nth_error (station_reports d) i = Some (repointed_to a r).
Proof.
  intros [Hanchor Hreports] Hin Hi Hb.
  rewrite (Hanchor _ _ _ Hin) in Hreports. rewrite Hreports.
  rewrite nth_error_map, Hi. cbn [option_map]. f_equal.
  unfold repoint_all.
  replace (existsb (fun b0 => is_report_of b0 r) (merged_ids lines))
    with true; [reflexivity|].
  symmetry. apply existsb_exists. exists b.
  split; [now apply (in_merged_ids lines old_name b a)|].
  unfold is_report_of. rewrite Hb. apply Z.eqb_refl.
Qed.

Lemma merge_variant_reports (n : string) (reports_0 : list report_row)
    (base : list line) (variant : Z * string) (st st' : session * option Z)
    (lines : list line) :
  stdout (fst st) = (base ++ lines)%list ->
  reports_follow reports_0 (snd st) lines (db (fst st)) ->
  merge_variant n variant st = inr st' ->
  exists lines',
    stdout (fst st') = (base ++ lines')%list
    /\ reports_follow reports_0 (snd st') lines' (db (fst st')).
Proof.
  destruct variant as [id old_name]. destruct st as [s [c|]];
    cbn [fst snd merge_variant]; intros Hout [Hanchor Hreports].
  - intros [= <-]. cbn [fst snd print execute stdout db].
    exists (lines ++ [MergedDuplicate old_name id c])%list.
    rewrite Hout, <- app_assoc. split; [reflexivity|]. split.
    + intros nm b a [Hin|Hin]; apply in_app_or in Hin as [Hin|[[=]|[]]];
        subst; eauto.
    + cbn [delete_station update_reports with_stations with_reports
             station_reports].
      rewrite Hreports, merged_ids_app. apply repoint_all_snoc.
  - destruct (rename_station n id (db s)) as [e|d'] eqn:E;
      [discriminate|]. intros [= <-].
    cbn [fst snd print execute stdout db].
    destruct (rename_result _ _ _ _ E) as [_ [Hr _]].
    exists (lines ++ [Promoted old_name id n])%list.
    rewrite Hout, <- app_assoc. split; [reflexivity|].
    assert (Hnone : merged_ids lines = []).
    { destruct (merged_ids lines) as [|b l] eqn:Em; [reflexivity|].
      assert (Hin : In b (merged_ids lines)) by (rewrite Em; now left).
      apply in_flat_map in Hin as [l0 [Hl0 Hb]].
      destruct l0; try now destruct Hb.
      - destruct Hb as [<-|[]].
        now specialize (Hanchor _ _ _ (or_intror Hl0)).
      - destruct Hb as [<-|[]].
        now specialize (Hanchor _ _ _ (or_introl Hl0)). }
    split.
    + intros nm b a [Hin|Hin]; apply in_app_or in Hin as [Hin|[[=]|[]]].
      * now specialize (Hanchor _ _ _ (or_introl Hin)).
      * now specialize (Hanchor _ _ _ (or_intror Hin)).
    + rewrite Hr, Hreports, merged_ids_app, Hnone. cbn [merged_ids flat_map app].
      symmetry. apply repoint_all_nil.
Qed.

Lemma merge_stations_reports (conds : list condition) (n : string)
    (reports_0 : list report_row) (base : list line)
    (st st' : session * option Z) :
  (exists lines, stdout (fst st) = (base ++ lines)%list
                 /\ reports_follow reports_0 (snd st) lines (db (fst st))) ->
  merge_stations conds n st = inr st' ->
  exists lines, stdout (fst st') = (base ++ lines)%list
                /\ reports_follow reports_0 (snd st') lines (db (fst st')).
Proof.
  intros H E. unfold merge_stations in E.
  pose (P := fun (st : session * option Z) =>
               exists lines,
                 stdout (fst st) = (base ++ lines)%list
                 /\ reports_follow reports_0 (snd st) lines (db (fst st))).
  revert E. apply (for_each_keeps (fun _ => P)); [|exact H].
  intros cond _ s1 s2 H1.
  apply (for_each_keeps (fun _ => P)); [|exact H1].
  intros variant _ s3 s4 [lines [Hout Hf]].
  now apply (merge_variant_reports n reports_0 base variant s3 s4 lines).
Qed.

Lemma update_fact_reports (table : string) (cond : condition) (n : string)
    (d d' : database) (k : nat) :
  update_fact table cond n d = inr (d', k) ->
  station_reports d' = station_reports d /\ stations d' = stations d.
Proof.
  unfold update_fact.
  destruct (lookup_table table (fact_tables d)); [|discriminate].
  destruct (update_table table _ (fact_tables d)); [|discriminate].
  intros [= <- _]. now split.
Qed.

Lemma standardize_tables_reports (conds : list condition) (n : string)
    (s s' : session) :
  standardize_tables conds n s = inr s' ->
  station_reports (db s') = station_reports (db s).
Proof.
  intros E. unfold standardize_tables in E. revert E.
  apply (for_each_keeps
           (fun _ s1 => station_reports (db s1) = station_reports (db s)));
    [|reflexivity].
  intros table _ s1 s2 H1.
  apply (for_each_keeps
           (fun _ s3 => station_reports (db s3) = station_reports (db s)));
    [|exact H1].
  intros cond _ s3 s4 H3.
  destruct (update_fact table cond n (db s3)) as [e|[d k]] eqn:E;
    [discriminate|].
  intros [= <-]. cbn [print execute db].
  destruct (update_fact_reports _ _ _ _ _ _ E) as [Hr _]. congruence.
Qed.

(** The reports of every row that [set_coords] merges are reports of the
    anchor when the call is over. *)
Lemma set_coords_repoints (conds : list condition) (n : string)
    (lat lon : Q) (s s' : session) :
  set_coords conds n lat lon s = inr s' ->
  exists lines,
    stdout s' = (stdout s ++ lines)%list
    /\ forall old_name b a i r,
         In (MergedDuplicate old_name b a) lines ->
         nth_error (station_reports (db s)) i = Some r ->
         report_station_id r = Some b ->
         nth_error (station_reports (db s')) i = Some (repointed_to a r).
Proof.
  unfold set_coords.
  destruct (merge_stations conds n (s, select_id_by_name n (db s)))
    as [e|[s1 c1]] eqn:E1; [discriminate|].
  cbn [bind].
  destruct (merge_stations_reports conds n (station_reports (db s))
              (stdout s) (s, select_id_by_name n (db s)) (s1, c1))
    as [lines1 [Hout1 Hfollow]]; [|exact E1|].
  { exists []. cbn [fst snd]. rewrite app_nil_r. split; [reflexivity|].
    split; [now intros nm b a [[]|[]]|].
    destruct (select_id_by_name n (db s)); [|reflexivity].
    symmetry. apply repoint_all_nil. }
  cbn [fst snd] in *.
  destruct (update_coordinates (fun r => name r =? n) lat lon (db s1))
    as [d rc] eqn:Ec.
  assert (Hd : station_reports d = station_reports (db s1))
    by (injection Ec as <- _; reflexivity).
  intros E2.
  destruct (standardize_tables_prints conds n (stdout s1) _ _
              (printed_no_merge_print (stdout s1) (SetCoords n rc) d s1
                 eq_refl (ex_intro _ [] (conj (eq_sym (app_nil_r _)) eq_refl)))
              E2)
    as [lines2 [Hout2 Hno]].
  apply standardize_tables_reports in E2. cbn [print execute db] in E2.
  exists (lines1 ++ lines2)%list.
  split; [now rewrite Hout2, Hout1, app_assoc|].
  intros old_name b a i r Hin Hi Hb.
  apply in_app_or in Hin as [Hin|Hin].
  - rewrite E2, Hd.
    now apply (reports_follow_merged _ c1 lines1 (db s1) old_name b a i r
                 Hfollow (or_introl Hin)).
  - rewrite forallb_forall in Hno. now specialize (Hno _ Hin).
Qed.

(** The same for the Rangoon loop. *)
Lemma rangoon_stations_repoints (s s' : session) :
  rangoon_stations s = inr s' ->
  exists lines,
    stdout s' = (stdout s ++ lines)%list
    /\ forall old_name b a i r,
         In (MergedIntoRangoon old_name b a) lines ->
         nth_error (station_reports (db s)) i = Some r ->
         report_station_id r = Some b ->
         nth_error (station_reports (db s')) i = Some (repointed_to a r).
Proof.
  unfold rangoon_stations.
  set (rangoon_id := select_id_by_name "Rangoon" (db s)).
  pose (P := fun (st : session * nat) =>
               exists lines,
                 stdout (fst st) = (stdout s ++ lines)%list
                 /\ reports_follow (station_reports (db s)) rangoon_id lines
                      (db (fst st))).
  match goal with
  | |- context [for_each ?items ?body ?init] =>
      destruct (for_each items body init) as [e|[s1 merged]] eqn:E;
      [discriminate|
       apply (for_each_keeps (fun _ => P) body) in E]
  end.
  - destruct E as [lines [Hout Hfollow]]. cbn [fst] in *.
    intros [= <-]. exists (lines ++ [RangoonOperations merged])%list.
    cbn [print stdout db]. rewrite Hout, <- app_assoc.
    split; [reflexivity|].
    intros old_name b a i r Hin Hi Hb.
    apply in_app_or in Hin as [Hin|[[=]|[]]].
    now apply (reports_follow_merged _ rangoon_id lines (db s1) old_name b a
                 i r Hfollow (or_intror Hin)).
  - intros [id old_name] _ [s2 m] st' [lines [Hout [Hanchor Hreports]]].
    cbn [fst snd] in *. destruct rangoon_id as [a|] eqn:Er.
    + intros [= <-].
      exists (lines ++ [MergedIntoRangoon old_name id a])%list.
      cbn [fst print execute db stdout].
      rewrite Hout, <- app_assoc. split; [reflexivity|]. split.
      * intros nm b a0 [Hin|Hin]; apply in_app_or in Hin as [Hin|[[=]|[]]];
          subst; eauto.
      * cbn [delete_station update_reports with_stations with_reports
               station_reports].
        rewrite Hreports, merged_ids_app. apply repoint_all_snoc.
    + destruct (rename_station "Rangoon" id (db s2)) as [e|d'] eqn:En;
        [discriminate|].
      intros [= <-].
      destruct (rename_result _ _ _ _ En) as [_ [Hr _]].
      exists (lines ++ [RenamedToRangoon old_name])%list.
      cbn [fst print execute db stdout].
      rewrite Hout, <- app_assoc. split; [reflexivity|]. split.
      * intros nm b a [Hin|Hin]; apply in_app_or in Hin as [Hin|[[=]|[]]];
          eauto.
      * congruence.
  - exists []. cbn [fst]. rewrite app_nil_r. split; [reflexivity|].
    split; [now intros nm b a [[]|[]]|].
    destruct rangoon_id; [|reflexivity].
    symmetry. apply repoint_all_nil.
Qed.

(** ** The station merge: integrity, promotion, idempotence *)

(** C1: every station row that a merge pass reports as merged into an
    anchor is gone when the pass is over: no [station_reports] row refers
    to its id, the rows that did refer to it refer to the anchor, and no
    [stations] row has its id.  This holds of the Rangoon loop whenever it
    returns, which it does when a row called Rangoon exists, and of
    [set_coords], which returns on every database that has the five fact
    tables. *)
Theorem merge_referential_integrity :
  (forall s s' : session,
      primary_key (db s) = true ->
      rangoon_stations s = inr s' ->
      exists lines,
        stdout s' = (stdout s ++ lines)%list
        /\ forall old_name b a,
             In (MergedIntoRangoon old_name b a) lines ->
             count_reports b (db s') = 0%nat
             /\ count_stations b (db s') = 0%nat
             /\ forall i r,
                  nth_error (station_reports (db s)) i = Some r ->
                  report_station_id r = Some b ->
                  nth_error (station_reports (db s')) i
                  = Some (repointed_to a r))
  /\ (forall s : session,
         select_id_by_name "Rangoon" (db s) <> None ->
         returns (rangoon_stations s))
  /\ (forall (name_like_conditions : list condition) (new_name : string)
             (lat lon : Q) (s : session),
         primary_key (db s) = true ->
         targets_exist (db s) = true ->
         exists s' lines,
           set_coords name_like_conditions new_name lat lon s = inr s'
           /\ stdout s' = (stdout s ++ lines)%list
           /\ forall old_name b a,
                In (MergedDuplicate old_name b a) lines ->
                count_reports b (db s') = 0%nat
                /\ count_stations b (db s') = 0%nat
                /\ forall i r,
                     nth_error (station_reports (db s)) i = Some r ->
                     report_station_id r = Some b ->
                     nth_error (station_reports (db s')) i
                     = Some (repointed_to a r)).
Proof.
  split; [|split; [exact rangoon_stations_returns|]].
  - intros s s' Hkey E.
    destruct (rangoon_stations_merged s s' Hkey E) as [lines [Hout H]].
    destruct (rangoon_stations_repoints s s' E) as [lines' [Hout' H']].
    assert (lines' = lines) as ->
        by (apply (app_inv_head (stdout s)); congruence).
    exists lines. split; [exact Hout|].
    intros old_name b a Hin. destruct (H _ _ _ Hin).
    split; [assumption|]. split; [assumption|].
    intros i r. now apply (H' old_name).
  - intros conds n lat lon s Hkey Hex.
    destruct (set_coords_returns conds n lat lon s Hkey Hex)
      as [s' [lines [E [Hout [H _]]]]].
    destruct (set_coords_repoints conds n lat lon s s' E)
      as [lines' [Hout' H']].
    assert (lines' = lines) as ->
        by (apply (app_inv_head (stdout s)); congruence).
    exists s', lines. split; [exact E|]. split; [exact Hout|].
    intros old_name b a Hin. destruct (H _ _ _ Hin).
    split; [assumption|]. split; [assumption|].
    intros i r. now apply (H' old_name).
Qed.

Lemma merge_referential_integrity_witness :
  primary_key sample_db = true
  /\ targets_exist sample_db = true
  /\ exists s' lines,
       set_coords sitabaldi_conditions "Sitabaldi (Nagpur)" 21.1430 79.0871
         (session_on sample_db) = inr s'
       /\ stdout s' = lines
       /\ forall old_name b a,
            In (MergedDuplicate old_name b a) lines ->
            count_reports b (db s') = 0%nat
            /\ count_stations b (db s') = 0%nat.
Proof.
  split; [reflexivity|]. split; [reflexivity|].
  destruct (proj2 (proj2 merge_referential_integrity) sitabaldi_conditions
              "Sitabaldi (Nagpur)" 21.1430 79.0871 (session_on sample_db)
              eq_refl eq_refl) as [s' [lines [E [Hout H]]]].
  exists s', lines. split; [exact E|]. split; [exact Hout|].
  intros old_name b a Hin. destruct (H old_name b a Hin) as [Hr [Hs _]].
  now split.
Defined.

Example sitabaldi_is_merged :
  exists s',
    set_coords sitabaldi_conditions "Sitabaldi (Nagpur)" 21.1430 79.0871
      (session_on sample_db) = inr s'
    /\ firstn 3 (stdout s')
       = [Promoted "Seetabuldee" 1 "Sitabaldi (Nagpur)";
          MergedDuplicate "Sitabaldi" 2 1;
          SetCoords "Sitabaldi (Nagpur)" 1]
    /\ map report_station_id (station_reports (db s'))
       = [Some 1; Some 1; Some 3; Some 4; None]%Z
    /\ map station_id (stations (db s')) = [1; 3; 4; 5]%Z.
Proof. eexists. split; [vm_compute; reflexivity|]. repeat split. Qed.

(** C2, at the input on which the Rangoon loop breaks it: no row is
    called Rangoon and two rows match.  The loop renames the first row
    and then, [rangoon_id] still being None, renames the second one to
    the same name, which the UNIQUE constraint on [name] refuses; the
    second row is not merged into the first.  On the same input
    [set_coords] promotes the first row and merges the second into it. *)
Theorem rangoon_loop_promotes_twice :
  select_id_by_name "Rangoon" burma_db = None
  /\ select_where (LowerLike "india (british burma)") burma_db
     = [(1%Z, "India (British Burma)"); (2%Z, "India (British Burma)+G143")]
  /\ rangoon_stations (session_on burma_db) = inl IntegrityError
  /\ Fs.raised (run "1873-01-01_120000" (sample_fs burma_db))
     = Some IntegrityError
  /\ exists s',
       set_coords [LowerLike "india (british burma)"] "Rangoon" 16.8 96.15
         (session_on burma_db) = inr s'
       /\ firstn 2 (stdout s')
          = [Promoted "India (British Burma)" 1 "Rangoon";
             MergedDuplicate "India (British Burma)+G143" 2 1]
       /\ map station_id (stations (db s')) = [1%Z]
       /\ map report_station_id (station_reports (db s'))
          = [Some 1%Z; Some 1%Z].
Proof.
  split; [reflexivity|]. split; [reflexivity|]. split; [reflexivity|].
  split; [reflexivity|].
  eexists. split; [vm_compute; reflexivity|]. repeat split.
Qed.

(** C8, as stated, fails: after a first call of [set_coords] on the
    sample database, a second call reports one row for the coordinate
    update and two rows and one row for fact-table updates. *)
Lemma second_run_reports_rows :
  (s1 <- set_coords sitabaldi_conditions "Sitabaldi (Nagpur)" 21.1430 79.0871
           (session_on sample_db) ;;
   s2 <- set_coords sitabaldi_conditions "Sitabaldi (Nagpur)" 21.1430 79.0871
           (session_on (db s1)) ;;
   ret (map reported_rowcount (stdout s2)))
  = inr (map Some [1; 0; 2; 0; 1; 0; 0; 0; 0; 0; 0]%nat).
Proof. vm_compute. reflexivity. Qed.

(** C8 (amended): on a database in which [station_id] is a key and the
    five fact tables exist, [set_coords] returns, and a second call with
    the same arguments returns too, leaves the database exactly as the
    first call left it, and prints no promotion and no merge. *)
Theorem set_coords_idempotent (name_like_conditions : list condition)
    (new_name : string) (lat lon : Q) (s : session) :
  primary_key (db s) = true ->
  targets_exist (db s) = true ->
  exists s1 s2 lines,
    set_coords name_like_conditions new_name lat lon s = inr s1
    /\ set_coords name_like_conditions new_name lat lon s1 = inr s2
    /\ db s2 = db s1
    /\ stdout s2 = (stdout s1 ++ lines)%list
    /\ forallb (fun l => negb (is_merge_line l)) lines = true.
Proof.
  intros Hkey Hex.
  destruct (set_coords_returns name_like_conditions new_name lat lon s
              Hkey Hex) as [s1 [lines1 [E1 [_ [_ Hstd]]]]].
  destruct (set_coords_again name_like_conditions new_name lat lon s1 Hstd)
    as [s2 [lines [E2 [Hdb [Hout Hno]]]]].
  exists s1, s2, lines. repeat split; assumption.
Qed.

Lemma set_coords_idempotent_witness :
  primary_key sample_db = true
  /\ targets_exist sample_db = true
  /\ exists s1 s2,
       set_coords sitabaldi_conditions "Sitabaldi (Nagpur)" 21.1430 79.0871
         (session_on sample_db) = inr s1
       /\ set_coords sitabaldi_conditions "Sitabaldi (Nagpur)" 21.1430 79.0871
            s1 = inr s2
       /\ db s2 = db s1.
Proof.
  split; [reflexivity|]. split; [reflexivity|].
  destruct (set_coords_idempotent sitabaldi_conditions "Sitabaldi (Nagpur)"
              21.1430 79.0871 (session_on sample_db) eq_refl eq_refl)
    as [s1 [s2 [lines [E1 [E2 [Hdb _]]]]]].
  exists s1, s2. repeat split; assumption.
Defined.

(** ** The scenarios of the specification *)

Example archive_class_2nd :
  Archive.standardize_class (VStr "2ND CLASS") = inr (VStr "Second Class").
Proof. reflexivity. Qed.

Example archive_act_xxii :
  Archive.standardize_act (VStr "Act No. XXII of 1864 (amended)")
  = inr (VStr "Act XXII of 1864").
Proof. reflexivity. Qed.

Example archive_region_oudh :
  Archive.standardize_region (VStr "N.W. Provinces and Oudh")
  = inr (VStr "North-Western Provinces & Oudh").
Proof. reflexivity. Qed.

Example clean_then_region :
  (v <- Analyze.clean_text (VStr "  Madras   Presidency ") ;;
   Archive.standardize_region v) = inr (VStr "Madras Presidency").
Proof. reflexivity. Qed.

Example archive_class_passthrough :
  Archive.standardize_class (VStr "  native   WARD 2 ")
  = inr (VStr "Native   Ward 2").
Proof. reflexivity. Qed.

(** * Further properties *)

(** ** [clean_text]: words, single spaces, fixed points *)

Lemma append_empty (s : string) : s ++ EmptyString = s.
Proof. induction s as [|c s IH]; cbn; [reflexivity|now rewrite IH]. Qed.

Lemma split_from_words (s : string) :
  no_space (fst (split_from s)) = true
  /\ forallb is_word (snd (split_from s)) = true.
Proof.
  induction s as [|c s [Hw Hws]]; [now split|].
  cbn [split_from]. destruct (split_from s) as [w ws]. cbn [fst snd] in *.
  destruct (isspace c) eqn:Ec; cbn [fst snd].
  - split; [reflexivity|]. destruct w as [|a w]; [exact Hws|].
    cbn [push_word forallb is_word]. now rewrite Hw, Hws.
  - split; [|exact Hws]. cbn [no_space]. now rewrite Ec, Hw.
Qed.

Lemma split_words (s : string) : forallb is_word (split s) = true.
Proof.
  unfold split. destruct (split_from_words s) as [Hw Hws].
  destruct (split_from s) as [w ws]. cbn [fst snd] in *.
  destruct w as [|a w]; [exact Hws|].
  cbn [push_word forallb is_word]. now rewrite Hw, Hws.
Qed.

Lemma split_from_word_app (x s : string) :
  no_space x = true ->
  split_from (x ++ s)
  = (x ++ fst (split_from s), snd (split_from s)).
Proof.
  induction x as [|c x IH]; cbn [append no_space].
  - intros _. now destruct (split_from s).
  - intros H. apply andb_prop in H as [Hc Hx].
    apply negb_true_iff in Hc. cbn [split_from].
    rewrite (IH Hx), Hc. reflexivity.
Qed.

Lemma split_from_word (x : string) :
  no_space x = true -> split_from x = (x, []).
Proof.
  intros H. rewrite <- (append_empty x) at 1.
  rewrite (split_from_word_app x EmptyString H). cbn [split_from fst snd].
  now rewrite append_empty.
Qed.

Lemma is_word_no_space (w : string) : is_word w = true -> no_space w = true.
Proof. now destruct w. Qed.

(** Splitting what [join] made of words gives the words back. *)
Lemma split_join (ws : list string) :
  forallb is_word ws = true -> split (join " " ws) = ws.
Proof.
  unfold join. induction ws as [|x ws IH]; [reflexivity|].
  cbn [forallb]. intros H. apply andb_prop in H as [Hx Hws].
  specialize (IH Hws). unfold split in *.
  destruct ws as [|y ws].
  - cbn [String.concat]. rewrite (split_from_word x (is_word_no_space x Hx)).
    now destruct x.
  - change (String.concat " " (x :: y :: ws))
      with (x ++ String " " (String.concat " " (y :: ws))).
    rewrite (split_from_word_app x _ (is_word_no_space x Hx)).
    cbn [split_from].
    destruct (split_from (String.concat " " (y :: ws))) as [w' ws'].
    change (isspace " ") with true. cbn [fst snd]. rewrite append_empty, IH.
    now destruct x.
Qed.

Lemma rstrip_fixed (s : string) :
  s = EmptyString \/ ends_in_text s = true -> rstrip s = s.
Proof.
  induction s as [|c s IH]; [reflexivity|]. intros [H|H]; [discriminate|].
  cbn [rstrip]. destruct s as [|a s].
  - cbn [ends_in_text rstrip] in *. apply negb_true_iff in H. now rewrite H.
  - rewrite IH by (right; exact H). reflexivity.
Qed.

Lemma ends_in_text_app (a b : string) :
  b <> EmptyString -> ends_in_text (a ++ b) = ends_in_text b.
Proof.
  intros Hb. induction a as [|c a IH]; [reflexivity|].
  cbn [append ends_in_text]. rewrite IH.
  destruct (a ++ b) eqn:E; [|reflexivity].
  destruct a; [cbn in E; contradiction|discriminate].
Qed.

Lemma word_ends_in_text (w : string) :
  is_word w = true -> ends_in_text w = true.
Proof.
  destruct w as [|c w]; [discriminate|]. cbn [is_word].
  revert c. induction w as [|a w IH]; intros c; cbn [no_space ends_in_text].
  - now rewrite andb_true_r.
  - intros H. apply andb_prop in H as [_ H]. now apply IH.
Qed.

Lemma join_ends_in_text (ws : list string) :
  ws <> [] -> forallb is_word ws = true ->
  ends_in_text (join " " ws) = true.
Proof.
  unfold join. induction ws as [|x ws IH]; [now intros H|].
  intros _ H. cbn [forallb] in H. apply andb_prop in H as [Hx Hws].
  destruct ws as [|y ws]; [now apply word_ends_in_text|].
  change (String.concat " " (x :: y :: ws))
    with (x ++ String " " (String.concat " " (y :: ws))).
  rewrite ends_in_text_app by discriminate.
  specialize (IH ltac:(discriminate) Hws).
  cbn [ends_in_text]. now destruct (String.concat " " (y :: ws)).
Qed.

Lemma join_lstripped (ws : list string) :
  forallb is_word ws = true -> lstripped (join " " ws) = true.
Proof.
  unfold join. destruct ws as [|x ws]; [reflexivity|].
  cbn [forallb]. intros H. apply andb_prop in H as [Hx _].
  destruct x as [|c x]; [discriminate|].
  cbn [is_word no_space] in Hx. apply andb_prop in Hx as [Hc _].
  destruct ws; exact Hc.
Qed.

(** Words joined by single spaces have nothing for [strip] to remove. *)
Lemma strip_join (ws : list string) :
  forallb is_word ws = true -> strip (join " " ws) = join " " ws.
Proof.
  intros H. unfold strip.
  rewrite lstrip_lstripped by now apply join_lstripped.
  apply rstrip_fixed. destruct ws as [|x ws]; [now left|].
  right. apply join_ends_in_text; [discriminate|exact H].
Qed.

(** X1: on an ASCII string [clean_text] returns the words of the text
    joined by single spaces: the result has the same words as the input,
    and splitting it gives them back. *)
Theorem clean_text_single_spaced (s : string) :
  isascii s = true ->
  Analyze.clean_text (VStr s) = inr (VStr (join " " (split s)))
  /\ forallb is_word (split s) = true
  /\ split (join " " (split s)) = split s.
Proof.
  intros _. unfold Analyze.clean_text. cbn [isna as_str bind ret].
  rewrite (strip_join (split s) (split_words s)).
  split; [reflexivity|]. split; [apply split_words|].
  apply split_join, split_words.
Qed.

Lemma clean_text_single_spaced_witness :
  isascii "  lock   hospital,  Rangoon " = true
  /\ Analyze.clean_text (VStr "  lock   hospital,  Rangoon ")
     = inr (VStr "lock hospital, Rangoon").
Proof.
  split; [reflexivity|].
  destruct (clean_text_single_spaced "  lock   hospital,  Rangoon " eq_refl)
    as [H _].
  rewrite H. reflexivity.
Defined.

(** X2: [clean_text] applied to its own result on an ASCII string returns
    that result. *)
Theorem clean_text_idempotent (s : string) :
  isascii s = true ->
  twice Analyze.clean_text (VStr s) = Analyze.clean_text (VStr s).
Proof.
  intros _. unfold twice, Analyze.clean_text. cbn [isna as_str bind ret].
  rewrite !(strip_join (split s) (split_words s)).
  now rewrite (split_join (split s) (split_words s)),
    (strip_join (split s) (split_words s)).
Qed.

Lemma clean_text_idempotent_witness :
  isascii "  lock   hospital,  Rangoon " = true
  /\ twice Analyze.clean_text (VStr "  lock   hospital,  Rangoon ")
     = inr (VStr "lock hospital, Rangoon").
Proof.
  split; [reflexivity|].
  rewrite (clean_text_idempotent "  lock   hospital,  Rangoon " eq_refl).
  reflexivity.
Defined.

(** ** Degenerate results of the normalizers *)

Lemma prepared_empty_blank (c : ascii) (x : string) :
  strip (lower (String c x)) = EmptyString <-> blank (String c x) = true.
Proof.
  unfold blank. rewrite <- lower_strip. split.
  - intros H. apply lower_empty in H. now rewrite H.
  - destruct (strip (String c x)); [reflexivity|discriminate].
Qed.

Lemma title_empty_iff (v : string) :
  title v = EmptyString <-> v = EmptyString.
Proof. split; [apply title_empty|now intros ->]. Qed.

Ltac degenerate_results c x :=
  cbn [truthy negb as_str bind ret];
  let Hb := fresh "Hb" in
  let Eb := fresh "Eb" in
  assert (Hb := prepared_empty_blank c x);
  destruct (blank (String c x)) eqn:Eb;
  [rewrite (proj2 Hb eq_refl); cbn;
   split; split; try discriminate; reflexivity
  |assert (strip (lower (String c x)) <> EmptyString)
     by (let Ev := fresh "Ev" in intros Ev; apply Hb in Ev; discriminate);
   split_rules; unfold ret; (split; split; try discriminate);
   let Et := fresh "Et" in
   intros [= Et]; apply title_empty in Et; contradiction].

Lemma archive_class_degenerate (x : string) :
  (Archive.standardize_class (VStr x) = inr VNone <-> x = EmptyString)
  /\ (Archive.standardize_class (VStr x) = inr (VStr EmptyString)
      <-> blank x = true).
Proof.
  destruct x as [|c x]; [split; split; try reflexivity; discriminate|].
  unfold Archive.standardize_class. degenerate_results c x.
Qed.

Lemma archive_act_degenerate (x : string) :
  (Archive.standardize_act (VStr x) = inr VNone <-> x = EmptyString)
  /\ (Archive.standardize_act (VStr x) = inr (VStr EmptyString)
      <-> blank x = true).
Proof.
  destruct x as [|c x]; [split; split; try reflexivity; discriminate|].
  unfold Archive.standardize_act. degenerate_results c x.
Qed.

Lemma archive_country_degenerate (x : string) :
  (Archive.standardize_country (VStr x) = inr VNone <-> x = EmptyString)
  /\ (Archive.standardize_country (VStr x) = inr (VStr EmptyString)
      <-> blank x = true).
Proof.
  destruct x as [|c x]; [split; split; try reflexivity; discriminate|].
  unfold Archive.standardize_country. degenerate_results c x.
Qed.

Lemma archive_region_degenerate (x : string) :
  (Archive.standardize_region (VStr x) = inr VNone <-> x = EmptyString)
  /\ (Archive.standardize_region (VStr x) = inr (VStr EmptyString)
      <-> blank x = true).
Proof.
  destruct x as [|c x]; [split; split; try reflexivity; discriminate|].
  unfold Archive.standardize_region. degenerate_results c x.
Qed.

(** X3: on an ASCII string each of the four archive normalizers returns
    None exactly on the empty string, and returns the empty string
    exactly on a non-empty run of whitespace. *)
Theorem normalizers_degenerate (x : string) :
  isascii x = true ->
  Forall (fun f : value -> result value =>
            (f (VStr x) = inr VNone <-> x = EmptyString)
            /\ (f (VStr x) = inr (VStr EmptyString) <-> blank x = true))
         [Archive.standardize_class; Archive.standardize_act;
          Archive.standardize_country; Archive.standardize_region].
Proof.
  intros _. repeat constructor.
  all: first [apply archive_class_degenerate | apply archive_act_degenerate
             | apply archive_country_degenerate
             | apply archive_region_degenerate].
Qed.

Lemma normalizers_degenerate_witness :
  isascii "   " = true
  /\ blank "   " = true
  /\ Archive.standardize_region (VStr "   ") = inr (VStr EmptyString).
Proof.
  split; [reflexivity|]. split; [reflexivity|].
  assert (H := normalizers_degenerate "   " eq_refl).
  inversion H as [|? ? _ H1]; subst. inversion H1 as [|? ? _ H2]; subst.
  inversion H2 as [|? ? _ H3]; subst. inversion H3 as [|? ? [_ Hr] _]; subst.
  now apply Hr.
Defined.

(** ** The two copies of the act normalizer *)

(** X4: the act normalizer of [analyze_hospital_ops.py] has the first
    three rules of the archive copy.  The two agree on a missing value,
    and on a non-empty ASCII string whenever one of the three shared rules
    applies or neither of the archive's two further rules does; otherwise
    the archive copy answers Act XII of 1864 or Voluntary System where the
    other copy title-cases the text. *)
Theorem act_copies_agree :
  Archive.standardize_act VNone = Analyze.standardize_act VNone
  /\ (forall s : string,
         isascii s = true -> s <> EmptyString ->
         no_rule_applies analyze_act_rules (lower s) = false
         \/ no_rule_applies (skipn 3 archive_act_rules) (lower s) = true ->
         Archive.standardize_act (VStr s) = Analyze.standardize_act (VStr s))
  /\ (forall s : string,
         isascii s = true -> s <> EmptyString ->
         no_rule_applies analyze_act_rules (lower s) = true ->
         no_rule_applies (skipn 3 archive_act_rules) (lower s) = false ->
         Analyze.standardize_act (VStr s)
         = inr (VStr (title (strip (lower s))))
         /\ (Archive.standardize_act (VStr s) = inr (VStr "Act XII of 1864")
             \/ Archive.standardize_act (VStr s)
                = inr (VStr "Voluntary System")))
  /\ Archive.standardize_act (VStr "voluntary") = inr (VStr "Voluntary System")
  /\ Analyze.standardize_act (VStr "voluntary") = inr (VStr "Voluntary").
Proof.
  split; [reflexivity|]. split; [|split; [|split; reflexivity]].
  - intros [|c s] _ Hs H; [now elim Hs|]. revert H.
    unfold Archive.standardize_act, Analyze.standardize_act.
    cbn [truthy isna negb as_str bind ret]. see_through_strip.
    unfold no_rule_applies, act_rule_applies.
    cbn [analyze_act_rules archive_act_rules firstn skipn forallb fst].
    generalize (lower (String c s)). intros low.
    generalize (title (strip low)). intros passthrough.
    repeat match goal with
           | |- context [contains ?t low] => destruct (contains t low)
           end; cbn [andb negb orb]; intros [H|H];
      try discriminate H; reflexivity.
  - intros [|c s] _ Hs; [now elim Hs|].
    unfold Archive.standardize_act, Analyze.standardize_act.
    cbn [truthy isna negb as_str bind ret]. see_through_strip.
    unfold no_rule_applies, act_rule_applies.
    cbn [analyze_act_rules archive_act_rules firstn skipn forallb fst].
    generalize (title (strip (lower (String c s)))). intros passthrough.
    generalize (lower (String c s)). intros low.
    repeat match goal with
           | |- context [contains ?t low] => destruct (contains t low)
           end; cbn [andb negb orb]; intros H1 H2;
      try discriminate H1; try discriminate H2;
      (split; [reflexivity|]); auto.
Qed.

Lemma act_copies_agree_witness :
  isascii "Act XII of 1864" = true
  /\ Analyze.standardize_act (VStr "Act XII of 1864")
     = inr (VStr "Act Xii Of 1864")
  /\ Archive.standardize_act (VStr " act xiv, 1868")
     = Analyze.standardize_act (VStr " act xiv, 1868").
Proof.
  split; [reflexivity|].
  destruct act_copies_agree as [_ [Hsame [Hdiff _]]]. split.
  - destruct (Hdiff "Act XII of 1864" eq_refl) as [H _];
      [discriminate|reflexivity|reflexivity|].
    rewrite H. reflexivity.
  - apply Hsame; [reflexivity|discriminate|now left].
Defined.

(** ** [main] of [standardize_data.py] when the reinsertion fails *)

Lemma index_missing (c : string) (names : list string) :
  ~ In c names -> Archive.index c names = inl ValueError.
Proof.
  induction names as [|y names IH]; [reflexivity|].
  intros H. cbn [Archive.index].
  destruct (String.eqb_spec y c) as [->|_]; [elim H; now left|].
  rewrite IH; [reflexivity|]. intros Hin. apply H. now right.
Qed.

Lemma index_raises_value_error (c : string) (names : list string)
    (e : exn) :
  Archive.index c names = inl e -> e = ValueError.
Proof.
  induction names as [|y names IH]; cbn [Archive.index].
  - now intros [= <-].
  - destruct (y =? c); [discriminate|].
    destruct (Archive.index c names); [|discriminate].
    intros [= <-]. now apply IH.
Qed.

(** A comprehension raises as soon as one element does. *)
Lemma comprehension_raises {A B : Type} (f : A -> result B) (l : list A)
    (x : A) (e : exn) :
  In x l -> f x = inl e ->
  exists e', Archive.comprehension f l = inl e'.
Proof.
  induction l as [|y l IH]; [now intros []|].
  intros [<-|Hin] Hx; cbn [Archive.comprehension].
  - rewrite Hx. now exists e.
  - destruct (f y) as [e0|b]; [now exists e0|]. cbn [bind].
    destruct (IH Hin Hx) as [e' ->]. now exists e'.
Qed.

Lemma keep_indices_missing (names : list string) (c : string) :
  In c Archive.kept_columns -> ~ In c names ->
  Archive.comprehension (fun c => Archive.index c names)
    Archive.kept_columns = inl ValueError.
Proof.
  intros Hc Hn.
  destruct (comprehension_raises (fun c => Archive.index c names)
              Archive.kept_columns c ValueError Hc (index_missing c names Hn))
    as [e E].
  rewrite E. f_equal.
  clear Hc Hn. revert E. generalize Archive.kept_columns.
  induction l as [|y l IH]; [discriminate|].
  cbn [Archive.comprehension].
  destruct (Archive.index y names) as [e0|i] eqn:Ey.
  - intros [= <-]. now apply (index_raises_value_error y names).
  - cbn [bind].
    destruct (Archive.comprehension _ l) as [e1|idxs]; [|discriminate].
    intros [= <-]. now apply IH.
Qed.

Section MainFails.

Import Fs.

(** What [main] leaves when [recreate] raises: the exception, an empty
    [hospital_operations], and a journal that ends with the DROP. *)
Lemma main_after_failure (fs : filesystem Archive.database)
    (old : Archive.table) (e : exn) :
  db_file fs = Some {| Archive.hospital_operations := Some old |} ->
  Archive.recreate old = inl e ->
  raised (Archive.main fs) = Some e
  /\ db_file (files (Archive.main fs))
     = Some {| Archive.hospital_operations := Some Archive.empty_table |}
  /\ journal (files (Archive.main fs))
     = (journal fs ++ [Connect; DropTable])%list.
Proof.
  intros Hfile E. unfold Archive.main. cbn [log db_file journal].
  rewrite Hfile, E. cbn [raised files db_file journal].
  now rewrite <- app_assoc.
Qed.

(** X5: when [hospital_operations] lacks one of the ten columns the
    script names, [main] of [standardize_data.py] ends with ValueError
    after the DROP TABLE and the CREATE TABLE: nothing is committed and
    the file is left with an empty [hospital_operations]. *)
Theorem main_missing_column (fs : filesystem Archive.database)
    (old : Archive.table) (c : string) :
  db_file fs = Some {| Archive.hospital_operations := Some old |} ->
  In c Archive.kept_columns ->
  ~ In c (Archive.column_names old) ->
  raised (Archive.main fs) = Some ValueError
  /\ db_file (files (Archive.main fs))
     = Some {| Archive.hospital_operations := Some Archive.empty_table |}
  /\ journal (files (Archive.main fs))
     = (journal fs ++ [Connect; DropTable])%list.
Proof.
  intros Hfile Hc Hn. apply (main_after_failure fs old); [exact Hfile|].
  unfold Archive.recreate. now rewrite (keep_indices_missing _ c Hc Hn).
Qed.

Lemma main_missing_column_witness :
  raised (Archive.main (archive_fs_of classless_operations))
  = Some ValueError
  /\ db_file (files (Archive.main (archive_fs_of classless_operations)))
     = Some {| Archive.hospital_operations := Some Archive.empty_table |}.
Proof.
  destruct (main_missing_column (archive_fs_of classless_operations)
              classless_operations "class" eq_refl) as [H1 [H2 _]].
  - cbn. tauto.
  - cbn. intuition discriminate.
  - now split.
Defined.

End MainFails.

(** ** Running [main] of [standardize_data.py] again *)













(** ** The Rangoon pass over the fact tables *)

Lemma update_fact_result (table : string) (cond : condition) (n : string)
    (d : database) (rows : list fact_row) :
  lookup_table table (fact_tables d) = Some rows ->
  exists d',
    update_fact table cond n d = inr (d', count_matching cond rows)
    /\ stations d' = stations d
    /\ station_reports d' = station_reports d
    /\ lookup_table table (fact_tables d')
       = Some (map (rewrite_row cond n) rows)
    /\ (forall t, t <> table ->
                  lookup_table t (fact_tables d')
                  = lookup_table t (fact_tables d))
    /\ (count_matching cond rows = 0%nat -> d' = d).
Proof.
  intros E. unfold update_fact. rewrite E.
  destruct (update_table_found table (map (rewrite_row cond n)) _ _ E)
    as [tables' [E1 [E2 [E3 E4]]]].
  rewrite E1. eexists. split; [reflexivity|].
  cbn [with_fact_tables stations station_reports fact_tables].
  repeat split; auto.
  intros H0. rewrite E4; [apply with_fact_tables_same|].
  rewrite <- (map_id rows) at 2. apply map_ext_in. intros r Hr.
  unfold rewrite_row. unfold count_matching in H0.
  now rewrite (proj1 (count_zero _ rows) H0 r Hr).
Qed.

(** The three UPDATEs of one table amount to the third one alone, and
    each row is counted by exactly one of them. *)
Lemma rangoon_row (r : fact_row) :
  let r1 := rewrite_row (LowerEquals "india (british burma)") "Rangoon" r in
  let r2 := rewrite_row (Equals "India (British Burma)+G143") "Rangoon" r1 in
  rewrite_row burma_pattern "Rangoon" r2 = rewrite_row burma_pattern "Rangoon" r
  /\ ((if holds_cell (LowerEquals "india (british burma)") (station r)
       then 1 else 0)
      + (if holds_cell (Equals "India (British Burma)+G143") (station r1)
         then 1 else 0)
      + (if holds_cell burma_pattern (station r2) then 1 else 0)
      = if holds_cell burma_pattern (station r) then 1 else 0)%nat.
Proof.
  cbv zeta. destruct r as [[t|] others]; [|now split].
  unfold rewrite_row, burma_pattern. cbn [station holds_cell holds].
  destruct (lower t =? "india (british burma)") eqn:E1.
  - apply String.eqb_eq in E1. rewrite lower_idem, E1. now split.
  - cbn [station holds_cell holds].
    destruct (t =? "India (British Burma)+G143") eqn:E2.
    + apply String.eqb_eq in E2. subst t. now split.
    + cbn [station holds_cell holds].
      destruct (prefix _ (lower (lower t))); now split.
Qed.

Lemma rangoon_rows (rows : list fact_row) :
  let rows1 :=
    map (rewrite_row (LowerEquals "india (british burma)") "Rangoon") rows in
  let rows2 :=
    map (rewrite_row (Equals "India (British Burma)+G143") "Rangoon") rows1 in
  map (rewrite_row burma_pattern "Rangoon") rows2
  = map (rewrite_row burma_pattern "Rangoon") rows
  /\ (count_matching (LowerEquals "india (british burma)") rows
      + count_matching (Equals "India (British Burma)+G143") rows1
      + count_matching burma_pattern rows2
      = count_matching burma_pattern rows)%nat.
Proof.
  cbv zeta. unfold count_matching.
  induction rows as [|r rows [IH1 IH2]]; [now split|].
  destruct (rangoon_row r) as [H1 H2]. cbv zeta in H1, H2.
  cbn [map filter]. rewrite H1, IH1. split; [reflexivity|].
  revert H2 IH2.
  repeat match goal with
         | |- context [holds_cell ?c (station ?x)] =>
             destruct (holds_cell c (station x))
         end; cbn [length]; lia.
Qed.

(** One iteration of the first loop of step 2. *)
Lemma rangoon_table (table : string) (s : session) (rows : list fact_row) :
  lookup_table table (fact_tables (db s)) = Some rows ->
  exists s',
    ('(s, rc1) <- update_station_name table
                    (LowerEquals "india (british burma)") "Rangoon" s ;;
     '(s, rc2) <- update_station_name table
                    (Equals "India (British Burma)+G143") "Rangoon" s ;;
     '(s, rc3) <- update_station_name table
                    (LowerLike "india (british burma)") "Rangoon" s ;;
     ret (print (UpdatedToRangoon table (rc1 + rc2 + rc3)) s)) = inr s'
    /\ stations (db s') = stations (db s)
    /\ station_reports (db s') = station_reports (db s)
    /\ stdout s'
       = (stdout s
            ++ [UpdatedToRangoon table (count_matching burma_pattern rows)])%list
    /\ lookup_table table (fact_tables (db s'))
       = Some (map (rewrite_row burma_pattern "Rangoon") rows)
    /\ (forall t, t <> table ->
                  lookup_table t (fact_tables (db s'))
                  = lookup_table t (fact_tables (db s)))
    /\ (count_matching burma_pattern rows = 0%nat -> db s' = db s).
Proof.
  intros E. unfold update_station_name.
  destruct (update_fact_result table (LowerEquals "india (british burma)")
              "Rangoon" (db s) rows E)
    as [d1 [U1 [S1 [R1 [L1 [O1 Z1]]]]]].
  rewrite U1. cbn [bind ret execute db].
  destruct (update_fact_result table (Equals "India (British Burma)+G143")
              "Rangoon" d1 _ L1)
    as [d2 [U2 [S2 [R2 [L2 [O2 Z2]]]]]].
  rewrite U2. cbn [bind ret execute db].
  destruct (update_fact_result table (LowerLike "india (british burma)")
              "Rangoon" d2 _ L2)
    as [d3 [U3 [S3 [R3 [L3 [O3 Z3]]]]]].
  rewrite U3. cbn [bind ret execute db stdout print].
  destruct (rangoon_rows rows) as [Hmap Hcount]. cbv zeta in Hmap, Hcount.
  fold burma_pattern in L3, Z3. fold burma_pattern.
  eexists. split; [reflexivity|]. cbn [db stdout print execute].
  split; [congruence|]. split; [congruence|].
  split; [now rewrite Hcount|]. split; [now rewrite L3, Hmap|].
  split.
  - intros t Ht. now rewrite O3, O2, O1.
  - intros H0. rewrite <- Hcount in H0.
    rewrite Z3, Z2, Z1 by lia. reflexivity.
Qed.

Lemma rangoon_targets_distinct : NoDup rangoon_targets.
Proof.
  unfold rangoon_targets.
  repeat (constructor; [cbn [In]; intuition discriminate|]). constructor.
Qed.

Lemma table_rows_lookup (t : string) (d : database) :
  table_exists t d ->
  lookup_table t (fact_tables d) = Some (table_rows t d).
Proof.
  unfold table_exists, table_rows.
  destruct (lookup_table t (fact_tables d)); [reflexivity|now intros []].
Qed.

(** The first loop of step 2 rewrites, in each of the five tables, the
    stations that begin with the Burma label, and prints how many. *)
Lemma rangoon_tables_result (s : session) :
  targets_exist (db s) = true ->
  exists s',
    rangoon_tables s = inr s'
    /\ stations (db s') = stations (db s)
    /\ station_reports (db s') = station_reports (db s)
    /\ stdout s'
       = (stdout s
            ++ map (fun t => UpdatedToRangoon t
                               (count_matching burma_pattern
                                  (table_rows t (db s))))
                   rangoon_targets)%list
    /\ (forall t, In t rangoon_targets ->
                  lookup_table t (fact_tables (db s'))
                  = Some (map (rewrite_row burma_pattern "Rangoon")
                            (table_rows t (db s))))
    /\ (forall t, ~ In t rangoon_targets ->
                  lookup_table t (fact_tables (db s'))
                  = lookup_table t (fact_tables (db s)))
    /\ ((forall t, In t rangoon_targets ->
                   count_matching burma_pattern (table_rows t (db s)) = 0%nat) ->
        db s' = db s).
Proof.
  intros Hex. assert (Hex' := proj1 (targets_exist_tables _) Hex).
  pose (line_of := fun t => UpdatedToRangoon t
                              (count_matching burma_pattern
                                 (table_rows t (db s)))).
  pose (P := fun (rest : list string) (s1 : session) =>
               exists done,
                 rangoon_targets = (done ++ rest)%list
                 /\ stations (db s1) = stations (db s)
                 /\ station_reports (db s1) = station_reports (db s)
                 /\ stdout s1 = (stdout s ++ map line_of done)%list
                 /\ (forall t, In t done ->
                               lookup_table t (fact_tables (db s1))
                               = Some (map (rewrite_row burma_pattern "Rangoon")
                                         (table_rows t (db s))))
                 /\ (forall t, ~ In t done ->
                               lookup_table t (fact_tables (db s1))
                               = lookup_table t (fact_tables (db s)))
                 /\ ((forall t, In t rangoon_targets ->
                                count_matching burma_pattern
                                  (table_rows t (db s)) = 0%nat) ->
                     db s1 = db s)).
  unfold rangoon_tables.
  match goal with
  | |- context [for_each ?items ?body s] =>
      destruct (for_each_returns P body) with (xs := items) (s := s)
        as [s' [E [done [Ed [Hs [Hr [Hout [Hdone [Hrest Hzero]]]]]]]]]
  end.
  - intros table rest s1 [done [Ed [Hs [Hr [Hout [Hdone [Hrest Hzero]]]]]]].
    assert (Hin : In table rangoon_targets)
      by (rewrite Ed; apply in_or_app; right; now left).
    assert (Hfresh : ~ In table done).
    { assert (Hnd := rangoon_targets_distinct). rewrite Ed in Hnd.
      apply NoDup_remove_2 in Hnd. intros H. apply Hnd.
      apply in_or_app. now left. }
    assert (El : lookup_table table (fact_tables (db s1))
                 = Some (table_rows table (db s)))
      by (rewrite (Hrest table Hfresh); apply table_rows_lookup; auto).
    destruct (rangoon_table table s1 _ El)
      as [s2 [E [S2 [R2 [O2 [L2 [F2 Z2]]]]]]].
    exists s2. split; [exact E|].
    exists (done ++ [table])%list.
    split; [now rewrite <- app_assoc|]. split; [congruence|].
    split; [congruence|].
    split; [now rewrite O2, Hout, map_app, <- app_assoc|].
    split; [|split].
    + intros t Ht. apply in_app_or in Ht as [Ht|[<-|[]]]; [|exact L2].
      rewrite F2; [now apply Hdone|]. now intros ->.
    + intros t Ht. rewrite F2; [apply Hrest|].
      * intros H. apply Ht. apply in_or_app. now left.
      * intros ->. apply Ht. apply in_or_app. right. now left.
    + intros H0. rewrite Z2; [now apply Hzero|]. now apply H0.
  - exists []. repeat split; auto.
    + cbn [map]. now rewrite app_nil_r.
    + now intros t [].
  - rewrite app_nil_r in Ed. subst done.
    exists s'. repeat split; auto.
Qed.

(** X7: when the five fact tables exist, the first loop of step 2
    returns; it leaves [stations] and [station_reports] alone, rewrites in
    each of the five tables exactly the rows whose [station] starts with
    india (british burma), case-insensitively, to Rangoon, leaves every
    other table alone, and prints for each table the number of those
    rows: the three UPDATEs of a table count no row twice. *)
Theorem rangoon_tables_rewrites (s : session) :
  targets_exist (db s) = true ->
  exists s',
    rangoon_tables s = inr s'
    /\ stations (db s') = stations (db s)
    /\ station_reports (db s') = station_reports (db s)
    /\ stdout s'
       = (stdout s
            ++ map (fun t => UpdatedToRangoon t
                               (count_matching burma_pattern
                                  (table_rows t (db s))))
                   rangoon_targets)%list
    /\ (forall t, In t rangoon_targets ->
                  lookup_table t (fact_tables (db s'))
                  = Some (map (rewrite_row burma_pattern "Rangoon")
                            (table_rows t (db s))))
    /\ (forall t, ~ In t rangoon_targets ->
                  lookup_table t (fact_tables (db s'))
                  = lookup_table t (fact_tables (db s))).
Proof.
  intros Hex.
  destruct (rangoon_tables_result s Hex)
    as [s' [E [Hs [Hr [Hout [Hin [Hother _]]]]]]].
  exists s'. repeat split; assumption.
Qed.

Lemma rangoon_tables_rewrites_witness :
  targets_exist sample_db = true
  /\ exists s',
       rangoon_tables (session_on sample_db) = inr s'
       /\ stdout s'
          = [UpdatedToRangoon "hospital_operations" 1;
             UpdatedToRangoon "women_admission" 0;
             UpdatedToRangoon "women_data" 0;
             UpdatedToRangoon "troops" 0;
             UpdatedToRangoon "troop_data" 0].
Proof.
  split; [reflexivity|].
  destruct (rangoon_tables_rewrites (session_on sample_db) eq_refl)
    as [s' [E [_ [_ [Hout _]]]]].
  exists s'. split; [exact E|]. rewrite Hout. reflexivity.
Defined.

Lemma rewritten_none_left (rows : list fact_row) :
  count_matching burma_pattern
    (map (rewrite_row burma_pattern "Rangoon") rows) = 0%nat.
Proof.
  unfold count_matching. apply count_zero. intros r Hr.
  apply in_map_iff in Hr as [r0 [<- _]]. unfold rewrite_row.
  destruct (holds_cell burma_pattern (station r0)) eqn:Eh; [reflexivity|exact Eh].
Qed.

Lemma rangoon_tables_twice (s : session) :
  targets_exist (db s) = true ->
  exists s1 s2,
    rangoon_tables s = inr s1
    /\ rangoon_tables s1 = inr s2
    /\ db s2 = db s1
    /\ stdout s2
       = (stdout s1 ++ map (fun t => UpdatedToRangoon t 0) rangoon_targets)%list.
Proof.
  intros Hex.
  destruct (rangoon_tables_result s Hex)
    as [s1 [E1 [_ [_ [_ [Hin [_ _]]]]]]].
  assert (Hex1 : targets_exist (db s1) = true).
  { apply targets_exist_tables. intros t Ht. unfold table_exists.
    now rewrite (Hin t Ht). }
  assert (H0 : forall t, In t rangoon_targets ->
                         count_matching burma_pattern (table_rows t (db s1))
                         = 0%nat).
  { intros t Ht. unfold table_rows. rewrite (Hin t Ht).
    apply rewritten_none_left. }
  destruct (rangoon_tables_result s1 Hex1)
    as [s2 [E2 [_ [_ [Hout [_ [_ Hz]]]]]]].
  exists s1, s2. repeat split; auto.
  rewrite Hout. f_equal. apply map_ext_in. intros t Ht. now rewrite H0.
Qed.

(** X8: a second run of the first loop of step 2 finds nothing to
    rewrite: it leaves the database as the first run left it and prints
    zero for each of the five tables. *)
Theorem rangoon_tables_again (s : session) :
  targets_exist (db s) = true ->
  exists s1 s2,
    rangoon_tables s = inr s1
    /\ rangoon_tables s1 = inr s2
    /\ db s2 = db s1
    /\ stdout s2
       = (stdout s1 ++ map (fun t => UpdatedToRangoon t 0) rangoon_targets)%list.
Proof. apply rangoon_tables_twice. Qed.

Lemma rangoon_tables_again_witness :
  targets_exist sample_db = true
  /\ exists s1 s2,
       rangoon_tables (session_on sample_db) = inr s1
       /\ rangoon_tables s1 = inr s2
       /\ db s2 = db s1.
Proof.
  split; [reflexivity|].
  destruct (rangoon_tables_again (session_on sample_db) eq_refl)
    as [s1 [s2 [E1 [E2 [Hdb _]]]]].
  exists s1, s2. repeat split; assumption.
Defined.

(** ** The coordinates of step 4 *)

Lemma prefix_both (p q x : string) :
  prefix p x = true -> prefix q x = true ->
  prefix p q = true \/ prefix q p = true.
Proof.
  revert q x. induction p as [|a p IH]; intros q x Hp Hq.
  - left. now destruct q.
  - destruct q as [|b q]; [right; reflexivity|].
    destruct x as [|c x]; [discriminate|].
    cbn [prefix] in *.
    destruct (ascii_dec a c) as [->|]; [|discriminate].
    destruct (ascii_dec b c) as [->|]; [|discriminate].
    destruct (ascii_dec c c) as [_|N]; [|now elim N].
    now apply (IH q x).
Qed.

Lemma like_both (p q n : string) :
  holds (LowerLike p) n = true -> holds (LowerLike q) n = true ->
  prefix (lower p) (lower q) = true \/ prefix (lower q) (lower p) = true.
Proof. cbn [holds]. apply prefix_both. Qed.

Lemma coords_exclusive : exclusive coords.
Proof.
  unfold exclusive, coords.
  repeat (constructor;
          [repeat (constructor;
                   [intros n H1 H2; cbn [fst] in H1, H2;
                    destruct (like_both _ _ _ H1 H2) as [H|H];
                    vm_compute in H; discriminate|]);
           constructor|]).
  constructor.
Qed.

Lemma place_name (entry : condition * (Q * Q)) (r : station_row) :
  name (place entry r) = name r /\ station_id (place entry r) = station_id r.
Proof.
  destruct entry as [c [lat lon]]. cbn [place].
  now destruct (holds c (name r)).
Qed.

Lemma place_all_name (entries : list (condition * (Q * Q))) (r : station_row) :
  name (fold_left (fun r e => place e r) entries r) = name r.
Proof.
  revert r. induction entries as [|e es IH]; intros r; [reflexivity|].
  cbn [fold_left]. rewrite IH. apply place_name.
Qed.

Lemma place_none (entries : list (condition * (Q * Q))) (r : station_row) :
  Forall (fun e => holds (fst e) (name r) = false) entries ->
  fold_left (fun r e => place e r) entries r = r.
Proof.
  induction 1 as [|[c [lat lon]] es Hc _ IH]; [reflexivity|].
  cbn [fold_left place]. cbn [fst] in Hc. now rewrite Hc.
Qed.

(** With exclusive conditions the UPDATEs do not overwrite each other. *)
Lemma place_all_locate (entries : list (condition * (Q * Q)))
    (r : station_row) :
  exclusive entries ->
  fold_left (fun r e => place e r) entries r = locate entries r.
Proof.
  unfold exclusive, locate. intros Hx. revert r.
  induction Hx as [|[c [lat lon]] es Hc Hx IH]; intros r; [reflexivity|].
  cbn [fold_left find fst snd place].
  destruct (holds c (name r)) eqn:Eh.
  - apply place_none. apply Forall_forall. intros e He.
    cbn [set_coordinates name].
    destruct (holds (fst e) (name r)) eqn:Ee; [|reflexivity].
    exfalso. exact (proj1 (Forall_forall _ _) Hc e He (name r) Eh Ee).
  - apply IH.
Qed.

Lemma count_named_map (c : condition) (f : station_row -> station_row)
    (l : list station_row) :
  (forall r, name (f r) = name r) ->
  count_named c (map f l) = count_named c l.
Proof.
  intros Hf. unfold count_named.
  induction l as [|r l IH]; [reflexivity|].
  cbn [map filter]. rewrite Hf.
  destruct (holds c (name r)); cbn [length]; now rewrite IH.
Qed.

Lemma coords_loop (entries : list (condition * (Q * Q))) (s : session) :
  exists s',
    for_each entries
      (fun '(cond, (lat, lon)) s =>
         let '(d, rowcount) :=
           update_coordinates (fun r => holds cond (name r)) lat lon (db s) in
         ret (print (CoordsSet cond rowcount) (execute d s)))
      s = inr s'
    /\ stations (db s')
       = map (fun r => fold_left (fun r e => place e r) entries r)
             (stations (db s))
    /\ station_reports (db s') = station_reports (db s)
    /\ fact_tables (db s') = fact_tables (db s)
    /\ stdout s'
       = (stdout s
            ++ map (fun e => CoordsSet (fst e)
                               (count_named (fst e) (stations (db s))))
                   entries)%list.
Proof.
  revert s. induction entries as [|[c [lat lon]] es IH]; intros s.
  - exists s. cbn [for_each map fold_left].
    rewrite map_id, app_nil_r. now repeat split.
  - cbn [for_each]. unfold update_coordinates.
    cbn [bind ret].
    match goal with
    | |- context [for_each es _ ?s1] =>
        destruct (IH s1) as [s' [E [Hs [Hr [Hf Hout]]]]]
    end.
    exists s'. split; [exact E|].
    cbn [db stdout print execute with_stations stations station_reports
         fact_tables] in Hs, Hr, Hf, Hout.
    repeat split; auto.
    + rewrite Hs, map_map. reflexivity.
    + rewrite Hout. cbn [map fst]. rewrite <- app_assoc. cbn [app].
      f_equal. unfold count_named at 2. f_equal.
      apply map_ext. intros e.
      f_equal. apply count_named_map. intros r.
      now destruct (holds c (name r)).
Qed.

Lemma set_station_coords_result (s : session) :
  exists s',
    set_station_coords s = inr s'
    /\ stations (db s') = map (locate coords) (stations (db s))
    /\ station_reports (db s') = station_reports (db s)
    /\ fact_tables (db s') = fact_tables (db s)
    /\ stdout s'
       = (stdout s
            ++ map (fun e => CoordsSet (fst e)
                               (count_named (fst e) (stations (db s))))
                   coords)%list.
Proof.
  destruct (coords_loop coords s) as [s' [E [Hs [Hr [Hf Hout]]]]].
  exists s'. split; [exact E|]. repeat split; auto.
  rewrite Hs. apply map_ext. intros r.
  apply place_all_locate, coords_exclusive.
Qed.

Lemma locate_name (entries : list (condition * (Q * Q))) (r : station_row) :
  name (locate entries r) = name r.
Proof.
  unfold locate.
  now destruct (find (fun entry => holds (fst entry) (name r)) entries).
Qed.

Lemma locate_again (entries : list (condition * (Q * Q))) (r : station_row) :
  locate entries (locate entries r) = locate entries r.
Proof.
  unfold locate at 1. rewrite locate_name. unfold locate.
  now destruct (find (fun entry => holds (fst entry) (name r)) entries).
Qed.

Lemma set_station_coords_twice (s : session) :
  exists s1 s2,
    set_station_coords s = inr s1
    /\ set_station_coords s1 = inr s2
    /\ db s2 = db s1
    /\ stdout s2
       = (stdout s1
            ++ map (fun e => CoordsSet (fst e)
                               (count_named (fst e) (stations (db s))))
                   coords)%list.
Proof.
  destruct (set_station_coords_result s) as [s1 [E1 [Hs1 [Hr1 [Hf1 _]]]]].
  destruct (set_station_coords_result s1) as [s2 [E2 [Hs2 [Hr2 [Hf2 Hout]]]]].
  exists s1, s2. repeat split; auto.
  - destruct (db s2) as [a b c], (db s1) as [a1 b1 c1].
    cbn [stations station_reports fact_tables] in *. subst b c.
    f_equal. rewrite Hs2, Hs1, map_map. apply map_ext. intros r.
    apply locate_again.
  - rewrite Hout. f_equal. apply map_ext. intros e. f_equal.
    rewrite Hs1. apply count_named_map. intros r. apply locate_name.
Qed.

(** X9: step 4 always returns.  No name matches two of its seven
    prefixes, so no UPDATE overwrites another: a station row gets the
    coordinates of the one prefix its name starts with,
    case-insensitively, and is left alone when there is none; ids, names
    and the other columns, [station_reports] and the fact tables are
    unchanged, and the count printed for a prefix is the number of rows
    whose name starts with it. *)
Theorem station_coords_by_prefix (s : session) :
  exclusive coords
  /\ exists s',
       set_station_coords s = inr s'
       /\ stations (db s') = map (locate coords) (stations (db s))
       /\ station_reports (db s') = station_reports (db s)
       /\ fact_tables (db s') = fact_tables (db s)
       /\ stdout s'
          = (stdout s
               ++ map (fun e => CoordsSet (fst e)
                                  (count_named (fst e) (stations (db s))))
                      coords)%list.
Proof. split; [apply coords_exclusive|apply set_station_coords_result]. Qed.

(** X10: a second run of step 4 leaves the database as the first run
    left it, and prints the same counts as the first: the rowcount of an
    UPDATE counts the rows its WHERE clause selects, changed or not. *)
Theorem station_coords_again (s : session) :
  exists s1 s2,
    set_station_coords s = inr s1
    /\ set_station_coords s1 = inr s2
    /\ db s2 = db s1
    /\ stdout s2
       = (stdout s1
            ++ map (fun e => CoordsSet (fst e)
                               (count_named (fst e) (stations (db s))))
                   coords)%list.
Proof. apply set_station_coords_twice. Qed.

(** ** References from [station_reports] *)

Lemma foreign_key_refers (d : database) :
  foreign_key d = true <->
  forall r i, In r (station_reports d) -> report_station_id r = Some i ->
              In i (map station_id (stations d)).
Proof.
  unfold foreign_key. rewrite forallb_forall. split.
  - intros H r i Hr Ei. specialize (H r Hr). rewrite Ei in H.
    apply existsb_exists in H as [t [Ht Et]]. apply Z.eqb_eq in Et.
    subst i. now apply in_map.
  - intros H r Hr. destruct (report_station_id r) as [i|] eqn:Ei; [|reflexivity].
    specialize (H r i Hr Ei). apply in_map_iff in H as [t [Et Ht]].
    apply existsb_exists. exists t. split; [exact Ht|now apply Z.eqb_eq].
Qed.

Lemma NoDup_distinct (ids : list Z) : NoDup ids -> distinct ids = true.
Proof.
  induction 1 as [|i ids Hi _ IH]; [reflexivity|].
  cbn [distinct]. rewrite IH, andb_true_r. apply negb_true_iff.
  apply not_true_iff_false. intros H. apply existsb_exists in H as [j [Hj E]].
  apply Z.eqb_eq in E. now subst j.
Qed.

Lemma delete_keeps_id (id j : Z) (l : list station_row) :
  j <> id -> In j (map station_id l) ->
  In j (map station_id
          (filter (fun r => negb (station_id r =? id)%Z) l)).
Proof.
  intros Hne Hin. apply in_map_iff in Hin as [t [<- Ht]].
  apply in_map. apply filter_In. split; [exact Ht|].
  now apply negb_true_iff, Z.eqb_neq.
Qed.

(** Merging the row [id] into an existing row [c] leaves no report
    dangling. *)
Lemma merge_keeps_foreign_key (c id : Z) (d : database) :
  id <> c -> In c (map station_id (stations d)) ->
  foreign_key d = true ->
  foreign_key (delete_station id (update_reports c id d)) = true.
Proof.
  intros Hne Hc Hfk. rewrite foreign_key_refers in *.
  cbn [delete_station update_reports with_stations with_reports stations
       station_reports].
  intros r i Hr Ei. apply in_map_iff in Hr as [r0 [<- Hr]].
  unfold repoint in Ei. destruct (is_report_of id r0) eqn:E.
  - cbn [report_station_id] in Ei. injection Ei as <-.
    apply delete_keeps_id; auto.
  - apply delete_keeps_id; [|now apply (Hfk r0)].
    intros ->. unfold is_report_of in E. rewrite Ei in E.
    now rewrite Z.eqb_refl in E.
Qed.

Lemma merge_variant_consistent (n : string) (id : Z) (old_name : string)
    (st st' : session * option Z) :
  consistent n st ->
  In id (map station_id (stations (db (fst st)))) ->
  (forall c, snd st = Some c -> id <> c) ->
  merge_variant n (id, old_name) st = inr st' ->
  consistent n st'
  /\ snd st' = Some (match snd st with
                     | Some c => c
                     | None => id
                     end)
  /\ fact_tables (db (fst st')) = fact_tables (db (fst st))
  /\ forall j, j <> id -> In j (map station_id (stations (db (fst st)))) ->
               In j (map station_id (stations (db (fst st')))).
Proof.
  destruct st as [s [c|]]; cbn [fst snd merge_variant];
    intros [Hkey [Hanchor [Hc Hfk]]] Hid Hne.
  - specialize (Hne c eq_refl). specialize (Hc c eq_refl).
    intros [= <-]. unfold consistent. cbn [fst snd print execute db].
    split; [|split; [reflexivity|split; [reflexivity|]]].
    + split; [now apply merge_keeps_key|]. split; [|split].
      * intros r Hr. apply filter_In in Hr as [Hr _]. now apply Hanchor.
      * intros c' [= <-]. apply delete_keeps_id; auto.
      * now apply merge_keeps_foreign_key.
    + intros j Hj Hin. now apply delete_keeps_id.
  - destruct (rename_station n id (db s)) as [e|d'] eqn:E; [discriminate|].
    cbn [bind ret]. intros [= <-]. unfold consistent.
    cbn [fst snd print execute db].
    destruct (rename_result _ _ _ _ E) as [Hs [Hr Hf]].
    split; [|split; [reflexivity|split; [exact Hf|]]].
    + split; [now rewrite Hs, renamed_ids|]. split; [|split].
      * intros r Hin Er. rewrite Hs in Hin.
        apply in_map_iff in Hin as [r0 [<- Hin]]. revert Er. unfold renamed.
        destruct (station_id r0 =? id)%Z eqn:E0; [reflexivity|].
        intros Er. apply Z.eqb_neq in E0. contradiction.
      * intros c' [= <-]. now rewrite Hs, renamed_ids.
      * rewrite foreign_key_refers in *. rewrite Hs, Hr, renamed_ids.
        exact Hfk.
    + intros j _ Hin. now rewrite Hs, renamed_ids.
Qed.

Lemma merge_matches_consistent (n : string) (cond : condition)
    (st st' : session * option Z) :
  consistent n st ->
  for_each (select_variants cond n (db (fst st))) (merge_variant n) st
  = inr st' ->
  consistent n st' /\ fact_tables (db (fst st')) = fact_tables (db (fst st)).
Proof.
  intros Hc E.
  pose (P := fun (ms : list (Z * string)) (st1 : session * option Z) =>
               consistent n st1
               /\ fact_tables (db (fst st1)) = fact_tables (db (fst st))
               /\ NoDup (map fst ms)
               /\ (forall c, snd st1 = Some c -> ~ In c (map fst ms))
               /\ (forall j, In j (map fst ms) ->
                             In j (map station_id
                                     (stations (db (fst st1)))))).
  assert (H : P [] st'); [|now destruct H as [H1 [H2 _]]].
  apply (for_each_keeps P (merge_variant n)) with
    (xs := select_variants cond n (db (fst st))) (s := st); [| |exact E].
  - intros [id old_name] rest s1 s2 [Hi [Hf [Hnd [Hne Hin]]]] E1.
    cbn [map fst] in *. inversion Hnd as [|? ? Hfresh Hnd']; subst.
    destruct (merge_variant_consistent n id old_name s1 s2 Hi)
      as [Hi' [Hc' [Hf' Hkeep]]]; [| |exact E1|].
    { apply Hin. now left. }
    { intros c Ec <-. apply (Hne id Ec). now left. }
    split; [exact Hi'|]. split; [congruence|]. split; [exact Hnd'|].
    split.
    + intros c Ec Hc0. rewrite Hc' in Ec. injection Ec as <-.
      destruct (snd s1) as [c0|] eqn:E0; [|contradiction].
      apply (Hne c0 eq_refl). now right.
    + intros j Hj. apply Hkeep; [now intros ->|]. apply Hin. now right.
  - destruct Hc as [Hkey [Hanchor [Hc Hfk]]].
    split; [now repeat split|]. split; [reflexivity|].
    rewrite select_variants_ids.
    split; [now apply NoDup_map_filter|]. split.
    + intros c Ec Hin. apply in_map_iff in Hin as [r [Er Hr]].
      apply filter_In in Hr as [Hr Hb]. apply andb_prop in Hb as [_ Hb].
      apply negb_true_iff, String.eqb_neq in Hb. apply Hb.
      rewrite Ec in Hanchor. now apply Hanchor.
    + intros j Hj. apply in_map_iff in Hj as [r [<- Hr]].
      apply filter_In in Hr as [Hr _]. now apply in_map.
Qed.

Lemma merge_stations_consistent (conds : list condition) (n : string)
    (st st' : session * option Z) :
  consistent n st ->
  merge_stations conds n st = inr st' ->
  consistent n st' /\ fact_tables (db (fst st')) = fact_tables (db (fst st)).
Proof.
  intros Hc E. unfold merge_stations in E.
  pose (P := fun (_ : list condition) (st1 : session * option Z) =>
               consistent n st1
               /\ fact_tables (db (fst st1)) = fact_tables (db (fst st))).
  apply (for_each_keeps P
           (fun cond st =>
              for_each (select_variants cond n (db (fst st)))
                (merge_variant n) st))
    with (xs := conds) (s := st) (s' := st'); [| |exact E].
  - intros cond rest s1 s2 [Hi Hf] E1.
    destruct (merge_matches_consistent n cond s1 s2 Hi E1) as [Hi' Hf'].
    split; [exact Hi'|congruence].
  - now split.
Qed.

Lemma select_id_exists (n : string) (d : database) (c : Z) :
  select_id_by_name n d = Some c -> In c (map station_id (stations d)).
Proof.
  unfold select_id_by_name.
  destruct (filter (fun r => name r =? n) (stations d)) as [|r0 l] eqn:E;
    [discriminate|].
  intros [= <-]. apply in_map.
  assert (H0 : In r0 (filter (fun r => name r =? n) (stations d)))
    by (rewrite E; now left).
  now apply filter_In in H0 as [H0 _].
Qed.

Lemma coordinates_ids (p : station_row -> bool) (lat lon : Q)
    (l : list station_row) :
  map station_id (map (fun r => if p r then set_coordinates lat lon r else r) l)
  = map station_id l.
Proof.
  rewrite map_map. apply map_ext. intros r. now destruct (p r).
Qed.

(** [set_coords] keeps the key and the references. *)
Lemma set_coords_keeps_references (conds : list condition) (n : string)
    (lat lon : Q) (s : session) :
  primary_key (db s) = true ->
  targets_exist (db s) = true ->
  foreign_key (db s) = true ->
  exists s',
    set_coords conds n lat lon s = inr s'
    /\ primary_key (db s') = true
    /\ foreign_key (db s') = true
    /\ targets_exist (db s') = true.
Proof.
  intros Hkey Hex Hfk.
  destruct (set_coords_returns conds n lat lon s Hkey Hex)
    as [s' [lines [E [_ [_ [_ [_ [Hex' _]]]]]]]].
  exists s'. split; [exact E|].
  apply distinct_NoDup in Hkey.
  unfold set_coords in E.
  destruct (merge_stations conds n (s, select_id_by_name n (db s)))
    as [e|[s1 c1]] eqn:E1; [discriminate|].
  cbn [bind] in E.
  assert (H0 : consistent n (s, select_id_by_name n (db s))).
  { split; [exact Hkey|]. split; [now apply select_id_anchored|].
    split; [|exact Hfk]. cbn [fst snd]. apply select_id_exists. }
  destruct (merge_stations_consistent conds n _ _ H0 E1)
    as [[Hkey1 [_ [_ Hfk1]]] Hf1].
  cbn [fst snd] in *.
  unfold update_coordinates in E.
  match type of E with
  | standardize_tables _ _ ?s2 = _ =>
      destruct (standardize_tables_returns conds n (stdout s2) s2)
        as [s'' [E2 [F1 [F2 _]]]]
  end.
  { intros t Ht. unfold table_exists.
    cbn [print execute db with_stations fact_tables]. rewrite Hf1.
    now apply (proj1 (targets_exist_tables _) Hex). }
  { exists []. split; [now rewrite app_nil_r|reflexivity]. }
  rewrite E in E2. injection E2 as <-.
  cbn [print execute db with_stations stations station_reports] in F1, F2.
  split; [|split].
  - unfold primary_key. rewrite F1, coordinates_ids.
    now apply NoDup_distinct.
  - rewrite foreign_key_refers in *. rewrite F1, F2, coordinates_ids.
    exact Hfk1.
  - now apply targets_exist_tables.
Qed.

(** X11: on a database in which [station_id] is a key, the five fact
    tables exist and every report with a station refers to a station row,
    [set_coords] returns and all three still hold: the merges leave no
    report pointing at a deleted row. *)
Theorem set_coords_keeps_foreign_key (name_like_conditions : list condition)
    (new_name : string) (lat lon : Q) (s : session) :
  primary_key (db s) = true ->
  targets_exist (db s) = true ->
  foreign_key (db s) = true ->
  exists s',
    set_coords name_like_conditions new_name lat lon s = inr s'
    /\ primary_key (db s') = true
    /\ foreign_key (db s') = true
    /\ targets_exist (db s') = true.
Proof. apply set_coords_keeps_references. Qed.

Lemma set_coords_keeps_foreign_key_witness :
  primary_key sample_db = true
  /\ targets_exist sample_db = true
  /\ foreign_key sample_db = true
  /\ exists s',
       set_coords sitabaldi_conditions "Sitabaldi (Nagpur)" 21.1430 79.0871
         (session_on sample_db) = inr s'
       /\ foreign_key (db s') = true.
Proof.
  split; [reflexivity|]. split; [reflexivity|]. split; [reflexivity|].
  destruct (set_coords_keeps_foreign_key sitabaldi_conditions
              "Sitabaldi (Nagpur)" 21.1430 79.0871 (session_on sample_db)
              eq_refl eq_refl eq_refl) as [s' [E [_ [Hfk _]]]].
  exists s'. now split.
Defined.

(** ** The Rangoon loop: references, and the case without an anchor *)

(** The Rangoon loop, when it returns, keeps the key, the references and
    the fact tables. *)
Lemma rangoon_stations_keeps_references (s s' : session) :
  primary_key (db s) = true ->
  foreign_key (db s) = true ->
  rangoon_stations s = inr s' ->
  primary_key (db s') = true
  /\ foreign_key (db s') = true
  /\ fact_tables (db s') = fact_tables (db s).
Proof.
  intros Hkey Hfk. apply distinct_NoDup in Hkey.
  unfold rangoon_stations.
  set (rangoon_id := select_id_by_name "Rangoon" (db s)).
  set (cond := LowerLike "india (british burma)").
  pose (P := fun (rest : list (Z * string)) (st : session * nat) =>
               NoDup (map station_id (stations (db (fst st))))
               /\ foreign_key (db (fst st)) = true
               /\ fact_tables (db (fst st)) = fact_tables (db s)
               /\ (forall a, rangoon_id = Some a ->
                             In a (map station_id (stations (db (fst st))))
                             /\ ~ In a (map fst rest))).
  match goal with
  | |- context [for_each ?xs ?body ?init] =>
      destruct (for_each xs body init) as [e|[s1 merged]] eqn:E;
      [discriminate|
       apply (for_each_keeps P body) in E]
  end.
  - destruct E as [Hk [Hf [Ht _]]]. cbn [fst] in *.
    intros [= <-]. cbn [print db]. split; [now apply NoDup_distinct|].
    now split.
  - intros [id old_name] rest [s2 m] st' [Hk [Hf [Ht Hanchor]]].
    cbn [fst snd map] in *.
    destruct rangoon_id as [a|] eqn:Er.
    + intros [= <-]. destruct (Hanchor a eq_refl) as [Ha Hna].
      assert (Hid : id <> a) by (intros ->; apply Hna; now left).
      unfold P. cbn [fst print execute db].
      split; [now apply merge_keeps_key|].
      split; [now apply merge_keeps_foreign_key|].
      split; [exact Ht|].
      intros a0 [= <-]. split; [now apply delete_keeps_id|].
      intros Hin. apply Hna. now right.
    + destruct (rename_station "Rangoon" id (db s2)) as [e|d'] eqn:En;
        [discriminate|].
      intros [= <-].
      destruct (rename_result _ _ _ _ En) as [Hs [Hr Hft]].
      unfold P. cbn [fst print execute db].
      split; [now rewrite Hs, renamed_ids|]. split; [|split].
      * rewrite foreign_key_refers in *. now rewrite Hs, Hr, renamed_ids.
      * congruence.
      * discriminate.
  - split; [exact Hkey|]. split; [exact Hfk|]. split; [reflexivity|].
    cbn [fst]. intros a Ea. split; [now apply select_id_exists in Ea|].
    rewrite select_where_ids. intros Hin.
    apply in_map_iff in Hin as [r [Er Hr]].
    apply filter_In in Hr as [Hr Hc].
    assert (Hn : name r = "Rangoon").
    { assert (Ha := select_id_anchored "Rangoon" (db s) Hkey).
      fold rangoon_id in Ha. rewrite Ea in Ha. now apply (Ha r). }
    rewrite Hn in Hc. discriminate Hc.
Qed.

Lemma select_id_none (n : string) (d : database) :
  select_id_by_name n d = None ->
  forall r, In r (stations d) -> name r <> n.
Proof.
  unfold select_id_by_name.
  destruct (filter (fun r => name r =? n) (stations d)) as [|r0 l] eqn:E;
    [|discriminate].
  intros _ r Hr En.
  assert (In r []) as []. rewrite <- E. apply filter_In.
  split; [exact Hr|now apply String.eqb_eq].
Qed.

(** Renaming an existing row to a free name changes that row. *)
Lemma rename_free (n : string) (id : Z) (d : database) :
  NoDup (map station_id (stations d)) ->
  (forall r, In r (stations d) -> name r <> n) ->
  exists d',
    rename_station n id d = inr d'
    /\ stations d' = map (renamed n id) (stations d)
    /\ station_reports d' = station_reports d
    /\ fact_tables d' = fact_tables d.
Proof.
  intros Hkey Hfree.
  destruct (rename_returns n id d Hkey Hfree) as [d' E].
  exists d'. split; [exact E|]. now apply rename_result.
Qed.

(** Renaming a second row to a name that is taken violates UNIQUE. *)
Lemma rename_taken (n : string) (id other : Z) (d : database) :
  In id (map station_id (stations d)) ->
  other <> id ->
  (exists r, In r (stations d) /\ station_id r = other /\ name r = n) ->
  rename_station n id d = inl IntegrityError.
Proof.
  intros Hid Hne [r [Hr [Er En]]]. unfold rename_station.
  destruct (filter (fun r => (station_id r =? id)%Z) (stations d))
    as [|t more] eqn:E.
  - apply in_map_iff in Hid as [t [Et Ht]].
    assert (In t []) as []. rewrite <- E. apply filter_In.
    split; [exact Ht|now apply Z.eqb_eq].
  - assert (Hothers :
              existsb (fun r => name r =? n)
                (filter (fun r => negb (station_id r =? id)%Z) (stations d))
              = true).
    { apply existsb_exists. exists r. split; [|now apply String.eqb_eq].
      apply filter_In. split; [exact Hr|].
      apply negb_true_iff, Z.eqb_neq. congruence. }
    now rewrite Hothers.
Qed.

(** Without a row called Rangoon: no match, nothing happens; one match,
    it is renamed; two or more, the second UPDATE violates the UNIQUE
    constraint on [name]. *)
Lemma rangoon_stations_without_anchor (s : session) :
  primary_key (db s) = true ->
  select_id_by_name "Rangoon" (db s) = None ->
  match select_where (LowerLike "india (british burma)") (db s) with
  | [] => rangoon_stations s = inr (print (RangoonOperations 0) s)
  | [(id, old_name)] =>
      rangoon_stations s
      = inr (print (RangoonOperations 1)
               (print (RenamedToRangoon old_name)
                  (execute (with_stations
                              (map (renamed "Rangoon" id) (stations (db s)))
                              (db s)) s)))
  | _ :: _ :: _ => rangoon_stations s = inl IntegrityError
  end.
Proof.
  intros Hkey Hnone. apply distinct_NoDup in Hkey.
  assert (Hfree := select_id_none _ _ Hnone).
  unfold rangoon_stations. rewrite Hnone.
  assert (Hids := select_where_ids (LowerLike "india (british burma)") (db s)).
  destruct (select_where (LowerLike "india (british burma)") (db s))
    as [|[id1 n1] [|[id2 n2] rest]] eqn:Ew.
  - reflexivity.
  - cbn [for_each bind ret].
    destruct (rename_free "Rangoon" id1 (db s) Hkey Hfree)
      as [d' [E [Hs [Hr Hf]]]].
    rewrite E. cbn [bind ret]. do 3 f_equal.
    destruct d' as [a b c], (db s) as [a0 b0 c0].
    cbn [stations station_reports fact_tables with_stations] in *.
    now subst.
  - cbn [for_each bind ret].
    destruct (rename_free "Rangoon" id1 (db s) Hkey Hfree)
      as [d' [E [Hs [Hr Hf]]]].
    rewrite E. cbn [bind ret execute print db].
    assert (Hin : forall i, In i (map fst ((id1, n1) :: (id2, n2) :: rest)) ->
                            In i (map station_id (stations (db s)))).
    { rewrite Hids. intros i Hi. apply in_map_iff in Hi as [r [<- Hr']].
      apply filter_In in Hr' as [Hr' _]. now apply in_map. }
    assert (Hnd : NoDup (map fst ((id1, n1) :: (id2, n2) :: rest)))
      by (rewrite Hids; now apply NoDup_map_filter).
    cbn [map fst] in Hin, Hnd.
    rewrite (rename_taken "Rangoon" id2 id1 d'); [reflexivity| | |].
    + rewrite Hs, renamed_ids. apply Hin. right. now left.
    + inversion Hnd as [|? ? Hfresh _]; subst. intros ->. apply Hfresh.
      now left.
    + assert (H1 : In id1 (map station_id (stations (db s))))
        by (apply Hin; now left).
      apply in_map_iff in H1 as [r [Er Hr']].
      exists (renamed "Rangoon" id1 r). rewrite Hs.
      split; [now apply in_map|]. unfold renamed.
      rewrite <- Er, Z.eqb_refl. now split.
Qed.

(** X12: when the Rangoon loop over [stations] returns on a database in
    which [station_id] is a key and every report with a station refers
    to a station row, both still hold afterwards, and the fact tables are
    as they were. *)
Theorem rangoon_loop_keeps_foreign_key (s s' : session) :
  primary_key (db s) = true ->
  foreign_key (db s) = true ->
  rangoon_stations s = inr s' ->
  primary_key (db s') = true
  /\ foreign_key (db s') = true
  /\ fact_tables (db s') = fact_tables (db s).
Proof. apply rangoon_stations_keeps_references. Qed.

Lemma rangoon_loop_keeps_foreign_key_witness :
  primary_key sample_db = true
  /\ foreign_key sample_db = true
  /\ exists s',
       rangoon_stations (session_on sample_db) = inr s'
       /\ foreign_key (db s') = true.
Proof.
  split; [reflexivity|]. split; [reflexivity|].
  eexists. split; [vm_compute; reflexivity|].
  refine (proj1 (proj2 (rangoon_loop_keeps_foreign_key
                          (session_on sample_db) _ eq_refl eq_refl _))).
  vm_compute. reflexivity.
Defined.

(** X13: the Rangoon loop on a database in which [station_id] is a key
    and no row is called Rangoon.  With no row that starts with
    india (british burma) it changes nothing; with one, it renames that
    row; with two or more, the second rename violates the UNIQUE
    constraint on [name] and the loop ends with IntegrityError. *)
Theorem rangoon_loop_without_rangoon (s : session) :
  primary_key (db s) = true ->
  select_id_by_name "Rangoon" (db s) = None ->
  (select_where (LowerLike "india (british burma)") (db s) = [] ->
   rangoon_stations s = inr (print (RangoonOperations 0) s))
  /\ (forall id old_name,
         select_where (LowerLike "india (british burma)") (db s)
         = [(id, old_name)] ->
         rangoon_stations s
         = inr (print (RangoonOperations 1)
                  (print (RenamedToRangoon old_name)
                     (execute (with_stations
                                 (map (renamed "Rangoon" id)
                                      (stations (db s)))
                                 (db s)) s))))
  /\ ((2 <= length (select_where (LowerLike "india (british burma)") (db s)))%nat ->
      rangoon_stations s = inl IntegrityError).
Proof.
  intros Hkey Hnone.
  assert (H := rangoon_stations_without_anchor s Hkey Hnone).
  destruct (select_where (LowerLike "india (british burma)") (db s))
    as [|[id1 n1] [|[id2 n2] rest]].
  - split; [now intros _|]. split; [discriminate|].
    cbn [length]. lia.
  - split; [discriminate|]. split; [now intros id old_name [= <- <-]|].
    cbn [length]. lia.
  - split; [discriminate|]. split; [discriminate|]. now intros _.
Qed.

Lemma rangoon_loop_without_rangoon_witness :
  primary_key burma_db = true
  /\ select_id_by_name "Rangoon" burma_db = None
  /\ rangoon_stations (session_on burma_db) = inl IntegrityError.
Proof.
  split; [reflexivity|]. split; [reflexivity|].
  apply (rangoon_loop_without_rangoon (session_on burma_db)
           eq_refl eq_refl).
  vm_compute. lia.
Defined.

(** ** What [set_coords] achieves *)

(** X14: when no row is called [new_name] on entry and [set_coords]
    returns, the promotions and merges it printed are either none, or
    one promotion followed by merges into the promoted row only. *)
Theorem set_coords_promotes_at_most_once
    (name_like_conditions : list condition) (new_name : string)
    (lat lon : Q) (s s' : session) :
  select_id_by_name new_name (db s) = None ->
  set_coords name_like_conditions new_name lat lon s = inr s' ->
  exists lines,
    stdout s' = (stdout s ++ lines)%list
    /\ (filter is_merge_line lines = []
        \/ exists old_name id rest,
             filter is_merge_line lines
             = Promoted old_name id new_name :: rest
             /\ merges_into id rest).
Proof. apply set_coords_promotes_once. Qed.

Lemma set_coords_promotes_at_most_once_witness :
  select_id_by_name "Sitabaldi (Nagpur)" sample_db = None
  /\ exists s' lines,
       set_coords sitabaldi_conditions "Sitabaldi (Nagpur)" 21.1430 79.0871
         (session_on sample_db) = inr s'
       /\ stdout s' = lines
       /\ filter is_merge_line lines
          = [Promoted "Seetabuldee" 1 "Sitabaldi (Nagpur)";
             MergedDuplicate "Sitabaldi" 2 1].
Proof.
  split; [reflexivity|].
  eexists. eexists. split; [vm_compute; reflexivity|].
  split; [reflexivity|].
  match goal with
  | |- context [stdout ?s1] =>
      destruct (set_coords_promotes_at_most_once sitabaldi_conditions
                  "Sitabaldi (Nagpur)" 21.1430 79.0871
                  (session_on sample_db) s1 eq_refl)
        as [lines [Hout _]]
  end.
  - vm_compute. reflexivity.
  - vm_compute. reflexivity.
Defined.

(** X15: on a database in which [station_id] is a key and the five fact
    tables exist, [set_coords] returns and leaves the database
    standardized: no station row that satisfies one of the conditions
    has another name than [new_name], every row called [new_name] has
    the coordinates, and in each of the five tables every row whose
    [station] satisfies one of the conditions carries [new_name]. *)
Theorem set_coords_standardizes (name_like_conditions : list condition)
    (new_name : string) (lat lon : Q) (s : session) :
  primary_key (db s) = true ->
  targets_exist (db s) = true ->
  exists s',
    set_coords name_like_conditions new_name lat lon s = inr s'
    /\ standardized name_like_conditions new_name lat lon (db s').
Proof.
  intros Hkey Hex.
  destruct (set_coords_returns name_like_conditions new_name lat lon s
              Hkey Hex) as [s' [lines [E [_ [_ Hstd]]]]].
  now exists s'.
Qed.

Lemma set_coords_standardizes_witness :
  primary_key sample_db = true
  /\ targets_exist sample_db = true
  /\ exists s',
       set_coords sitabaldi_conditions "Sitabaldi (Nagpur)" 21.1430 79.0871
         (session_on sample_db) = inr s'
       /\ located "Sitabaldi (Nagpur)" 21.1430 79.0871 (stations (db s')).
Proof.
  split; [reflexivity|]. split; [reflexivity|].
  destruct (set_coords_standardizes sitabaldi_conditions
              "Sitabaldi (Nagpur)" 21.1430 79.0871 (session_on sample_db)
              eq_refl eq_refl) as [s' [E [_ [Hloc _]]]].
  exists s'. now split.
Defined.

(** ** What the updates leave alone *)

Lemma preserved_refl (d : database) : preserved d d.
Proof. repeat split. apply incl_refl. Qed.

Lemma preserved_trans (d1 d2 d3 : database) :
  preserved d1 d2 -> preserved d2 d3 -> preserved d1 d3.
Proof.
  intros [A1 [B1 C1]] [A2 [B2 C2]].
  split; [congruence|]. split; [congruence|].
  now apply incl_tran with (m := map station_id (stations d2)).
Qed.

Lemma update_table_cells (table : string) (cond : condition) (n : string)
    (tables tables' : list (string * list fact_row)) :
  update_table table (map (rewrite_row cond n)) tables = Some tables' ->
  map (fun t => (fst t, map other_columns (snd t))) tables'
  = map (fun t => (fst t, map other_columns (snd t))) tables.
Proof.
  revert tables'. induction tables as [|[t0 rows0] tables IH]; [discriminate|].
  intros tables'. cbn [update_table].
  destruct (t0 =? table).
  - intros [= <-]. cbn [map fst snd]. do 2 f_equal.
    rewrite map_map. apply map_ext. intros r. unfold rewrite_row.
    now destruct (holds_cell cond (station r)).
  - destruct (update_table table _ tables) as [rest'|]; [|discriminate].
    intros [= <-]. cbn [map fst snd]. f_equal. now apply IH.
Qed.

Lemma update_fact_preserved (table : string) (cond : condition) (n : string)
    (d d' : database) (rowcount : nat) :
  update_fact table cond n d = inr (d', rowcount) -> preserved d d'.
Proof.
  unfold update_fact.
  destruct (lookup_table table (fact_tables d)) as [rows|]; [|discriminate].
  destruct (update_table table _ (fact_tables d)) as [tables'|] eqn:E;
    [|discriminate].
  intros [= <- _]. unfold preserved, other_cells, report_keys.
  cbn [with_fact_tables stations station_reports fact_tables].
  split; [now apply update_table_cells in E|]. split; [reflexivity|].
  apply incl_refl.
Qed.

Lemma merge_preserved (c id : Z) (d : database) :
  preserved d (delete_station id (update_reports c id d)).
Proof.
  unfold preserved, other_cells, report_keys.
  cbn [delete_station update_reports with_stations with_reports stations
       station_reports fact_tables].
  split; [reflexivity|]. split.
  - rewrite map_map. apply map_ext. intros r. unfold repoint.
    now destruct (is_report_of id r).
  - intros i Hi. apply in_map_iff in Hi as [r [<- Hr]].
    apply filter_In in Hr as [Hr _]. now apply in_map.
Qed.

Lemma rename_preserved (n : string) (id : Z) (d d' : database) :
  rename_station n id d = inr d' -> preserved d d'.
Proof.
  intros E. destruct (rename_result _ _ _ _ E) as [Hs [Hr Hf]].
  unfold preserved, other_cells, report_keys.
  rewrite Hs, Hr, Hf, renamed_ids. repeat split. apply incl_refl.
Qed.

Lemma coordinates_preserved (p : station_row -> bool) (lat lon : Q)
    (d : database) :
  preserved d (fst (update_coordinates p lat lon d)).
Proof.
  unfold preserved, other_cells, report_keys, update_coordinates.
  cbn [fst with_stations stations station_reports fact_tables].
  rewrite coordinates_ids. repeat split. apply incl_refl.
Qed.

Lemma update_station_name_preserved (table : string) (cond : condition)
    (n : string) (s s' : session) (rowcount : nat) :
  update_station_name table cond n s = inr (s', rowcount) ->
  preserved (db s) (db s').
Proof.
  unfold update_station_name.
  destruct (update_fact table cond n (db s)) as [e|[d rc]] eqn:E;
    [discriminate|].
  cbn [bind ret]. intros [= <- _]. cbn [execute db].
  now apply update_fact_preserved in E.
Qed.

Lemma rangoon_tables_preserved (s s' : session) :
  rangoon_tables s = inr s' -> preserved (db s) (db s').
Proof.
  unfold rangoon_tables. intros E.
  match type of E with
  | for_each ?xs ?body ?init = _ =>
      apply (for_each_keeps (fun _ s1 => preserved (db s) (db s1)) body) in E
  end; [exact E| |apply preserved_refl].
  - intros table rest s1 s2 H1.
    destruct (update_station_name table _ "Rangoon" s1)
      as [e|[sa rc1]] eqn:E1; [discriminate|]. cbn [bind].
    destruct (update_station_name table _ "Rangoon" sa)
      as [e|[sb rc2]] eqn:E2; [discriminate|]. cbn [bind].
    destruct (update_station_name table _ "Rangoon" sb)
      as [e|[sc rc3]] eqn:E3; [discriminate|]. cbn [bind ret].
    intros [= <-]. cbn [print db].
    apply update_station_name_preserved in E1, E2, E3.
    eauto using preserved_trans.
Qed.

(** A loop over a state whose database only moves along [preserved]. *)
Lemma for_each_preserved {A S : Type} (view : S -> database)
    (body : A -> S -> result S) :
  (forall x s s', body x s = inr s' -> preserved (view s) (view s')) ->
  forall xs s s', for_each xs body s = inr s' ->
                  preserved (view s) (view s').
Proof.
  intros Hbody xs s s' E.
  apply (for_each_keeps (fun _ s1 => preserved (view s) (view s1)) body)
    in E; [exact E| |apply preserved_refl].
  intros x rest s1 s2 H1 E1. apply Hbody in E1.
  now apply preserved_trans with (d2 := view s1).
Qed.

Lemma rangoon_stations_preserved (s s' : session) :
  rangoon_stations s = inr s' -> preserved (db s) (db s').
Proof.
  unfold rangoon_stations.
  match goal with
  | |- context [for_each ?xs ?body ?init] =>
      destruct (for_each xs body init) as [e|[s1 merged]] eqn:E;
      [discriminate|
       apply (for_each_preserved (fun st => db (fst st)) body) in E]
  end.
  - cbn [bind ret fst] in *. now intros [= <-].
  - intros [id old_name] [s2 m] st'.
    destruct (select_id_by_name "Rangoon" (db s)) as [a|].
    + intros [= <-]. cbn [fst print execute db]. apply merge_preserved.
    + destruct (rename_station "Rangoon" id (db s2)) as [e|d'] eqn:En;
        [discriminate|].
      intros [= <-]. cbn [fst print execute db].
      now apply rename_preserved in En.
Qed.

Lemma merge_variant_preserved (n : string) (v : Z * string)
    (st st' : session * option Z) :
  merge_variant n v st = inr st' -> preserved (db (fst st)) (db (fst st')).
Proof.
  destruct v as [id old_name], st as [s [c|]]; cbn [merge_variant fst].
  - intros [= <-]. cbn [fst print execute db]. apply merge_preserved.
  - destruct (rename_station n id (db s)) as [e|d'] eqn:En; [discriminate|].
    intros [= <-]. cbn [fst print execute db].
    now apply rename_preserved in En.
Qed.

Lemma merge_stations_preserved (conds : list condition) (n : string)
    (st st' : session * option Z) :
  merge_stations conds n st = inr st' ->
  preserved (db (fst st)) (db (fst st')).
Proof.
  unfold merge_stations.
  apply (for_each_preserved (fun st => db (fst st))).
  intros cond s1 s2.
  apply (for_each_preserved (fun st => db (fst st))).
  intros v s3 s4. apply merge_variant_preserved.
Qed.

Lemma standardize_tables_preserved (conds : list condition) (n : string)
    (s s' : session) :
  standardize_tables conds n s = inr s' -> preserved (db s) (db s').
Proof.
  unfold standardize_tables.
  apply (for_each_preserved db). intros table s1 s2.
  apply (for_each_preserved db). intros cond s3 s4.
  destruct (update_fact table cond n (db s3)) as [e|[d rc]] eqn:E;
    [discriminate|].
  cbn [bind ret]. intros [= <-]. cbn [print execute db].
  now apply update_fact_preserved in E.
Qed.

Lemma set_coords_preserved (conds : list condition) (n : string)
    (lat lon : Q) (s s' : session) :
  set_coords conds n lat lon s = inr s' -> preserved (db s) (db s').
Proof.
  unfold set_coords.
  destruct (merge_stations conds n (s, select_id_by_name n (db s)))
    as [e|[s1 c1]] eqn:E1; [discriminate|].
  cbn [bind]. apply merge_stations_preserved in E1. cbn [fst] in E1.
  assert (E2 := coordinates_preserved (fun r => name r =? n) lat lon (db s1)).
  destruct (update_coordinates (fun r => name r =? n) lat lon (db s1))
    as [d rc].
  cbn [fst] in E2. intros E3. apply standardize_tables_preserved in E3.
  cbn [print execute db] in E3. eauto using preserved_trans.
Qed.

Lemma set_station_coords_preserved (s s' : session) :
  set_station_coords s = inr s' -> preserved (db s) (db s').
Proof.
  unfold set_station_coords. apply (for_each_preserved db).
  intros [cond [lat lon]] s1 s2.
  assert (E := coordinates_preserved (fun r => holds cond (name r)) lat lon
                 (db s1)).
  destruct (update_coordinates _ lat lon (db s1)) as [d rc].
  cbn [fst] in E. intros [= <-]. exact E.
Qed.

Lemma updates_preserved (s s' : session) :
  updates s = inr s' -> preserved (db s) (db s').
Proof.
  unfold updates.
  destruct (rangoon_tables s) as [e|s1] eqn:E1; [discriminate|]. cbn [bind].
  destruct (rangoon_stations s1) as [e|s2] eqn:E2; [discriminate|]. cbn [bind].
  destruct (set_coords _ _ _ _ s2) as [e|s3] eqn:E3; [discriminate|].
  cbn [bind]. intros E4.
  apply rangoon_tables_preserved in E1.
  apply rangoon_stations_preserved in E2.
  apply set_coords_preserved in E3.
  apply set_station_coords_preserved in E4.
  eauto using preserved_trans.
Qed.

(** ** Steps 2 to 4 as a whole *)

(** With the five fact tables, a key on [station_id] and a row called
    Rangoon, steps 2 to 4 run to the end and keep the key and the
    references. *)
Lemma updates_result (s : session) :
  primary_key (db s) = true ->
  foreign_key (db s) = true ->
  targets_exist (db s) = true ->
  select_id_by_name "Rangoon" (db s) <> None ->
  exists s',
    updates s = inr s'
    /\ primary_key (db s') = true
    /\ foreign_key (db s') = true
    /\ targets_exist (db s') = true.
Proof.
  intros Hkey Hfk Hex Hr. unfold updates.
  destruct (rangoon_tables_result s Hex)
    as [s1 [E1 [Hs1 [Hr1 [_ [Hin1 _]]]]]].
  rewrite E1. cbn [bind].
  assert (Hkey1 : primary_key (db s1) = true)
    by (unfold primary_key in *; now rewrite Hs1).
  assert (Hfk1 : foreign_key (db s1) = true)
    by (unfold foreign_key in *; now rewrite Hs1, Hr1).
  assert (Hex1 : targets_exist (db s1) = true).
  { apply targets_exist_tables. intros t Ht. unfold table_exists.
    now rewrite (Hin1 t Ht). }
  destruct (rangoon_stations_returns s1) as [s2 E2].
  { unfold select_id_by_name in *. now rewrite Hs1. }
  rewrite E2. cbn [bind].
  destruct (rangoon_stations_keeps_references s1 s2 Hkey1 Hfk1 E2)
    as [Hkey2 [Hfk2 Hf2]].
  assert (Hex2 : targets_exist (db s2) = true)
    by (unfold targets_exist in *; now rewrite Hf2).
  destruct (set_coords_keeps_references sitabaldi_conditions
              "Sitabaldi (Nagpur)" 21.1430%Q 79.0871%Q s2 Hkey2 Hex2 Hfk2)
    as [s3 [E3 [Hkey3 [Hfk3 Hex3]]]].
  rewrite E3. cbn [bind].
  destruct (set_station_coords_result s3) as [s4 [E4 [Hs4 [Hr4 [Hf4 _]]]]].
  exists s4. split; [exact E4|].
  assert (Hids : map station_id (stations (db s4))
                 = map station_id (stations (db s3))).
  { rewrite Hs4, map_map. apply map_ext. intros r. unfold locate.
    now destruct (find _ coords). }
  split; [|split].
  - unfold primary_key in *. now rewrite Hids.
  - rewrite foreign_key_refers in *. now rewrite Hr4, Hids.
  - unfold targets_exist in *. now rewrite Hf4.
Qed.

Lemma forallb_same {A : Type} (f g : A -> bool) (l : list A) :
  (forall x, f x = g x) -> forallb f l = forallb g l.
Proof.
  intros H. induction l as [|x l IH]; [reflexivity|].
  cbn [forallb]. now rewrite H, IH.
Qed.

(** When one of the five tables is missing, its first UPDATE fails. *)
Lemma rangoon_tables_missing (s : session) :
  targets_exist (db s) = false ->
  rangoon_tables s = inl OperationalError.
Proof.
  unfold rangoon_tables, targets_exist.
  generalize rangoon_targets as targets. intros targets. revert s.
  induction targets as [|t targets IH]; intros s; [discriminate|].
  cbn [forallb for_each].
  destruct (lookup_table t (fact_tables (db s))) as [rows|] eqn:E.
  - cbn [andb]. intros Hrest.
    destruct (rangoon_table t s rows E) as [s1 [E1 [_ [_ [_ [_ [_ _]]]]]]].
    rewrite E1. cbn [bind].
    destruct (rangoon_table t s rows E) as [s1' [E1' [_ [_ [_ [L1 [F1 _]]]]]]].
    assert (s1' = s1) as -> by congruence.
    apply IH. etransitivity; [|exact Hrest]. apply forallb_same. intros t'.
    destruct (String.eqb_spec t' t) as [->|Hne].
    + now rewrite L1, E.
    + now rewrite (F1 t' Hne).
  - intros _. unfold update_station_name at 1, update_fact. rewrite E.
    reflexivity.
Qed.

(** X16: when steps 2 to 4 return, they have changed nothing but names
    and coordinates of station rows, the [station_id] of reports and the
    [station] column of fact tables, and deleted nothing but station
    rows: every fact table has its rows, in order, with their other
    cells; [station_reports] has its rows with their [report_id] and
    [doc_id]; and no station row has an id that was not there before. *)
Theorem updates_touch_only_station_cells (s s' : session) :
  updates s = inr s' -> preserved (db s) (db s').
Proof. apply updates_preserved. Qed.

Lemma updates_touch_only_station_cells_witness :
  exists s',
    updates (session_on sample_db) = inr s'
    /\ other_cells (db s') = other_cells sample_db
    /\ report_keys (db s') = report_keys sample_db.
Proof.
  eexists. split; [vm_compute; reflexivity|].
  match goal with
  | |- other_cells (db ?s1) = _ /\ _ =>
      destruct (updates_touch_only_station_cells (session_on sample_db) s1)
        as [H1 [H2 _]]
  end.
  - vm_compute. reflexivity.
  - split; [exact H1|exact H2].
Defined.

(** ** A whole run of [update_standardizations.py] *)

Lemma append_length (a b : string) :
  String.length (a ++ b) = (String.length a + String.length b)%nat.
Proof. induction a as [|c a IH]; cbn; [reflexivity|now rewrite IH]. Qed.

Lemma append_same_prefix (p a b : string) : p ++ a = p ++ b -> a = b.
Proof.
  induction p as [|c p IH]; cbn [append]; [auto|].
  intros [= H]. now apply IH.
Qed.

Lemma append_same_suffix (a b q : string) : a ++ q = b ++ q -> a = b.
Proof.
  revert b. induction a as [|c a IH]; intros [|c' b] H.
  - reflexivity.
  - apply (f_equal String.length) in H. cbn [append] in H.
    change (String.length q = S (String.length (b ++ q))) in H.
    rewrite append_length in H. lia.
  - apply (f_equal String.length) in H. cbn [append] in H.
    change (S (String.length (a ++ q)) = String.length q) in H.
    rewrite append_length in H. lia.
  - cbn [append] in H. injection H as -> H. f_equal. now apply IH.
Qed.

(** Two clock readings give two backup files. *)
Lemma backup_path_injective (stamp stamp' : string) :
  backup_path stamp = backup_path stamp' -> stamp = stamp'.
Proof.
  unfold backup_path. intros H.
  apply append_same_prefix in H. now apply append_same_suffix in H.
Qed.

Section Runs.

Import Fs.

Lemma copy2_keeps_others (dst p : string) (fs fs' : filesystem database) :
  p <> dst -> copy2 dst fs = inr fs' -> backup_at p fs' = backup_at p fs.
Proof.
  intros Hne. unfold copy2, backup_at.
  destruct (db_file fs) as [content|]; [|discriminate].
  destruct (backup_dir fs) as [files0|]; [|discriminate].
  destruct (writable fs); [|discriminate].
  intros [= <-]. cbn [log backup_dir filter fst].
  apply String.eqb_neq in Hne. rewrite String.eqb_sym, Hne.
  replace (filter (fun f => fst f =? p)
             (filter (fun f => negb (fst f =? dst)) files0))
    with (filter (fun f : string * database => fst f =? p) files0);
    [reflexivity|].
  induction files0 as [|f files0 IH]; [reflexivity|].
  cbn [filter]. destruct (fst f =? dst) eqn:Ed; cbn [negb filter].
  - apply String.eqb_eq in Ed. rewrite Ed, String.eqb_sym, Hne. exact IH.
  - destruct (fst f =? p); [now rewrite IH|exact IH].
Qed.

Lemma makedirs_keeps_backups (p : string) (fs fs' : filesystem database) :
  makedirs fs = inr fs' ->
  backup_at p fs' = backup_at p fs /\ db_file fs' = db_file fs
  /\ writable fs' = writable fs.
Proof.
  unfold makedirs, backup_at.
  destruct (backup_dir fs) as [files0|] eqn:E.
  - intros [= <-]. now rewrite E.
  - destruct (writable fs); [|discriminate]. intros [= <-]. now cbn.
Qed.

(** A run leaves the backups of other runs as they are. *)
Lemma run_keeps_backups (stamp p : string) (fs : filesystem database) :
  p <> backup_path stamp ->
  backup_at p (files (run stamp fs)) = backup_at p fs.
Proof.
  intros Hne. unfold run.
  destruct (makedirs fs) as [e|fs1] eqn:E1; [reflexivity|].
  destruct (makedirs_keeps_backups p _ _ E1) as [H1 _].
  destruct (copy2 (backup_path stamp) fs1) as [e|fs2] eqn:E2;
    [exact H1|].
  assert (H2 := copy2_keeps_others _ p _ _ Hne E2).
  destruct (db_file fs2) as [d|]; cbn [files]; [|congruence].
  destruct (updates _) as [e|s]; cbn [files]; unfold backup_at in *;
    cbn [commit log backup_dir]; congruence.
Qed.

(** What a run does on a writable location, up to the connection. *)
Lemma run_backed_up (stamp : string) (fs : filesystem database)
    (d : database) :
  db_file fs = Some d -> writable fs = true ->
  exists fs',
    run stamp fs
    = match updates (session_on d) with
      | inl e => {| files := log Connect fs'; raised := Some e |}
      | inr s => {| files := commit (db s) (log Connect fs'); raised := None |}
      end
    /\ db_file fs' = Some d
    /\ backup_at (backup_path stamp) fs' = Some d.
Proof.
  intros Ed Ew. unfold run, makedirs, copy2.
  destruct fs as [file dir w j].
  cbn [db_file backup_dir writable journal] in *. subst file w.
  destruct dir as [files0|];
    cbn [db_file backup_dir writable journal log bind ret];
    (eexists; split; [reflexivity|]);
    (split; [reflexivity|]);
    unfold backup_at; cbn [log backup_dir filter fst];
    now rewrite String.eqb_refl.
Qed.

(** A run on a database that lacks one of the five tables. *)
Lemma run_missing_table_result (stamp : string) (fs : filesystem database)
    (d : database) :
  db_file fs = Some d -> writable fs = true ->
  targets_exist d = false ->
  raised (run stamp fs) = Some OperationalError
  /\ db_file (files (run stamp fs)) = Some d
  /\ backup_at (backup_path stamp) (files (run stamp fs)) = Some d.
Proof.
  intros Ed Ew Hex.
  destruct (run_backed_up stamp fs d Ed Ew) as [fs' [E [Hd Hb]]].
  rewrite E. unfold updates.
  rewrite (rangoon_tables_missing (session_on d) Hex).
  cbn [bind files raised]. split; [reflexivity|]. now split.
Qed.

(** A run on a database that has what the script expects. *)
Lemma run_result (stamp : string) (fs : filesystem database) (d : database) :
  db_file fs = Some d -> writable fs = true ->
  primary_key d = true -> foreign_key d = true ->
  targets_exist d = true -> select_id_by_name "Rangoon" d <> None ->
  exists d',
    raised (run stamp fs) = None
    /\ db_file (files (run stamp fs)) = Some d'
    /\ backup_at (backup_path stamp) (files (run stamp fs)) = Some d
    /\ primary_key d' = true
    /\ foreign_key d' = true
    /\ targets_exist d' = true
    /\ preserved d d'.
Proof.
  intros Ed Ew Hkey Hfk Hex Hr.
  destruct (run_backed_up stamp fs d Ed Ew) as [fs' [E [Hd Hb]]].
  destruct (updates_result (session_on d) Hkey Hfk Hex Hr)
    as [s' [E' [Hkey' [Hfk' Hex']]]].
  rewrite E, E'. exists (db s'). cbn [files raised].
  split; [reflexivity|]. split; [reflexivity|].
  split; [exact Hb|]. split; [exact Hkey'|]. split; [exact Hfk'|].
  split; [exact Hex'|]. now apply updates_preserved in E'.
Qed.

(** X17: on a writable location, with a database in which [station_id]
    is a key, every report with a station refers to a station row, the
    five fact tables exist and a row is called Rangoon, a run of
    [update_standardizations.py] raises nothing and commits; the backup
    holds the database as it was, and the committed database still has
    the key, the references and the five tables, with the fact rows,
    the reports and the station ids preserved. *)
Theorem run_succeeds (stamp : string) (fs : filesystem database)
    (d : database) :
  db_file fs = Some d -> writable fs = true ->
  primary_key d = true -> foreign_key d = true ->
  targets_exist d = true -> select_id_by_name "Rangoon" d <> None ->
  exists d',
    raised (run stamp fs) = None
    /\ db_file (files (run stamp fs)) = Some d'
    /\ backup_at (backup_path stamp) (files (run stamp fs)) = Some d
    /\ primary_key d' = true
    /\ foreign_key d' = true
    /\ targets_exist d' = true
    /\ preserved d d'.
Proof. apply run_result. Qed.

Lemma run_succeeds_witness :
  exists d',
    raised (run "1873-01-01_120000" (sample_fs sample_db)) = None
    /\ db_file (files (run "1873-01-01_120000" (sample_fs sample_db)))
       = Some d'
    /\ foreign_key d' = true.
Proof.
  destruct (run_succeeds "1873-01-01_120000" (sample_fs sample_db) sample_db
              eq_refl eq_refl eq_refl eq_refl eq_refl)
    as [d' [H1 [H2 [_ [_ [H3 _]]]]]]; [discriminate|].
  exists d'. repeat split; assumption.
Defined.

(** X18: when one of the five fact tables is missing, a run on a
    writable location makes its backup, ends with OperationalError at the
    first UPDATE of the missing table, commits nothing and leaves the
    database file as it was. *)
Theorem run_missing_table (stamp : string) (fs : filesystem database)
    (d : database) :
  db_file fs = Some d -> writable fs = true ->
  targets_exist d = false ->
  raised (run stamp fs) = Some OperationalError
  /\ db_file (files (run stamp fs)) = Some d
  /\ backup_at (backup_path stamp) (files (run stamp fs)) = Some d.
Proof. apply run_missing_table_result. Qed.

Lemma run_missing_table_witness :
  raised (run "1873-01-01_120000" (sample_fs stations_only_db))
  = Some OperationalError
  /\ db_file (files (run "1873-01-01_120000" (sample_fs stations_only_db)))
     = Some stations_only_db.
Proof.
  destruct (run_missing_table "1873-01-01_120000"
              (sample_fs stations_only_db) stations_only_db
              eq_refl eq_refl eq_refl) as [H1 [H2 _]].
  now split.
Defined.

(** X19: a run leaves the backup files of other clock readings as they
    are, whether it commits or fails: two clock readings give two file
    names, and the copy writes one file only. *)
Theorem run_keeps_earlier_backups (stamp stamp' : string)
    (fs : filesystem database) :
  stamp' <> stamp ->
  backup_path stamp' <> backup_path stamp
  /\ backup_at (backup_path stamp') (files (run stamp fs))
     = backup_at (backup_path stamp') fs.
Proof.
  intros Hne.
  assert (Hp : backup_path stamp' <> backup_path stamp)
    by (intros H; now apply backup_path_injective in H).
  split; [exact Hp|]. now apply run_keeps_backups.
Qed.

Lemma run_keeps_earlier_backups_witness :
  backup_at (backup_path "1873-01-01_120000")
    (files (run "1873-01-02_120000"
              (files (run "1873-01-01_120000" (sample_fs sample_db)))))
  = Some sample_db.
Proof.
  rewrite (proj2 (run_keeps_earlier_backups "1873-01-02_120000"
                    "1873-01-01_120000"
                    (files (run "1873-01-01_120000" (sample_fs sample_db)))
                    ltac:(discriminate))).
  vm_compute. reflexivity.
Defined.

End Runs.
